(** * id-photo-ocr-uploader: the backend, embedded and verified

    A shallow embedding of the Express backend of the ID photo uploader:
    the error middleware, the Mongoose model [IDData], the save/query
    controller, the HEIC conversion service, the OCR client and the upload
    controller.  Handlers are functions from an explicit world (the
    collection, the upload directory, the outcomes of the external calls)
    to a new world and either a response or a thrown error.

    Strings are sequences of ASCII characters: [length] is JavaScript's
    [.length], and the case and white-space functions below are those of
    JavaScript restricted to code units below 128. *)

From Stdlib Require Import ZArith QArith String Ascii List Bool Lia.
From Stdlib Require Import Sorted Permutation.
From Stdlib Require Import DecimalString.
From stdpp Require Import base strings gmap.

Set Warnings "-register-all".

Local Open Scope string_scope.
Local Open Scope Z_scope.

(* ===================================================================== *)
(** * JavaScript strings *)
(* ===================================================================== *)

Module JS.

Definition code (c : ascii) : N := N_of_ascii c.

Definition between (lo hi : N) (c : ascii) : bool :=
  ((lo <=? code c) && (code c <=? hi))%N.

(** The code units the case functions below treat as JavaScript does. *)
Definition is_ascii (c : ascii) : bool := (code c <? 128)%N.

(** [\s] and the characters [trim] strips: TAB, LF, VT, FF, CR, SPACE. *)
Definition is_space (c : ascii) : bool :=
  between 9 13 c || (code c =? 32)%N.

(** [\d] *)
Definition is_digit (c : ascii) : bool := between 48 57 c.

(** [[A-Z]] and [[a-z]] *)
Definition is_upper (c : ascii) : bool := between 65 90 c.
Definition is_lower (c : ascii) : bool := between 97 122 c.

(** [[0-9a-fA-F]] *)
Definition is_hex (c : ascii) : bool :=
  is_digit c || between 97 102 c || between 65 70 c.

Definition lower_char (c : ascii) : ascii :=
  if is_upper c then ascii_of_N (code c + 32) else c.

Definition upper_char (c : ascii) : ascii :=
  if is_lower c then ascii_of_N (code c - 32) else c.

Fixpoint map_chars (f : ascii -> ascii) (s : string) : string :=
  match s with
  | EmptyString => EmptyString
  | String c s' => String (f c) (map_chars f s')
  end.

Fixpoint filter_chars (p : ascii -> bool) (s : string) : string :=
  match s with
  | EmptyString => EmptyString
  | String c s' => if p c then String c (filter_chars p s') else filter_chars p s'
  end.

Fixpoint all_chars (p : ascii -> bool) (s : string) : bool :=
  match s with
  | EmptyString => true
  | String c s' => p c && all_chars p s'
  end.

(** [s.toLowerCase()], [s.toUpperCase()] *)
Definition toLowerCase : string -> string := map_chars lower_char.
Definition toUpperCase : string -> string := map_chars upper_char.

(** [s.trimStart()], [s.trimEnd()], [s.trim()] *)
Fixpoint trimStart (s : string) : string :=
  match s with
  | EmptyString => EmptyString
  | String c s' => if is_space c then trimStart s' else s
  end.

Fixpoint trimEnd (s : string) : string :=
  match s with
  | EmptyString => EmptyString
  | String c s' =>
      match trimEnd s' with
      | EmptyString => if is_space c then EmptyString else String c EmptyString
      | t => String c t
      end
  end.

Definition trim (s : string) : string := trimEnd (trimStart s).

(** [s.startsWith(p)] *)
Fixpoint startsWith (p s : string) : bool :=
  match p, s with
  | EmptyString, _ => true
  | String _ _, EmptyString => false
  | String a p', String b s' => Ascii.eqb a b && startsWith p' s'
  end.

(** [s.includes(p)] *)
Fixpoint includes (p s : string) : bool :=
  startsWith p s ||
  match s with
  | EmptyString => false
  | String _ s' => includes p s'
  end.

(** [s.substring(0, n)] for a non-negative [n] *)
Fixpoint take (n : nat) (s : string) : string :=
  match n, s with
  | O, _ => EmptyString
  | _, EmptyString => EmptyString
  | S n', String c s' => String c (take n' s')
  end.

(** [s.split(sep).pop()]: what follows the last [sep], the whole string
    when [sep] does not occur. *)
Fixpoint after_last (sep : ascii) (s : string) : string :=
  match s with
  | EmptyString => EmptyString
  | String c s' =>
      if Ascii.eqb c sep then after_last sep s'
      else if includes (String sep EmptyString) s' then after_last sep s'
      else s
  end.

(** [s.replace(/\s+/g, '_')]: every maximal run of white space becomes
    one underscore. *)
Fixpoint replace_spaces (in_run : bool) (s : string) : string :=
  match s with
  | EmptyString => EmptyString
  | String c s' =>
      if is_space c
      then (if in_run then replace_spaces true s'
            else String "_" (replace_spaces true s'))
      else String c (replace_spaces false s')
  end.

(** [s.replace(/\D/g, '')] *)
Definition digits_only : string -> string := filter_chars is_digit.

(** Decimal text of an integer, as template literals print it. *)
Definition decimal (z : Z) : string := NilEmpty.string_of_int (Z.to_int z).

End JS.

(* ===================================================================== *)
(** * middleware/errorHandler *)
(* ===================================================================== *)

Module ErrorHandler.

(** The [status] property of a thrown value: the numeric HTTP status on
    the errors of the OCR SDK, the text ['fail'] / ['error'] on the
    errors built by [createError], absent elsewhere. *)
Inductive StatusProp :=
| StatusAbsent
| StatusNumber (n : Z)
| StatusText (s : string).

Record ApiError := {
  name : string;
  message : string;
  statusCode : option Z;
  status : StatusProp
}.

(** [new Error(message)] *)
Definition plainError (msg : string) : ApiError :=
  {| name := "Error"; message := msg; statusCode := None; status := StatusAbsent |}.

Definition createError (msg : string) (code : Z) : ApiError :=
  {| name := "Error";
     message := msg;
     statusCode := Some code;
     status := StatusText (if JS.startsWith "4" (JS.decimal code) then "fail" else "error") |}.

(** What the client receives for an error: the HTTP status and
    [error.message] of the JSON body ([success] is [false]).  The
    [stack] and [details] keys added in development mode are not
    modelled. *)
Record ErrorResponse := {
  res_status : Z;
  res_message : string
}.

Definition errorHandler (err : ApiError) : ErrorResponse :=
  (* Default error values *)
  let statusCode0 :=
    match statusCode err with
    | Some c => if c =? 0 then 500 else c
    | None => 500
    end in
  let message0 :=
    if String.eqb (message err) "" then "Internal Server Error" else message err in
  (* Handle specific multer errors *)
  let '(statusCode1, message1) :=
    if String.eqb (name err) "MulterError" then
      if JS.includes "File too large" (message err)
      then (413, "File too large. Maximum size is 10MB.")
      else if JS.includes "Unexpected field" (message err)
      then (400, "Invalid file field name.")
      else (400, "File upload error: " ++ message err)
    else (statusCode0, message0) in
  (* Handle validation errors *)
  let '(statusCode2, message2) :=
    if String.eqb (name err) "ValidationError"
    then (400, "Validation Error: " ++ message err)
    else (statusCode1, message1) in
  (* Handle Anthropic API errors *)
  let '(statusCode3, message3) :=
    if JS.includes "Anthropic" (message err)
    then (503, "OCR service temporarily unavailable. Please try again later.")
    else (statusCode2, message2) in
  {| res_status := statusCode3; res_message := message3 |}.

(** A handler wrapped in [asyncHandler] either sends its own response or
    rejects, and the rejection reaches [errorHandler] through [next]. *)
Inductive Outcome (A : Type) :=
| Returned (a : A)
| Thrown (e : ApiError).
Arguments Returned {A} a.
Arguments Thrown {A} e.

Inductive Reply (A : Type) :=
| Json (code : Z) (body : A)
| ErrorJson (r : ErrorResponse).
Arguments Json {A} code body.
Arguments ErrorJson {A} r.

Definition asyncHandler {A} (o : Outcome (Z * A)) : Reply A :=
  match o with
  | Returned (code, body) => Json code body
  | Thrown e => ErrorJson (errorHandler e)
  end.

Definition reply_status {A} (r : Reply A) : Z :=
  match r with
  | Json code _ => code
  | ErrorJson e => res_status e
  end.

End ErrorHandler.

(* ===================================================================== *)
(** * models/IDData *)
(* ===================================================================== *)

Module IDData.

(** The schema, its setters and validators, the pre-save hook and the
    static [findBySearchTerm], over a collection held as the list of its
    documents in insertion order.  The [createdAt] and [updatedAt] stamps
    of [timestamps: true] never reach a response and are left out; the
    declared indexes are not unique and have no effect on a result. *)

(** A stored value that is [null] or present. *)
Inductive Nullable (A : Type) :=
| Null
| Val (a : A).
Arguments Null {A}.
Arguments Val {A} a.

(** ** ObjectId: 12 bytes, printed as 24 lower-case hexadecimal digits *)

Definition ObjectId := N.

Definition hex_char (d : N) : ascii :=
  if (d <? 10)%N then ascii_of_N (48 + d) else ascii_of_N (87 + d).

Fixpoint hex_digits (k : nat) (n : N) (acc : string) : string :=
  match k with
  | O => acc
  | S k' => hex_digits k' (n / 16)%N (String (hex_char (n mod 16)%N) acc)
  end.

Definition toHexString (oid : ObjectId) : string := hex_digits 24 oid "".

Definition hex_value (c : ascii) : option N :=
  if JS.is_digit c then Some (JS.code c - 48)%N
  else if JS.between 97 102 c then Some (JS.code c - 87)%N
  else if JS.between 65 70 c then Some (JS.code c - 55)%N
  else None.

Fixpoint parse_hex (s : string) (acc : N) : option N :=
  match s with
  | EmptyString => Some acc
  | String c s' =>
      match hex_value c with
      | Some v => parse_hex s' (16 * acc + v)%N
      | None => None
      end
  end.

(** The cast of a 24-digit hexadecimal string to an ObjectId. *)
Definition castObjectId (s : string) : option ObjectId :=
  if (String.length s =? 24)%nat then parse_hex s 0%N else None.

(** ** The document (interface [IIDData]) *)

Record IIDData := {
  _id : ObjectId;
  (* Personal Information *)
  id : option string;
  lastName : option string;
  firstName : option string;
  middleInitial : option string;
  (* Address Information *)
  addressStreet : option string;
  addressCity : option string;
  addressState : option string;
  addressZip : option string;
  (* Additional Information *)
  sex : option string;
  dob : option string;
  (* Metadata *)
  confidence : Nullable Q;
  sourceFileName : option string;
  extractedAt : Z;
  lastModified : Z;
  isManuallyEdited : bool
}.

(** The identity fields of the plain object handed to the model
    constructor; [None] is an absent key. *)
Record Attrs := {
  a_id : option string;
  a_lastName : option string;
  a_firstName : option string;
  a_middleInitial : option string;
  a_addressStreet : option string;
  a_addressCity : option string;
  a_addressState : option string;
  a_addressZip : option string;
  a_sex : option string;
  a_dob : option string;
  a_confidence : option Q;
  a_sourceFileName : option string
}.

(** ** Setters: [trim: true] and [uppercase: true] *)

Definition set_trim (v : option string) : option string := JS.trim <$> v.

(** Both flags on one path.  The two setters commute (lemma
    [upper_trim_comm] below), so the order Mongoose runs them in does not
    show. *)
Definition set_trim_upper (v : option string) : option string :=
  (fun s => JS.toUpperCase (JS.trim s)) <$> v.

(** [default: null] *)
Definition default_null (v : option Q) : Nullable Q :=
  match v with
  | Some q => Val q
  | None => Null
  end.

(** A document in memory: its values, whether it has been inserted yet,
    and the paths Mongoose has marked as modified.  [isModified(path)]
    asks whether [path] is among them. *)
Record Document := {
  doc : IIDData;
  isNew : bool;
  modifiedPaths : list string
}.

Definition isModified (path : string) (d : Document) : bool :=
  existsb (String.eqb path) (modifiedPaths d).

Definition present {A} (key : string) (v : option A) : list string :=
  match v with
  | Some _ => [key]
  | None => []
  end.

(** [new IDData({...obj, extractedAt, lastModified, isManuallyEdited})]:
    every key of the object is set through its setters, and the validators
    later see the values the setters produced.  Mongoose marks a path as
    modified whenever it is set on a document that is still new, so every
    key of the object is among the modified paths.  [oid] is the ObjectId
    the constructor generates. *)
Definition new_IDData (oid : ObjectId) (obj : Attrs)
    (extractedAt0 lastModified0 : Z) (isManuallyEdited0 : bool) : Document :=
  {| doc :=
       {| _id := oid;
          id := set_trim (a_id obj);
          lastName := set_trim (a_lastName obj);
          firstName := set_trim (a_firstName obj);
          middleInitial := set_trim_upper (a_middleInitial obj);
          addressStreet := set_trim (a_addressStreet obj);
          addressCity := set_trim (a_addressCity obj);
          addressState := set_trim (a_addressState obj);
          addressZip := set_trim (a_addressZip obj);
          sex := set_trim_upper (a_sex obj);
          dob := set_trim (a_dob obj);
          confidence := default_null (a_confidence obj);
          sourceFileName := set_trim (a_sourceFileName obj);
          extractedAt := extractedAt0;
          lastModified := lastModified0;
          isManuallyEdited := isManuallyEdited0 |};
     isNew := true;
     modifiedPaths :=
       (present "id" (a_id obj) ++ present "lastName" (a_lastName obj)
        ++ present "firstName" (a_firstName obj)
        ++ present "middleInitial" (a_middleInitial obj)
        ++ present "addressStreet" (a_addressStreet obj)
        ++ present "addressCity" (a_addressCity obj)
        ++ present "addressState" (a_addressState obj)
        ++ present "addressZip" (a_addressZip obj)
        ++ present "sex" (a_sex obj) ++ present "dob" (a_dob obj)
        ++ present "confidence" (a_confidence obj)
        ++ present "sourceFileName" (a_sourceFileName obj)
        ++ ["extractedAt"; "lastModified"; "isManuallyEdited"])%list |}.

(** ** Validators *)

(** [!v] on a string path *)
Definition falsy (v : option string) : bool :=
  match v with
  | Some s => String.eqb s ""
  | None => true
  end.

Definition test (re : string -> bool) (v : option string) : bool :=
  match v with
  | Some s => re s
  | None => false
  end.

Fixpoint eat_digits (k : nat) (s : string) : option string :=
  match k, s with
  | O, _ => Some s
  | S k', String c s' => if JS.is_digit c then eat_digits k' s' else None
  | S _, EmptyString => None
  end.

Definition eat_char (c : ascii) (s : string) : option string :=
  match s with
  | String d s' => if Ascii.eqb c d then Some s' else None
  | EmptyString => None
  end.

(** The fixed-shape patterns of the schema: runs of [\d{k}] and literal
    characters, anchored at both ends. *)
Inductive piece :=
| Digits (k : nat)
| Lit (c : ascii).

Fixpoint eat (ps : list piece) (s : string) : option string :=
  match ps with
  | [] => Some s
  | Digits k :: ps' =>
      match eat_digits k s with
      | Some rest => eat ps' rest
      | None => None
      end
  | Lit c :: ps' =>
      match eat_char c s with
      | Some rest => eat ps' rest
      | None => None
      end
  end.

Definition anchored (ps : list piece) (s : string) : bool :=
  match eat ps s with
  | Some EmptyString => true
  | _ => false
  end.

(** [/^[A-Z]$/] *)
Definition re_capital (s : string) : bool :=
  match s with
  | String c EmptyString => JS.is_upper c
  | _ => false
  end.

(** [/^\d{5}(-\d{4})?$/] *)
Definition re_zip (s : string) : bool :=
  anchored [Digits 5] s || anchored [Digits 5; Lit "-"; Digits 4] s.

(** [/^(\d{4}-\d{2}-\d{2}|\d{2}\/\d{2}\/\d{4})$/] *)
Definition re_date (s : string) : bool :=
  anchored [Digits 4; Lit "-"; Digits 2; Lit "-"; Digits 2] s
  || anchored [Digits 2; Lit "/"; Digits 2; Lit "/"; Digits 4] s.

Definition required (v : option string) : bool := negb (falsy v).

Definition maxlength (n : nat) (v : option string) : bool :=
  match v with
  | Some s => (String.length s <=? n)%nat
  | None => true
  end.

Definition enum (values : list string) (v : option string) : bool :=
  match v with
  | Some s => existsb (String.eqb s) values
  | None => true
  end.

Definition in_range (v : Nullable Q) : bool * bool :=
  match v with
  | Val q => (Qle_bool 0 q, Qle_bool q 1)
  | Null => (true, true)
  end.

Definition shown (v : option string) : string := default "" v.

(** Mongoose's message templates for the built-in validators. *)
Definition msg_maxlength (path : string) (v : option string) (n : string) : string :=
  "Path `" ++ path ++ "` (`" ++ shown v
    ++ "`) is longer than the maximum allowed length (" ++ n ++ ").".

Definition msg_enum (path : string) (v : option string) : string :=
  "`" ++ shown v ++ "` is not a valid enum value for path `" ++ path ++ "`.".

(** The number itself is left out of the two range messages; the save
    controller never reaches them, since its own schema bounds
    [confidence] first. *)
Definition msg_min : string :=
  "Path `confidence` is less than minimum allowed value (0).".
Definition msg_max : string :=
  "Path `confidence` is more than maximum allowed value (1).".

(** One path reports its first failing validator. *)
Fixpoint first_failure (checks : list (bool * string)) : list string :=
  match checks with
  | [] => []
  | (ok, msg) :: rest => if ok then first_failure rest else [msg]
  end.

Definition sex_values : list string := ["M"; "F"; "Male"; "Female"].

Definition validate_sex (d : IIDData) : list string :=
  first_failure [(enum sex_values (sex d), msg_enum "sex" (sex d))].

Definition validate_before_sex (d : IIDData) : list string :=
  (first_failure [(maxlength 50 (id d), msg_maxlength "id" (id d) "50")]
   ++ first_failure [(required (lastName d), "Last name is required");
                     (maxlength 100 (lastName d), msg_maxlength "lastName" (lastName d) "100")]
   ++ first_failure [(required (firstName d), "First name is required");
                     (maxlength 100 (firstName d), msg_maxlength "firstName" (firstName d) "100")]
   ++ first_failure [(maxlength 1 (middleInitial d),
                      msg_maxlength "middleInitial" (middleInitial d) "1");
                     (falsy (middleInitial d) || test re_capital (middleInitial d),
                      "Middle initial must be a single letter")]
   ++ first_failure [(maxlength 200 (addressStreet d),
                      msg_maxlength "addressStreet" (addressStreet d) "200")]
   ++ first_failure [(maxlength 100 (addressCity d),
                      msg_maxlength "addressCity" (addressCity d) "100")]
   ++ first_failure [(maxlength 50 (addressState d),
                      msg_maxlength "addressState" (addressState d) "50")]
   ++ first_failure [(maxlength 20 (addressZip d),
                      msg_maxlength "addressZip" (addressZip d) "20");
                     (falsy (addressZip d) || test re_zip (addressZip d),
                      "Invalid ZIP code format")])%list.

Definition validate_after_sex (d : IIDData) : list string :=
  (first_failure [(falsy (dob d) || test re_date (dob d),
                   "Invalid date format. Use YYYY-MM-DD or MM/DD/YYYY")]
   ++ first_failure [(fst (in_range (confidence d)), msg_min);
                     (snd (in_range (confidence d)), msg_max)]
   ++ first_failure [(maxlength 255 (sourceFileName d),
                      msg_maxlength "sourceFileName" (sourceFileName d) "255")])%list.

(** The messages of [error.errors], in schema order. *)
Definition validate (d : IIDData) : list string :=
  (validate_before_sex d ++ validate_sex d ++ validate_after_sex d)%list.

(** The failures of the validators of every path but [sex], on the
    document built from [obj]. *)
Definition other_validators (obj : Attrs) : list string :=
  let d := doc (new_IDData 0%N obj 0 0 false) in
  (validate_before_sex d ++ validate_after_sex d)%list.

(** ** Assignments and the pre-save hook *)

Definition with_lastModified (t : Z) (d : IIDData) : IIDData :=
  {| _id := _id d; id := id d; lastName := lastName d; firstName := firstName d;
     middleInitial := middleInitial d; addressStreet := addressStreet d;
     addressCity := addressCity d; addressState := addressState d;
     addressZip := addressZip d; sex := sex d; dob := dob d;
     confidence := confidence d; sourceFileName := sourceFileName d;
     extractedAt := extractedAt d; lastModified := t;
     isManuallyEdited := isManuallyEdited d |}.

Definition with_isManuallyEdited (b : bool) (d : IIDData) : IIDData :=
  {| _id := _id d; id := id d; lastName := lastName d; firstName := firstName d;
     middleInitial := middleInitial d; addressStreet := addressStreet d;
     addressCity := addressCity d; addressState := addressState d;
     addressZip := addressZip d; sex := sex d; dob := dob d;
     confidence := confidence d; sourceFileName := sourceFileName d;
     extractedAt := extractedAt d; lastModified := lastModified d;
     isManuallyEdited := b |}.

(** An assignment marks its path modified on a new document, and on a
    loaded one when the value changes. *)
Definition mark (path : string) (changed : bool) (d : Document) : list string :=
  if (isNew d || changed) && negb (isModified path d)
  then (modifiedPaths d ++ [path])%list
  else modifiedPaths d.

Definition assign_lastModified (t : Z) (d : Document) : Document :=
  {| doc := with_lastModified t (doc d);
     isNew := isNew d;
     modifiedPaths := mark "lastModified" (negb (lastModified (doc d) =? t)) d |}.

Definition assign_isManuallyEdited (b : bool) (d : Document) : Document :=
  {| doc := with_isManuallyEdited b (doc d);
     isNew := isNew d;
     modifiedPaths :=
       mark "isManuallyEdited" (negb (Bool.eqb (isManuallyEdited (doc d)) b)) d |}.

(** [IDDataSchema.pre('save', ...)]; [now] is the value of [new Date()]. *)
Definition pre_save (now : Z) (this : Document) : Document :=
  let this := assign_lastModified now this in
  if isModified "lastName" this || isModified "firstName" this
     || isModified "id" this || isModified "addressStreet" this
  then assign_isManuallyEdited true this
  else this.

(** ** The collection *)

Inductive SaveError :=
| ValidationError (errors : list string)
| MongoServerError (code : Z).

Definition has_id (oid : ObjectId) (d : IIDData) : bool := (_id d =? oid)%N.

(** [document.save()]: validation runs first, then the pre-save hook,
    then the insert (a new document) or the update (a loaded one).  The
    only unique index is the one on [_id]. *)
Definition save (now : Z) (d : Document) (coll : list IIDData)
  : list IIDData * (Document + SaveError) :=
  match validate (doc d) with
  | [] =>
      let d' := pre_save now d in
      let saved := {| doc := doc d'; isNew := false; modifiedPaths := [] |} in
      if isNew d' then
        if existsb (has_id (_id (doc d'))) coll
        then (coll, inr (MongoServerError 11000))
        else ((coll ++ [doc d'])%list, inl saved)
      else
        (map (fun x => if has_id (_id (doc d')) x then doc d' else x) coll, inl saved)
  | errors => (coll, inr (ValidationError errors))
  end.

Definition findById (oid : ObjectId) (coll : list IIDData) : option IIDData :=
  List.find (has_id oid) coll.

(** [.sort({ extractedAt: -1 })].  Among records with the same
    [extractedAt] the database is free in its order, and free to change it
    from one query to the next; the order taken here, that of insertion, is
    one of them.  What is stated below of a single answer holds for each of
    these orders; what compares the answers to several queries is stated
    for records with distinct [extractedAt]. *)
Fixpoint insert_desc (x : IIDData) (l : list IIDData) : list IIDData :=
  match l with
  | [] => [x]
  | y :: l' =>
      if extractedAt y <=? extractedAt x then x :: l else y :: insert_desc x l'
  end.

Definition sort_desc (l : list IIDData) : list IIDData :=
  fold_right insert_desc [] l.

(** ** [$regex] with option ['i']

    The search term is handed to the database as a regular expression.
    The model covers the patterns made of ordinary characters and [.];
    a term with any other metacharacter is outside it ([None]). *)

Inductive atom :=
| Char (c : ascii)
| AnyChar.

Definition is_meta (c : ascii) : bool :=
  JS.includes (String c EmptyString) "\^$.[]|()?*+{}".

Fixpoint compile (pattern : string) : option (list atom) :=
  match pattern with
  | EmptyString => Some []
  | String c rest =>
      match compile rest with
      | Some atoms =>
          if Ascii.eqb c "." then Some (AnyChar :: atoms)
          else if is_meta c then None
          else Some (Char c :: atoms)
      | None => None
      end
  end.

Definition atom_matches (a : atom) (c : ascii) : bool :=
  match a with
  | Char x => Ascii.eqb (JS.lower_char x) (JS.lower_char c)
  | AnyChar => negb (JS.code c =? 10)%N
  end.

Fixpoint match_here (atoms : list atom) (s : string) : bool :=
  match atoms, s with
  | [], _ => true
  | _ :: _, EmptyString => false
  | a :: atoms', String c s' => atom_matches a c && match_here atoms' s'
  end.

Fixpoint regex_search (atoms : list atom) (s : string) : bool :=
  match_here atoms s ||
  match s with
  | EmptyString => false
  | String _ s' => regex_search atoms s'
  end.

Definition search_filter (atoms : list atom) (d : IIDData) : bool :=
  test (regex_search atoms) (id d)
  || test (regex_search atoms) (lastName d)
  || test (regex_search atoms) (firstName d).

(** [IDDataSchema.statics.findBySearchTerm] *)
Definition findBySearchTerm (searchTerm : string) (coll : list IIDData)
  : option (list IIDData) :=
  match compile searchTerm with
  | Some atoms => Some (sort_desc (List.filter (search_filter atoms) coll))
  | None => None
  end.

End IDData.

(* ===================================================================== *)
(** * controllers/saveController *)
(* ===================================================================== *)

Module SaveController.

Import ErrorHandler.

Definition issue (path msg : string) : string := path ++ ": " ++ msg.

(** [z.string().max(n).optional()] *)
Definition z_string_max (path : string) (n : nat) (shown_n : string)
    (v : option string) : list string :=
  match v with
  | Some s =>
      if (String.length s <=? n)%nat then []
      else [issue path ("String must contain at most " ++ shown_n ++ " character(s)")]
  | None => []
  end.

(** [z.string().min(1, msg).max(100)] *)
Definition z_name (path msg : string) (v : option string) : list string :=
  match v with
  | Some s =>
      if (String.length s <? 1)%nat then [issue path msg]
      else z_string_max path 100 "100" v
  | None => [issue path "Required"]
  end.

(** [z.enum(['M', 'F', 'Male', 'Female']).optional()] *)
Definition z_sex (v : option string) : list string :=
  match v with
  | Some s =>
      if existsb (String.eqb s) ["M"; "F"; "Male"; "Female"] then []
      else [issue "sex" ("Invalid enum value. Expected 'M' | 'F' | 'Male' | 'Female', received '"
                         ++ s ++ "'")]
  | None => []
  end.

(** [z.number().min(0).max(1).optional()] *)
Definition z_confidence (v : option Q) : list string :=
  match v with
  | Some q =>
      ((if Qle_bool 0 q then []
        else [issue "confidence" "Number must be greater than or equal to 0"])
       ++ (if Qle_bool q 1 then []
           else [issue "confidence" "Number must be less than or equal to 1"]))%list
  | None => []
  end.

(** The issues of [idDataSchema.safeParse(body)], already rendered as
    [path: message]; no issue means success. *)
Definition idDataSchema (body : IDData.Attrs) : list string :=
  (z_name "lastName" "Last name is required" (IDData.a_lastName body)
   ++ z_name "firstName" "First name is required" (IDData.a_firstName body)
   ++ z_string_max "middleInitial" 1 "1" (IDData.a_middleInitial body)
   ++ z_string_max "addressStreet" 200 "200" (IDData.a_addressStreet body)
   ++ z_string_max "addressCity" 100 "100" (IDData.a_addressCity body)
   ++ z_string_max "addressState" 50 "50" (IDData.a_addressState body)
   ++ z_string_max "addressZip" 20 "20" (IDData.a_addressZip body)
   ++ z_sex (IDData.a_sex body)
   ++ z_confidence (IDData.a_confidence body)
   ++ z_string_max "sourceFileName" 255 "255" (IDData.a_sourceFileName body))%list.

(** [list.join(', ')] *)
Definition join (l : list string) : string := String.concat ", " l.

(** ** Response bodies *)

Record ExtractedData := {
  id : option string;
  lastName : option string;
  firstName : option string;
  middleInitial : option string;
  addressStreet : option string;
  addressCity : option string;
  addressState : option string;
  addressZip : option string;
  sex : option string;
  dob : option string;
  confidence : IDData.Nullable Q
}.

Record Metadata := {
  sourceFileName : option string;
  extractedAt : Z;
  lastModified : Z;
  isManuallyEdited : bool
}.

(** [{ id, extractedData, metadata }]; the ObjectId is serialised as its
    hexadecimal string. *)
Record Item := {
  item_id : string;
  extractedData : ExtractedData;
  metadata : Metadata
}.

Definition item_of (d : IDData.IIDData) : Item :=
  {| item_id := IDData.toHexString (IDData._id d);
     extractedData :=
       {| id := IDData.id d;
          lastName := IDData.lastName d;
          firstName := IDData.firstName d;
          middleInitial := IDData.middleInitial d;
          addressStreet := IDData.addressStreet d;
          addressCity := IDData.addressCity d;
          addressState := IDData.addressState d;
          addressZip := IDData.addressZip d;
          sex := IDData.sex d;
          dob := IDData.dob d;
          confidence := IDData.confidence d |};
     metadata :=
       {| sourceFileName := IDData.sourceFileName d;
          extractedAt := IDData.extractedAt d;
          lastModified := IDData.lastModified d;
          isManuallyEdited := IDData.isManuallyEdited d |} |}.

(** What one call of [saveData] draws from outside: the ObjectId the
    constructor generates and the three readings of the clock. *)
Record SaveEnv := {
  new_ObjectId : IDData.ObjectId;
  date_extractedAt : Z;
  date_lastModified : Z;
  date_pre_save : Z
}.

(** POST /api/id/save *)
Definition saveData (env : SaveEnv) (body : IDData.Attrs) (coll : list IDData.IIDData)
  : list IDData.IIDData * Outcome (Z * Item) :=
  match idDataSchema body with
  | [] =>
      let newIDData :=
        IDData.new_IDData (new_ObjectId env) body
          (date_extractedAt env) (date_lastModified env) false in
      match IDData.save (date_pre_save env) newIDData coll with
      | (coll', inl savedData) => (coll', Returned (201, item_of (IDData.doc savedData)))
      | (coll', inr (IDData.ValidationError mongoErrors)) =>
          (coll', Thrown (createError ("Database validation error: " ++ join mongoErrors) 400))
      | (coll', inr (IDData.MongoServerError code)) =>
          (coll', Thrown (if code =? 11000
                          then createError "Duplicate entry found" 409
                          else plainError "MongoServerError"))
      end
  | errors => (coll, Thrown (createError ("Validation Error: " ++ join errors) 400))
  end.

(** GET /api/id/:id *)
Definition getDataById (id_param : string) (coll : list IDData.IIDData)
  : Outcome (Z * Item) :=
  if String.eqb id_param ""
     || negb ((String.length id_param =? 24)%nat && JS.all_chars JS.is_hex id_param)
  then Thrown (createError "Invalid ID format" 400)
  else
    match IDData.castObjectId id_param ≫= (fun oid => IDData.findById oid coll) with
    | Some data => Returned (200, item_of data)
    | None => Thrown (createError "ID data not found" 404)
    end.

(** ** Listing *)

Record Pagination := {
  currentPage : Z;
  totalPages : Z;
  totalRecords : Z;
  hasMore : bool
}.

Record Listing := {
  data : list Item;
  pagination : Pagination
}.

(** [parseInt(text) || d]: [parseInt] yields an integer or [NaN]
    ([None]); [NaN] and [0] are falsy. *)
Definition or_default (parsed : option Z) (d : Z) : Z :=
  match parsed with
  | Some n => if n =? 0 then d else n
  | None => d
  end.

(** [Math.ceil(a / b)] for a divisor that is not zero *)
Definition ceil_div (a b : Z) : Z := - ((- a) / b).

(** [find().sort({ extractedAt: -1 }).skip(skip).limit(limit)]: the
    server refuses a negative [skip]; the driver sends a negative [limit]
    as its absolute value. *)
Definition find_page (skip limit : Z) (coll : list IDData.IIDData)
  : option (list IDData.IIDData) :=
  if skip <? 0 then None
  else Some (firstn (Z.to_nat (Z.abs limit))
               (skipn (Z.to_nat skip) (IDData.sort_desc coll))).

(** The error of the server for a negative [skip] (its wording depends on
    the server; it carries no [statusCode]). *)
Definition skip_rejected : ApiError :=
  {| name := "MongoServerError";
     message := "Skip value must be non-negative";
     statusCode := None;
     status := StatusAbsent |}.

(** GET /api/id; [page_query] and [limit_query] are the results of
    [parseInt] on the two query parameters. *)
Definition getAllData (page_query limit_query : option Z) (coll : list IDData.IIDData)
  : Outcome (Z * Listing) :=
  let page := or_default page_query 1 in
  let limit := or_default limit_query 10 in
  let skip := (page - 1) * limit in
  let total := Z.of_nat (length coll) in
  match find_page skip limit coll with
  | Some found =>
      Returned (200,
        {| data := map item_of found;
           pagination :=
             {| currentPage := page;
                totalPages := ceil_div total limit;
                totalRecords := total;
                hasMore := page * limit <? total |} |})
  | None => Thrown skip_rejected
  end.

(** ** Search *)

(** GET /api/id/search; [q] is [req.query.q].  The result is [None]
    where the term is a pattern outside the modelled fragment of
    [$regex]. *)
Definition too_short : ApiError :=
  createError "Search term must be at least 2 characters long" 400.

Definition searchData (q : option string) (coll : list IDData.IIDData)
  : option (Outcome (Z * list Item)) :=
  match q with
  | None => Some (Thrown too_short)
  | Some searchTerm =>
      if String.eqb searchTerm "" || (String.length (JS.trim searchTerm) <? 2)%nat
      then Some (Thrown too_short)
      else
        match IDData.findBySearchTerm (JS.trim searchTerm) coll with
        | Some found => Some (Returned (200, map item_of found))
        | None => None
        end
  end.

End SaveController.

(* ===================================================================== *)
(** * The upload directory and [node:path] *)
(* ===================================================================== *)

Module Fs.

(** The files on disk: path to contents. *)
Abbreviation Disk := (gmap string string).

Definition existsSync (path : string) (disk : Disk) : bool :=
  bool_decide (is_Some (disk !! path)).

(** [None] is the [ENOENT] exception. *)
Definition readFileSync (path : string) (disk : Disk) : option string :=
  disk !! path.

Definition writeFileSync (path data : string) (disk : Disk) : Disk :=
  <[path := data]> disk.

(** [None] is the [ENOENT] exception. *)
Definition unlinkSync (path : string) (disk : Disk) : option Disk :=
  match disk !! path with
  | Some _ => Some (delete path disk)
  | None => None
  end.

Definition ENOENT (syscall path : string) : ErrorHandler.ApiError :=
  ErrorHandler.plainError
    ("ENOENT: no such file or directory, " ++ syscall ++ " '" ++ path ++ "'").

End Fs.

Module Path.

Definition contains (c : ascii) (s : string) : bool :=
  JS.includes (String c EmptyString) s.

(** What precedes the last [sep] of a string that contains one. *)
Fixpoint before_last (sep : ascii) (s : string) : string :=
  match s with
  | EmptyString => EmptyString
  | String c s' => if contains sep s' then String c (before_last sep s') else EmptyString
  end.

Fixpoint strip_trailing (c : ascii) (s : string) : string :=
  match s with
  | EmptyString => EmptyString
  | String d s' =>
      match strip_trailing c s' with
      | EmptyString => if Ascii.eqb d c then EmptyString else String d EmptyString
      | t => String d t
      end
  end.

(** [path.basename(p)]: the last portion of the path, trailing
    separators ignored. *)
Definition basename (p : string) : string :=
  JS.after_last "/" (strip_trailing "/" p).

(** [path.extname(p)]: from the last [.] of the last portion to its end;
    empty when that portion has no [.], when its only [.] is its first
    character, and for the portion [..]. *)
Definition extname (p : string) : string :=
  let base := basename p in
  if negb (contains "." base) then ""
  else if String.eqb (before_last "." base) "" then ""
  else if String.eqb base ".." then ""
  else String "." (JS.after_last "." base).

(** [path.parse(p).name]: the last portion without its extension. *)
Definition parse_name (p : string) : string :=
  let base := basename p in
  if String.eqb (extname p) "" then base else before_last "." base.

(** [path.parse(p).dir] *)
Definition parse_dir (p : string) : string :=
  let q := strip_trailing "/" p in
  if negb (contains "/" q) then ""
  else if String.eqb (before_last "/" q) "" then "/"
  else before_last "/" q.

(** [path.join(dir, file)] on a directory and a file name that are
    already normalised, as the paths of the upload directory are. *)
Definition join (dir file : string) : string :=
  if String.eqb dir "" then file
  else if String.eqb (JS.after_last "/" dir) "" then dir ++ file
  else dir ++ "/" ++ file.

End Path.

(* ===================================================================== *)
(** * middleware/uploadMiddleware *)
(* ===================================================================== *)

Module UploadMiddleware.

Import ErrorHandler.

(** One file part of the multipart request, as it was sent: the [name]
    and [filename] of its [Content-Disposition], the type and subtype of
    its [Content-Type], and its bytes. *)
Record Part := {
  fieldname : string;
  part_filename : string;
  part_mimetype : string;
  content : string
}.

Definition is_separator (c : ascii) : bool := Ascii.eqb c "/" || Ascii.eqb c "\".

(** What follows the last [/] or [\] of a text. *)
Fixpoint last_portion (s : string) : string :=
  match s with
  | EmptyString => EmptyString
  | String c s' =>
      if is_separator c then last_portion s'
      else if negb (JS.all_chars (fun d => negb (is_separator d)) s') then last_portion s'
      else s
  end.

(** The parser of the multipart body hands on the file name without its
    directories, and no name at all for [.] and [..]. *)
Definition basename (filename : string) : string :=
  let name := last_portion filename in
  if String.eqb name ".." || String.eqb name "." then "" else name.

(** [req.file] *)
Record File := {
  path : string;
  originalname : string;
  mimetype : string;
  size : Z
}.

Definition allowedTypes : list string :=
  ["image/jpeg"; "image/jpg"; "image/png"; "application/pdf"; "image/heic"].

(** File filter function: [true] is [cb(null, true)], [false] the
    error callback. *)
Definition fileFilter (mime : string) : bool :=
  existsb (String.eqb mime) allowedTypes.

(** The configuration and the two draws of the storage engine;
    [maxFileSize] is [limits.fileSize], a positive number of bytes. *)
Record Config := {
  uploadsDir : string;
  maxFileSize : Z;
  Date_now : Z;
  Math_random_1E9 : Z
}.

(** [filename] of the disk storage *)
Definition filename (cfg : Config) (original : string) : string :=
  let uniqueSuffix := JS.decimal (Date_now cfg) ++ "-" ++ JS.decimal (Math_random_1E9 cfg) in
  let ext := Path.extname original in
  "id-" ++ uniqueSuffix ++ ext.

Definition MulterError (msg : string) : ApiError :=
  {| name := "MulterError"; message := msg; statusCode := None; status := StatusAbsent |}.

(** [upload.single('idImage')]: the request carries no file, or one
    file part.  The parser lower-cases the MIME type and strips the
    directories of the file name; a part without a file name is passed
    over; the field name is looked at before the file filter; and the size
    limit is reached by a file of [maxFileSize] bytes already, whose
    partly written file is removed again. *)
Definition single (cfg : Config) (part : option Part) (disk : Fs.Disk)
  : Fs.Disk * Outcome (option File) :=
  match part with
  | None => (disk, Returned None)
  | Some p =>
      let originalname0 := basename (part_filename p) in
      let mimetype0 := JS.toLowerCase (part_mimetype p) in
      let size0 := Z.of_nat (String.length (content p)) in
      if String.eqb originalname0 "" then (disk, Returned None)
      else if negb (String.eqb (fieldname p) "idImage")
      then (disk, Thrown (MulterError "Unexpected field"))
      else if negb (fileFilter mimetype0)
      then (disk, Thrown (plainError "Invalid file type. Allowed types: JPG, PNG, PDF, HEIC"))
      else if maxFileSize cfg <=? size0
      then (disk, Thrown (MulterError "File too large"))
      else
        let file_path := Path.join (uploadsDir cfg) (filename cfg originalname0) in
        (Fs.writeFileSync file_path (content p) disk,
         Returned (Some {| path := file_path;
                           originalname := originalname0;
                           mimetype := mimetype0;
                           size := size0 |}))
  end.

End UploadMiddleware.

(* ===================================================================== *)
(** * services/heicConversionService *)
(* ===================================================================== *)

Module HeicConversionService.

Import ErrorHandler.

(** [heicConvert]: the JPEG bytes, or the message of the error thrown. *)
Definition Converter := string -> string + string.

Definition conversion_failed (msg : string) : ApiError :=
  plainError ("Failed to convert HEIC file: " ++ msg).

Definition convertHeicToJpeg (heicConvert : Converter) (heicPath : string) (disk : Fs.Disk)
  : Fs.Disk * Outcome string :=
  match Fs.readFileSync heicPath disk with
  | None => (disk, Thrown (conversion_failed (message (Fs.ENOENT "open" heicPath))))
  | Some heicBuffer =>
      (* Convert HEIC to JPEG *)
      match heicConvert heicBuffer with
      | inr msg => (disk, Thrown (conversion_failed msg))
      | inl jpegBuffer =>
          (* Generate new filename with .jpg extension *)
          let jpegPath :=
            Path.join (Path.parse_dir heicPath) (Path.parse_name heicPath ++ ".jpg") in
          (* Write JPEG file *)
          let disk1 := Fs.writeFileSync jpegPath jpegBuffer disk in
          (* Remove original HEIC file to save space *)
          match Fs.unlinkSync heicPath disk1 with
          | Some disk2 => (disk2, Returned jpegPath)
          | None => (disk1, Thrown (conversion_failed (message (Fs.ENOENT "unlink" heicPath))))
          end
      end
  end.

Definition convertIfHeic (heicConvert : Converter) (filePath mimeType : string)
    (disk : Fs.Disk) : Fs.Disk * Outcome string :=
  if String.eqb mimeType "image/heic"
  then convertHeicToJpeg heicConvert filePath disk
  else (disk, Returned filePath).

End HeicConversionService.

(* ===================================================================== *)
(** * services/anthropicService *)
(* ===================================================================== *)

Module AnthropicService.

Import ErrorHandler.

(** ** Parsed JSON *)

(** A number, seen through the two operations the client applies to a
    value: its truthiness and [String(n)]. *)
Record JNumber := {
  nonzero : bool;
  number_text : string
}.

Inductive JValue :=
| JNull
| JBool (b : bool)
| JNum (n : JNumber)
| JString (s : string)
| JArray (items : list JValue)
| JObject (entries : list (string * JValue)).

(** An object: its entries in the order of [Object.keys], each key once. *)
Definition JEntries := list (string * JValue).

(** [String(v)]; [None] is the [TypeError] of a value that has no
    primitive form.  An object parsed from JSON has one, ["[object
    Object]"], unless it has a member of its own named [toString]: that
    member is no function, [valueOf] returns the object itself, and the
    conversion throws.  An array is joined with commas, [null] shown as
    the empty text, and throws where one of its items does. *)
Fixpoint toString (v : JValue) : option string :=
  match v with
  | JNull => Some "null"
  | JBool true => Some "true"
  | JBool false => Some "false"
  | JNum n => Some (number_text n)
  | JString s => Some s
  | JArray items =>
      (fix join (l : list JValue) : option string :=
         match l with
         | [] => Some ""
         | x :: rest =>
             match (match x with JNull => Some "" | _ => toString x end) with
             | None => None
             | Some shown =>
                 match rest with
                 | [] => Some shown
                 | _ :: _ =>
                     match join rest with
                     | Some joined => Some (shown ++ "," ++ joined)
                     | None => None
                     end
                 end
             end
         end) items
  | JObject entries =>
      if existsb (String.eqb "toString") (map fst entries) then None
      else Some "[object Object]"
  end.

(** The error of [String(v)] *)
Definition TypeError_to_primitive : ApiError :=
  {| name := "TypeError";
     message := "Cannot convert object to primitive value";
     statusCode := None;
     status := StatusAbsent |}.

(** The truthiness of [v] *)
Definition truthy (v : JValue) : bool :=
  match v with
  | JNull => false
  | JBool b => b
  | JNum n => nonzero n
  | JString s => negb (String.eqb s "")
  | JArray _ => true
  | JObject _ => true
  end.

(** ** The reply of the hosted model *)

Inductive ContentBlock :=
| Text (text : string)
| NonText (type : string).

Inductive ApiResult :=
| Message (content : list ContentBlock)
| Rejected (e : ApiError).

(** The calls that leave the process: [anthropic.messages.create] on a
    media type and the image bytes, and [JSON.parse] on a text that starts
    with a brace ([None] is its [SyntaxError]). *)
Record Runtime := {
  messages_create : string -> string -> ApiResult;
  JSON_parse : string -> option JEntries
}.

(** ** [getMediaType] *)

Definition getMediaType (imagePath : string) : option string :=
  let ext := JS.after_last "." (JS.toLowerCase imagePath) in
  if String.eqb ext "jpg" || String.eqb ext "jpeg" then Some "image/jpeg"
  else if String.eqb ext "png" then Some "image/png"
  else if String.eqb ext "webp" then Some "image/webp"
  (* Note: PDF not directly supported by Anthropic API *)
  else None.

(** ** [text.match(/\{[\s\S]*\}/)] *)

(** The suffix that starts at the first [c]. *)
Fixpoint from_first (c : ascii) (s : string) : option string :=
  match s with
  | EmptyString => None
  | String d s' => if Ascii.eqb d c then Some s else from_first c s'
  end.

(** The prefix that ends at the last [c]. *)
Fixpoint upto_last (c : ascii) (s : string) : option string :=
  match s with
  | EmptyString => None
  | String d s' =>
      match upto_last c s' with
      | Some t => Some (String d t)
      | None => if Ascii.eqb d c then Some (String d EmptyString) else None
      end
  end.

(** The match starts at the first opening brace that has a closing brace
    after it, which is the first opening brace of the text, and the greedy
    star runs to the last closing brace. *)
Definition jsonMatch (text : string) : option string :=
  match from_first "{" text with
  | Some (String brace rest) =>
      match upto_last "}" rest with
      | Some inner => Some (String brace inner)
      | None => None
      end
  | _ => None
  end.

(** ** [normalizeExtractedData] *)

(** Map various possible field names to our standard names *)
Definition fieldMappings : gmap string string :=
  list_to_map
    [("id", "id");
     ("id_number", "id");
     ("identification", "id");
     ("license", "id");
     ("last_name", "lastName");
     ("surname", "lastName");
     ("family_name", "lastName");
     ("first_name", "firstName");
     ("given_name", "firstName");
     ("middle_initial", "middleInitial");
     ("middle_name", "middleInitial");
     ("address_street", "addressStreet");
     ("street", "addressStreet");
     ("address", "addressStreet");
     ("address_city", "addressCity");
     ("city", "addressCity");
     ("address_state", "addressState");
     ("state", "addressState");
     ("address_zip", "addressZip");
     ("zip", "addressZip");
     ("zipcode", "addressZip");
     ("postal_code", "addressZip");
     ("sex", "sex");
     ("gender", "sex");
     ("dob", "dob");
     ("date_of_birth", "dob");
     ("birth_date", "dob")].

(** The members an object literal inherits from [Object.prototype], each
    with the text it turns into when it is used as a property key. *)
Definition native (f : string) : string := "function " ++ f ++ "() { [native code] }".

Definition Object_prototype : gmap string string :=
  list_to_map
    [("constructor", native "Object");
     ("__proto__", "[object Object]");
     ("hasOwnProperty", native "hasOwnProperty");
     ("isPrototypeOf", native "isPrototypeOf");
     ("propertyIsEnumerable", native "propertyIsEnumerable");
     ("toLocaleString", native "toLocaleString");
     ("toString", native "toString");
     ("valueOf", native "valueOf");
     ("__defineGetter__", native "__defineGetter__");
     ("__defineSetter__", native "__defineSetter__");
     ("__lookupGetter__", native "__lookupGetter__");
     ("__lookupSetter__", native "__lookupSetter__")].

(** [fieldMappings[key]], as the key under which the value is then
    stored; [None] is [undefined]. *)
Definition fieldMappings_get (key : string) : option string :=
  match fieldMappings !! key with
  | Some normalizedKey => Some normalizedKey
  | None => Object_prototype !! key
  end.

(** Clean up common formatting issues *)
Definition clean (normalizedKey value : string) : string :=
  if String.eqb normalizedKey "middleInitial" then JS.take 1 (JS.toUpperCase value)
  else if String.eqb normalizedKey "sex"
  then (if JS.startsWith "m" (JS.toLowerCase value) then "M" else "F")
  else if String.eqb normalizedKey "addressZip" then JS.take 5 (JS.digits_only value)
  else value.

(** The body of the [forEach] over [Object.keys(data)]; [None] is the
    [TypeError] of [String(data[key])]. *)
Definition normalize_entry (normalized : gmap string string) (entry : string * JValue)
  : option (gmap string string) :=
  let '(key, value) := entry in
  match fieldMappings_get (JS.replace_spaces false (JS.toLowerCase key)) with
  | Some normalizedKey =>
      if truthy value
      then
        match toString value with
        | Some text => Some (<[normalizedKey := clean normalizedKey (JS.trim text)]> normalized)
        | None => None
        end
      else Some normalized
  | None => Some normalized
  end.

(** The [forEach]: the first entry that throws ends it. *)
Definition normalize_entries (normalized : option (gmap string string)) (data : JEntries)
  : option (gmap string string) :=
  foldl (fun acc entry =>
           match acc with
           | Some m => normalize_entry m entry
           | None => None
           end) normalized data.

Definition normalizeExtractedData (data : JEntries) : option (gmap string string) :=
  normalize_entries (Some ∅) data.

(** ** [extractTextFromImage] *)

(** The [catch] block: upstream statuses become domain errors, anything
    else is thrown again. *)
Definition rethrow (error : ApiError) : ApiError :=
  match status error with
  | StatusNumber 401 => createError "Invalid Anthropic API key" 500
  | StatusNumber 429 =>
      createError "OCR service rate limit exceeded. Please try again later." 503
  | StatusNumber 500 => createError "OCR service temporarily unavailable" 503
  | _ => error
  end.

(** [content.type] on an empty [response.content] *)
Definition TypeError_no_content : ApiError :=
  {| name := "TypeError";
     message := "Cannot read properties of undefined (reading 'type')";
     statusCode := None;
     status := StatusAbsent |}.

(** What the [try] block does with the reply. *)
Definition parse_reply (rt : Runtime) (content : list ContentBlock)
  : Outcome (gmap string string) :=
  match content with
  | [] => Thrown TypeError_no_content
  | NonText _ :: _ => Thrown (createError "Invalid response format from OCR service" 500)
  | Text text :: _ =>
      (* Parse JSON from response *)
      match jsonMatch text with
      | None => Thrown (createError "Could not parse OCR response" 500)
      | Some matched =>
          match JSON_parse rt matched with
          | None => Thrown (createError "Failed to parse OCR JSON response" 500)
          | Some extractedData =>
              (* Normalize field names and clean data *)
              match normalizeExtractedData extractedData with
              | Some normalized => Returned normalized
              | None => Thrown TypeError_to_primitive
              end
          end
      end
  end.

Definition try_extract (rt : Runtime) (imagePath : string) (disk : Fs.Disk)
  : Outcome (gmap string string) :=
  (* Read and encode image *)
  match Fs.readFileSync imagePath disk with
  | None => Thrown (Fs.ENOENT "open" imagePath)
  | Some imageBuffer =>
      (* Determine media type from file extension *)
      match getMediaType imagePath with
      | None => Thrown (createError "Unsupported file format for OCR" 400)
      | Some mediaType =>
          (* Call Anthropic API *)
          match messages_create rt mediaType imageBuffer with
          | Rejected e => Thrown e
          | Message content => parse_reply rt content
          end
      end
  end.

Definition extractTextFromImage (rt : Runtime) (imagePath : string) (disk : Fs.Disk)
  : Outcome (gmap string string) :=
  match try_extract rt imagePath disk with
  | Returned extracted => Returned extracted
  | Thrown error => Thrown (rethrow error)
  end.

End AnthropicService.

(* ===================================================================== *)
(** * controllers/uploadController *)
(* ===================================================================== *)

Module UploadController.

Import ErrorHandler.

(** [data] of the response *)
Record UploadData := {
  extractedData : gmap string string;
  fileName : string;
  fileSize : Z;
  mimeType : string
}.

(** [fs.unlinkSync] inside [try { } catch { console.error }] *)
Definition try_unlink (path : string) (disk : Fs.Disk) : Fs.Disk :=
  match Fs.unlinkSync path disk with
  | Some disk' => disk'
  | None => disk
  end.

(** Clean up uploaded file on error *)
Definition cleanup_on_error (file : UploadMiddleware.File) (disk : Fs.Disk) : Fs.Disk :=
  if negb (String.eqb (UploadMiddleware.path file) "")
     && Fs.existsSync (UploadMiddleware.path file) disk
  then try_unlink (UploadMiddleware.path file) disk
  else disk.

(** Convert HEIC to JPEG if necessary: the path handed to the OCR client. *)
Definition image_to_scan (heicConvert : HeicConversionService.Converter)
    (file : UploadMiddleware.File) (disk : Fs.Disk) : Fs.Disk * Outcome string :=
  let imagePath := UploadMiddleware.path file in
  let originalMimeType := UploadMiddleware.mimetype file in
  if String.eqb originalMimeType "image/heic"
  then HeicConversionService.convertIfHeic heicConvert imagePath originalMimeType disk
  else (disk, Returned imagePath).

Definition uploadAndExtract
    (heicConvert : HeicConversionService.Converter) (rt : AnthropicService.Runtime)
    (req_file : option UploadMiddleware.File) (disk : Fs.Disk)
  : Fs.Disk * Outcome (Z * UploadData) :=
  match req_file with
  | None => (disk, Thrown (createError "No file uploaded" 400))
  | Some file =>
      let originalMimeType := UploadMiddleware.mimetype file in
      let '(disk1, converted) := image_to_scan heicConvert file disk in
      match converted with
      | Thrown error => (cleanup_on_error file disk1, Thrown error)
      | Returned imagePath =>
          (* Perform OCR using Anthropic *)
          match AnthropicService.extractTextFromImage rt imagePath disk1 with
          | Thrown error => (cleanup_on_error file disk1, Thrown error)
          | Returned extracted =>
              (* Clean up uploaded file after processing *)
              (try_unlink imagePath disk1,
               Returned (200, {| extractedData := extracted;
                                 fileName := UploadMiddleware.originalname file;
                                 fileSize := UploadMiddleware.size file;
                                 mimeType := originalMimeType |}))
          end
      end
  end.

(** POST /api/id/upload: [upload.single('idImage')], then the handler,
    and the error middleware for whatever either of them throws. *)
Definition upload_route
    (cfg : UploadMiddleware.Config)
    (heicConvert : HeicConversionService.Converter) (rt : AnthropicService.Runtime)
    (part : option UploadMiddleware.Part) (disk : Fs.Disk)
  : Fs.Disk * Reply UploadData :=
  match UploadMiddleware.single cfg part disk with
  | (disk1, Thrown error) => (disk1, ErrorJson (errorHandler error))
  | (disk1, Returned req_file) =>
      let '(disk2, outcome) := uploadAndExtract heicConvert rt req_file disk1 in
      (disk2, asyncHandler outcome)
  end.

End UploadController.

(* ===================================================================== *)
(** * The notions the specification uses *)
(* ===================================================================== *)

Module Spec.

(** [query] occurs in [field] as a substring, letter case ignored. *)
Definition ci_substring (query field : string) : bool :=
  JS.includes (JS.toLowerCase query) (JS.toLowerCase field).

Definition occurs_in (query : string) (field : option string) : bool :=
  match field with
  | Some s => ci_substring query s
  | None => false
  end.

(** The record has [query] in its id, first name or last name. *)
Definition record_matches (query : string) (d : IDData.IIDData) : bool :=
  occurs_in query (IDData.id d)
  || occurs_in query (IDData.firstName d)
  || occurs_in query (IDData.lastName d).

(** The text up to the brace that closes the one already open at
    [depth]. *)
Fixpoint close_brace (depth : nat) (s : string) : option string :=
  match s with
  | EmptyString => None
  | String c s' =>
      if Ascii.eqb c "{" then String c <$> close_brace (S depth) s'
      else if Ascii.eqb c "}" then
        match depth with
        | O => Some (String c EmptyString)
        | S d => String c <$> close_brace d s'
        end
      else String c <$> close_brace depth s'
  end.

(** The first top-level [{...}] of a text: from its first opening brace
    to the brace that closes it. *)
Definition first_top_level_object (text : string) : option string :=
  match AnthropicService.from_first "{" text with
  | Some (String brace rest) => String brace <$> close_brace 0 rest
  | _ => None
  end.

(** [text] contains [matched], which runs from the first opening brace of
    [text] to its last closing brace. *)
Definition brace_span (text matched : string) : Prop :=
  exists before inner after,
    text = before ++ "{" ++ inner ++ "}" ++ after
    /\ matched = "{" ++ inner ++ "}"
    /\ Path.contains "{" before = false
    /\ Path.contains "}" after = false.

(** The message the client of the upload endpoint reads for each
    upstream status. *)
Definition domain_message (s : Z) : string :=
  if s =? 401 then "OCR service temporarily unavailable. Please try again later."
  else if s =? 429 then "OCR service rate limit exceeded. Please try again later."
  else "OCR service temporarily unavailable".

(** A character that stands for itself in a regular expression, and the
    pattern that a text of such characters is. *)
Definition literal_char (c : ascii) : bool := negb (IDData.is_meta c).

Fixpoint literal_atoms (p : string) : list IDData.atom :=
  match p with
  | EmptyString => []
  | String c p' => IDData.Char c :: literal_atoms p'
  end.

(** Digits only, five characters at most. *)
Definition zip_shaped (zip : string) : Prop :=
  JS.all_chars JS.is_digit zip = true /\ (String.length zip <= 5)%nat.

(** The answer of the upload endpoint to a file the OCR client has no
    media type for. *)
Definition unsupported_format : ErrorHandler.ErrorResponse :=
  {| ErrorHandler.res_status := 400;
     ErrorHandler.res_message := "Unsupported file format for OCR" |}.

(** The media types of the four extensions the OCR client knows. *)
Definition media_type_of_extension (ext : string) : option string :=
  if String.eqb ext ".jpg" || String.eqb ext ".jpeg" then Some "image/jpeg"
  else if String.eqb ext ".png" then Some "image/png"
  else if String.eqb ext ".webp" then Some "image/webp"
  else None.

End Spec.

(* ===================================================================== *)
(** * Sample requests *)
(* ===================================================================== *)

Module Examples.

Import IDData SaveController.

Definition env1 : SaveEnv :=
  {| new_ObjectId := 1%N;
     date_extractedAt := 1700000000000;
     date_lastModified := 1700000000000;
     date_pre_save := 1700000000001 |}.

Definition names_only (last first : string) : Attrs :=
  {| a_id := None; a_lastName := Some last; a_firstName := Some first;
     a_middleInitial := None; a_addressStreet := None; a_addressCity := None;
     a_addressState := None; a_addressZip := None; a_sex := None; a_dob := None;
     a_confidence := None; a_sourceFileName := None |}.

Definition with_sex (v : string) (b : Attrs) : Attrs :=
  {| a_id := a_id b; a_lastName := a_lastName b; a_firstName := a_firstName b;
     a_middleInitial := a_middleInitial b; a_addressStreet := a_addressStreet b;
     a_addressCity := a_addressCity b; a_addressState := a_addressState b;
     a_addressZip := a_addressZip b; a_sex := Some v; a_dob := a_dob b;
     a_confidence := a_confidence b; a_sourceFileName := a_sourceFileName b |}.

Definition with_zip (v : string) (b : Attrs) : Attrs :=
  {| a_id := a_id b; a_lastName := a_lastName b; a_firstName := a_firstName b;
     a_middleInitial := a_middleInitial b; a_addressStreet := a_addressStreet b;
     a_addressCity := a_addressCity b; a_addressState := a_addressState b;
     a_addressZip := Some v; a_sex := a_sex b; a_dob := a_dob b;
     a_confidence := a_confidence b; a_sourceFileName := a_sourceFileName b |}.

(** [{ "lastName": "Doe", "firstName": "Jane" }] *)
Definition jane : Attrs := names_only "Doe" "Jane".

(** A full record, with white space around the last name and a
    lower-case middle initial. *)
Definition jane_full : Attrs :=
  {| a_id := Some "D1234567"; a_lastName := Some " Doe"; a_firstName := Some "Jane";
     a_middleInitial := Some "q"; a_addressStreet := Some "1 Main St";
     a_addressCity := Some "Springfield"; a_addressState := Some "IL";
     a_addressZip := Some "62701"; a_sex := Some "F"; a_dob := Some "1990-01-31";
     a_confidence := Some (9 # 10)%Q; a_sourceFileName := Some "card.jpg" |}.

Definition jane_full_saved : list IIDData * ErrorHandler.Outcome (Z * Item) :=
  Eval vm_compute in saveData env1 jane_full [].

Definition jane_full_item : Item :=
  Eval vm_compute in
    match snd jane_full_saved with
    | ErrorHandler.Returned (_, item) => item
    | ErrorHandler.Thrown _ => item_of (doc (new_IDData 0%N jane_full 0 0 false))
    end.

(** ** Uploads *)

Definition upload_cfg : UploadMiddleware.Config :=
  {| UploadMiddleware.uploadsDir := "/srv/app/uploads";
     UploadMiddleware.maxFileSize := 10485760;
     UploadMiddleware.Date_now := 1700000000000;
     UploadMiddleware.Math_random_1E9 := 123456789 |}.

(** A converter that succeeds. *)
Definition converter : HeicConversionService.Converter :=
  fun heic => inl ("JPEG of " ++ heic).

(** An error of the OCR SDK with the HTTP status [n]. *)
Definition upstream (n : Z) : ErrorHandler.ApiError :=
  {| ErrorHandler.name := "Error";
     ErrorHandler.message := "upstream request failed";
     ErrorHandler.statusCode := None;
     ErrorHandler.status := ErrorHandler.StatusNumber n |}.

(** A hosted model that rejects every request with the status [n]. *)
Definition rejecting (n : Z) : AnthropicService.Runtime :=
  {| AnthropicService.messages_create := fun _ _ => AnthropicService.Rejected (upstream n);
     AnthropicService.JSON_parse := fun _ => None |}.

Definition jpeg_path : string := "/srv/app/uploads/id-1700000000000-123456789.jpg".

Definition jpeg_file : UploadMiddleware.File :=
  {| UploadMiddleware.path := jpeg_path;
     UploadMiddleware.originalname := "card.jpg";
     UploadMiddleware.mimetype := "image/jpeg";
     UploadMiddleware.size := 9 |}.

Definition jpeg_disk : gmap string string := {[ jpeg_path := "JPEG data" ]}.

Definition heic_part : UploadMiddleware.Part :=
  {| UploadMiddleware.fieldname := "idImage";
     UploadMiddleware.part_filename := "card.heic";
     UploadMiddleware.part_mimetype := "image/heic";
     UploadMiddleware.content := "HEIC data" |}.

(** A part declared as PDF whose file name ends in [.png]. *)
Definition pdf_named_png : UploadMiddleware.Part :=
  {| UploadMiddleware.fieldname := "idImage";
     UploadMiddleware.part_filename := "scan.png";
     UploadMiddleware.part_mimetype := "application/pdf";
     UploadMiddleware.content := "%PDF-1.7" |}.

Definition pdf_part : UploadMiddleware.Part :=
  {| UploadMiddleware.fieldname := "idImage";
     UploadMiddleware.part_filename := "scan.pdf";
     UploadMiddleware.part_mimetype := "application/pdf";
     UploadMiddleware.content := "%PDF-1.7" |}.

(** ** Replies of the hosted model *)

(** [JSON.parse] on the two texts of the example below, which hold braces
    only: [{}] is the empty object, [{} and {}] is malformed. *)
Definition parse_braces (s : string) : option AnthropicService.JEntries :=
  if String.eqb s "{}" then Some [] else None.

(** A hosted model that answers every request with one text block. *)
Definition replying (text : string) : AnthropicService.Runtime :=
  {| AnthropicService.messages_create :=
       fun _ _ => AnthropicService.Message [AnthropicService.Text text];
     AnthropicService.JSON_parse := parse_braces |}.

(** [s] between two quotation marks *)
Definition quoted (s : string) : string :=
  String (ascii_of_nat 34) s ++ String (ascii_of_nat 34) EmptyString.

(** The reply [{"surname":{"toString":null}}] and what [JSON.parse] makes
    of it: an object whose member has no text. *)
Definition reply_without_text : string :=
  "{" ++ quoted "surname" ++ ":{" ++ quoted "toString" ++ ":null}}".

Definition parsed_without_text : AnthropicService.JEntries :=
  [("surname", AnthropicService.JObject [("toString", AnthropicService.JNull)])].

Definition replying_without_text : AnthropicService.Runtime :=
  {| AnthropicService.messages_create :=
       fun _ _ => AnthropicService.Message [AnthropicService.Text reply_without_text];
     AnthropicService.JSON_parse :=
       fun s => if String.eqb s reply_without_text then Some parsed_without_text else None |}.

End Examples.

(* ===================================================================== *)
(** * components/features/id-scanner/UploadPanel *)
(* ===================================================================== *)

Module UploadPanel.







End UploadPanel.

(* ===================================================================== *)
(** * Records, requests in sequence, pages *)
(* ===================================================================== *)

Module Records.

(** [k] digits *)
Definition digits (k : nat) (s : string) : Prop :=
  String.length s = k /\ JS.all_chars JS.is_digit s = true.

(** A US ZIP code: five digits, or five digits, a dash and four digits. *)
Definition us_zip (s : string) : Prop :=
  digits 5 s \/ exists a b, s = a ++ "-" ++ b /\ digits 5 a /\ digits 4 b.

Definition one_capital (s : string) : Prop :=
  exists c, s = String c EmptyString /\ JS.is_upper c = true.

(** A value that is absent, empty, or as [P] wants it. *)
Definition optional (P : string -> Prop) (v : option string) : Prop :=
  match v with
  | Some s => s = "" \/ P s
  | None => True
  end.

(** A name that is there, not empty, and without white space around it. *)
Definition a_name (v : option string) : Prop :=
  exists s, v = Some s /\ s <> "" /\ JS.trim s = s.

Definition well_formed (d : IDData.IIDData) : Prop :=
  a_name (IDData.lastName d)
  /\ a_name (IDData.firstName d)
  /\ optional one_capital (IDData.middleInitial d)
  /\ optional us_zip (IDData.addressZip d)
  /\ (IDData.sex d = None \/ IDData.sex d = Some "M" \/ IDData.sex d = Some "F").

(** The collection after a sequence of save requests, each with what it
    draws from outside. *)
Fixpoint serve_saves (requests : list (SaveController.SaveEnv * IDData.Attrs))
    (coll : list IDData.IIDData) : list IDData.IIDData :=
  match requests with
  | [] => coll
  | (env, body) :: rest => serve_saves rest (fst (SaveController.saveData env body coll))
  end.

(** Three records, saved one millisecond apart under the ObjectIds 10,
    11 and 12. *)
Definition saved_at (oid : IDData.ObjectId) (t : Z) : SaveController.SaveEnv :=
  {| SaveController.new_ObjectId := oid;
     SaveController.date_extractedAt := t;
     SaveController.date_lastModified := t;
     SaveController.date_pre_save := t |}.

Definition three_records : list IDData.IIDData :=
  Eval vm_compute in
    serve_saves [(saved_at 10%N 1700000000000, Examples.jane_full);
                 (saved_at 11%N 1700000000001, Examples.jane);
                 (saved_at 12%N 1700000000002, Examples.names_only "Roe" "Richard")] [].

(** The items of page [page] of the listing, none when the listing is
    refused. *)
Definition page_items (page limit : Z) (coll : list IDData.IIDData)
  : list SaveController.Item :=
  match SaveController.getAllData (Some page) (Some limit) coll with
  | ErrorHandler.Returned (_, listing) => SaveController.data listing
  | ErrorHandler.Thrown _ => []
  end.

(** Newest first, by the time of extraction. *)
Definition not_older (a b : SaveController.Item) : Prop :=
  SaveController.extractedAt (SaveController.metadata b)
  <= SaveController.extractedAt (SaveController.metadata a).

(** The ten fields of [ExtractedIDData] that the OCR client fills. *)
Definition canonical_fields : list string :=
  ["id"; "lastName"; "firstName"; "middleInitial"; "addressStreet";
   "addressCity"; "addressState"; "addressZip"; "sex"; "dob"].

(** [id_param] has the format of an ObjectId: 24 hexadecimal digits. *)
Definition id_format (id_param : string) : bool :=
  (String.length id_param =? 24)%nat && JS.all_chars JS.is_hex id_param.

(** The order of [.sort({ extractedAt: -1 })] on the stored records. *)
Definition newer (a b : IDData.IIDData) : Prop :=
  IDData.extractedAt b <= IDData.extractedAt a.

(** The pages [1] to [n] of the listing, one after the other. *)
Definition pages_up_to (n : nat) (limit : Z) (coll : list IDData.IIDData)
  : list SaveController.Item :=
  flat_map (fun p => page_items (Z.of_nat p) limit coll) (seq 1 n).

(** The path under which the middleware stores the file of a part. *)
Definition stored_path (cfg : UploadMiddleware.Config) (p : UploadMiddleware.Part) : string :=
  Path.join (UploadMiddleware.uploadsDir cfg)
    (UploadMiddleware.filename cfg (UploadMiddleware.basename (UploadMiddleware.part_filename p))).

(** The path the HEIC conversion writes the JPEG to. *)
Definition converted_path (heicPath : string) : string :=
  Path.join (Path.parse_dir heicPath) (Path.parse_name heicPath ++ ".jpg").

(** What the OCR client promises of the fields it returns: no white space
    around a value, a sex of [M] or [F], a middle initial of one character
    at most and in upper case, a ZIP code of five digits at most. *)
Definition clean_fields (m : gmap string string) : Prop :=
  forall k v, m !! k = Some v ->
    JS.trim v = v
    /\ (k = "sex" -> v = "M" \/ v = "F")
    /\ (k = "middleInitial" -> (String.length v <= 1)%nat /\ JS.toUpperCase v = v)
    /\ (k = "addressZip" -> Spec.zip_shaped v).

End Records.

(* ===================================================================== *)
(** * Tactics *)
(* ===================================================================== *)

(** A closed statement about sample requests is settled by running the
    handlers. *)
Ltac by_running := vm_compute; repeat split; reflexivity.

(** Case analysis on the four low bits of a hexadecimal digit. *)
Ltac each_hex_digit d :=
  destruct d as [|d]; [reflexivity|];
  do 4 (destruct d as [d|d|]; try reflexivity); lia.

(** Case analysis on the eight bits of a character. *)
Ltac each_char c := destruct c as [[] [] [] [] [] [] [] []]; reflexivity.

(* ===================================================================== *)
(** * ObjectIds and their hexadecimal text *)
(* ===================================================================== *)

Section ObjectIdFacts.
Import IDData.

Lemma hex_value_hex_char (d : N) : (d < 16)%N -> hex_value (hex_char d) = Some d.
Proof. intros H. each_hex_digit d. Qed.

Lemma is_hex_hex_char (d : N) : (d < 16)%N -> JS.is_hex (hex_char d) = true.
Proof. intros H. each_hex_digit d. Qed.

Lemma hex_digits_length (k : nat) : forall n acc,
  String.length (hex_digits k n acc) = (k + String.length acc)%nat.
Proof.
  induction k as [|k IH]; intros n acc; simpl; [reflexivity|].
  rewrite IH. simpl. lia.
Qed.

Lemma hex_digits_all_hex (k : nat) : forall n acc,
  JS.all_chars JS.is_hex acc = true ->
  JS.all_chars JS.is_hex (hex_digits k n acc) = true.
Proof.
  induction k as [|k IH]; intros n acc Hacc; simpl; [exact Hacc|].
  apply IH. simpl. rewrite Hacc, is_hex_hex_char; [reflexivity|].
  apply N.mod_lt. discriminate.
Qed.

(** Reading back [k] printed digits: the accumulator is shifted by [k]
    digits and the low [k] digits of [n] are added. *)
Lemma parse_hex_digits (k : nat) : forall n acc a,
  parse_hex (hex_digits k n acc) a
  = parse_hex acc (a * 16 ^ N.of_nat k + n mod 16 ^ N.of_nat k)%N.
Proof.
  induction k as [|k IH]; intros n acc a.
  - simpl. rewrite N.mod_1_r. f_equal. lia.
  - cbn [hex_digits]. rewrite IH. cbn [parse_hex].
    rewrite hex_value_hex_char by (apply N.mod_lt; discriminate).
    f_equal.
    rewrite Nat2N.inj_succ, N.pow_succ_r'.
    rewrite (N.Div0.mod_mul_r n 16 (16 ^ N.of_nat k)). lia.
Qed.

Lemma castObjectId_toHexString (oid : ObjectId) :
  (oid < 2 ^ 96)%N -> castObjectId (toHexString oid) = Some oid.
Proof.
  intros H. unfold castObjectId, toHexString.
  rewrite hex_digits_length. simpl Nat.eqb. cbv iota.
  rewrite parse_hex_digits. simpl parse_hex.
  f_equal. rewrite N.mul_0_l, N.add_0_l. apply N.mod_small.
  exact H.
Qed.

End ObjectIdFacts.

(* ===================================================================== *)
(** * The setters *)
(* ===================================================================== *)

Section SetterFacts.

Lemma is_space_upper_char c : JS.is_space (JS.upper_char c) = JS.is_space c.
Proof. each_char c. Qed.

Lemma toUpperCase_trimStart s :
  JS.toUpperCase (JS.trimStart s) = JS.trimStart (JS.toUpperCase s).
Proof.
  induction s as [|c s IH]; [reflexivity|].
  cbn. rewrite is_space_upper_char. destruct (JS.is_space c); [exact IH|reflexivity].
Qed.

Lemma toUpperCase_trimEnd s :
  JS.toUpperCase (JS.trimEnd s) = JS.trimEnd (JS.toUpperCase s).
Proof.
  induction s as [|c s IH]; [reflexivity|].
  cbn. fold (JS.toUpperCase s). rewrite <- IH, is_space_upper_char.
  destruct (JS.trimEnd s) as [|c' t]; cbn.
  - destruct (JS.is_space c); reflexivity.
  - reflexivity.
Qed.

(** The [trim] and [uppercase] setters commute. *)
Lemma upper_trim_comm s : JS.toUpperCase (JS.trim s) = JS.trim (JS.toUpperCase s).
Proof. unfold JS.trim. now rewrite toUpperCase_trimEnd, toUpperCase_trimStart. Qed.

Lemma trimEnd_idempotent (s : string) : JS.trimEnd (JS.trimEnd s) = JS.trimEnd s.
Proof.
  induction s as [|c s IH]; [reflexivity|].
  cbn [JS.trimEnd]. destruct (JS.trimEnd s) as [|d t] eqn:Ht.
  - destruct (JS.is_space c) eqn:Hc; [reflexivity|]. cbn. now rewrite Hc.
  - cbn [JS.trimEnd] in *. now rewrite IH.
Qed.

(** The first character survives [trimEnd] unless everything is blank. *)
Lemma trimEnd_head (c : ascii) (s : string) :
  JS.is_space c = false -> exists t, JS.trimEnd (String c s) = String c t.
Proof.
  intros Hc. cbn [JS.trimEnd]. destruct (JS.trimEnd s); rewrite ?Hc; eauto.
Qed.

Lemma trimStart_head (s : string) :
  JS.trimStart s = "" \/ exists c t, JS.trimStart s = String c t /\ JS.is_space c = false.
Proof.
  induction s as [|c s IH]; [now left|].
  cbn. destruct (JS.is_space c) eqn:Hc; [exact IH|]. right. eauto.
Qed.

Lemma trim_idempotent (s : string) : JS.trim (JS.trim s) = JS.trim s.
Proof.
  unfold JS.trim. destruct (trimStart_head s) as [-> | (c & t & -> & Hc)]; [reflexivity|].
  destruct (trimEnd_head c t Hc) as [u Hu]. rewrite Hu.
  cbn [JS.trimStart]. rewrite Hc, <- Hu. apply trimEnd_idempotent.
Qed.

Lemma upper_char_idempotent (c : ascii) : JS.upper_char (JS.upper_char c) = JS.upper_char c.
Proof. each_char c. Qed.

Lemma toUpperCase_idempotent (s : string) :
  JS.toUpperCase (JS.toUpperCase s) = JS.toUpperCase s.
Proof.
  induction s as [|c s IH]; [reflexivity|].
  cbn. fold (JS.toUpperCase s). fold (JS.toUpperCase (JS.toUpperCase s)).
  now rewrite upper_char_idempotent, IH.
Qed.

(** The setters leave what they produced unchanged. *)
Lemma set_trim_idempotent (v : option string) :
  IDData.set_trim (IDData.set_trim v) = IDData.set_trim v.
Proof.
  destruct v as [s|]; [|reflexivity].
  change (Some (JS.trim (JS.trim s)) = Some (JS.trim s)).
  now rewrite trim_idempotent.
Qed.

Lemma set_trim_upper_idempotent (v : option string) :
  IDData.set_trim_upper (IDData.set_trim_upper v) = IDData.set_trim_upper v.
Proof.
  destruct v as [s|]; [|reflexivity].
  change (Some (JS.toUpperCase (JS.trim (JS.toUpperCase (JS.trim s))))
          = Some (JS.toUpperCase (JS.trim s))).
  rewrite (upper_trim_comm (JS.toUpperCase (JS.trim s))), toUpperCase_idempotent.
  now rewrite <- upper_trim_comm, trim_idempotent.
Qed.

End SetterFacts.

(* ===================================================================== *)
(** * Saving and reading back *)
(* ===================================================================== *)

Section SaveFacts.
Import ErrorHandler IDData SaveController.

Lemma pre_save_isNew now d : isNew (pre_save now d) = isNew d.
Proof. unfold pre_save. destruct (_ || _); reflexivity. Qed.

Lemma pre_save_item now d :
  SaveController.extractedData (item_of (doc (pre_save now d)))
  = SaveController.extractedData (item_of (doc d))
  /\ _id (doc (pre_save now d)) = _id (doc d).
Proof. unfold pre_save. destruct (_ || _); split; reflexivity. Qed.

Lemma find_after_insert (oid : ObjectId) (x : IIDData) (coll : list IIDData) :
  existsb (has_id oid) coll = false -> has_id oid x = true ->
  findById oid (coll ++ [x]) = Some x.
Proof.
  intros Hnone Hx. unfold findById.
  induction coll as [|y coll IH]; simpl in *.
  - now rewrite Hx.
  - apply orb_false_iff in Hnone as [Hy Hrest]. rewrite Hy. auto.
Qed.

(** What a successful [save] of a new document did. *)
Lemma save_new_document now d coll coll' saved :
  isNew d = true ->
  save now d coll = (coll', inl saved) ->
  validate (doc d) = []
  /\ existsb (has_id (_id (doc d))) coll = false
  /\ coll' = (coll ++ [doc (pre_save now d)])%list
  /\ doc saved = doc (pre_save now d).
Proof.
  intros Hnew. unfold save.
  destruct (validate (doc d)) as [|e errs]; [|discriminate].
  rewrite pre_save_isNew, Hnew.
  destruct (pre_save_item now d) as [_ Hid]. rewrite Hid.
  destruct (existsb _ coll); [discriminate|].
  intros [= <- <-]. auto.
Qed.

(** A body that passes both the request schema and the model validators
    has the sex [M] or [F], or none. *)
Lemma accepted_sex (v : option string) :
  z_sex v = [] -> enum sex_values (set_trim_upper v) = true ->
  set_trim_upper v = v.
Proof.
  destruct v as [s|]; [|reflexivity]. unfold z_sex. simpl existsb.
  destruct (String.eqb_spec s "M") as [->|_]; [reflexivity|].
  destruct (String.eqb_spec s "F") as [->|_]; [reflexivity|].
  destruct (String.eqb_spec s "Male") as [->|_]; [discriminate|].
  destruct (String.eqb_spec s "Female") as [->|_]; [discriminate|].
  discriminate.
Qed.

Lemma schema_sex body : idDataSchema body = [] -> z_sex (a_sex body) = [].
Proof.
  unfold idDataSchema. intros H.
  do 7 (apply app_eq_nil in H as [_ H]).
  now apply app_eq_nil in H as [H _].
Qed.

Lemma validate_sex_ok d : validate d = [] -> enum sex_values (IDData.sex d) = true.
Proof.
  unfold validate. intros H.
  apply app_eq_nil in H as [_ H]. apply app_eq_nil in H as [H _].
  unfold validate_sex in H. simpl in H.
  destruct (enum sex_values (IDData.sex d)); [reflexivity|discriminate].
Qed.

(** What the save endpoint did when it answered. *)
Lemma saveData_returned env body coll coll' code item :
  saveData env body coll = (coll', Returned (code, item)) ->
  let d := new_IDData (new_ObjectId env) body
             (date_extractedAt env) (date_lastModified env) false in
  let stored := doc (pre_save (date_pre_save env) d) in
  idDataSchema body = []
  /\ validate (doc d) = []
  /\ existsb (has_id (new_ObjectId env)) coll = false
  /\ coll' = (coll ++ [stored])%list
  /\ code = 201
  /\ item = item_of stored.
Proof.
  unfold saveData.
  destruct (idDataSchema body) as [|e errs] eqn:Hschema; [|discriminate].
  set (d := new_IDData _ _ _ _ _).
  destruct (save (date_pre_save env) d coll) as [c [saved|[errs|n]]] eqn:Hsave;
    [|discriminate..].
  intros [= <- <- <-].
  apply save_new_document in Hsave as (Hvalid & Hfresh & -> & ->); [|reflexivity].
  repeat split; assumption.
Qed.

End SaveFacts.

Section RoundTrip.
Import ErrorHandler IDData SaveController.

(** C1, as amended.  A record the save endpoint accepts is found again
    under the returned id, and get-by-id returns the very item the save
    response carried.  Its string fields are the submitted ones with the
    surrounding white space trimmed ([middleInitial] also in upper case),
    [sex] is exactly as submitted, and [confidence] is the submitted number,
    or [null] when none was submitted. *)
Theorem save_then_get_by_id
    (env : SaveEnv) (body : Attrs) (coll coll' : list IIDData) (code : Z) (item : Item) :
  (new_ObjectId env < 2 ^ 96)%N ->
  saveData env body coll = (coll', Returned (code, item)) ->
  code = 201
  /\ getDataById (item_id item) coll' = Returned (200, item)
  /\ SaveController.id (extractedData item) = JS.trim <$> a_id body
  /\ SaveController.lastName (extractedData item) = JS.trim <$> a_lastName body
  /\ SaveController.firstName (extractedData item) = JS.trim <$> a_firstName body
  /\ SaveController.middleInitial (extractedData item)
     = (fun s => JS.toUpperCase (JS.trim s)) <$> a_middleInitial body
  /\ SaveController.addressStreet (extractedData item) = JS.trim <$> a_addressStreet body
  /\ SaveController.addressCity (extractedData item) = JS.trim <$> a_addressCity body
  /\ SaveController.addressState (extractedData item) = JS.trim <$> a_addressState body
  /\ SaveController.addressZip (extractedData item) = JS.trim <$> a_addressZip body
  /\ SaveController.sex (extractedData item) = a_sex body
  /\ SaveController.dob (extractedData item) = JS.trim <$> a_dob body
  /\ SaveController.confidence (extractedData item)
     = match a_confidence body with Some q => Val q | None => Null end.
Proof.
  intros Hoid Hsave.
  apply saveData_returned in Hsave as (Hschema & Hvalid & Hfresh & -> & -> & ->).
  set (d := new_IDData _ _ _ _ _) in *.
  destruct (pre_save_item (date_pre_save env) d) as [Hfields Hid].
  split; [reflexivity|]. split.
  - assert (Hitem : item_id (item_of (doc (pre_save (date_pre_save env) d)))
                    = toHexString (new_ObjectId env)).
    { unfold item_of. cbn [item_id]. now rewrite Hid. }
    assert (Hlen : String.length (toHexString (new_ObjectId env)) = 24%nat)
      by apply hex_digits_length.
    assert (Hhex : JS.all_chars JS.is_hex (toHexString (new_ObjectId env)) = true)
      by now apply hex_digits_all_hex.
    unfold getDataById. rewrite !Hitem.
    destruct (String.eqb_spec (toHexString (new_ObjectId env)) "") as [E|_].
    { rewrite E in Hlen. discriminate. }
    rewrite Hlen, Hhex. cbn [Nat.eqb andb negb orb].
    rewrite castObjectId_toHexString by exact Hoid. cbn [mbind option_bind].
    rewrite find_after_insert; [reflexivity|exact Hfresh|].
    unfold has_id. rewrite Hid. apply N.eqb_refl.
  - rewrite Hfields. cbn.
    repeat split.
    apply accepted_sex.
    + now apply schema_sex.
    + apply (validate_sex_ok _ Hvalid).
Qed.

(** The theorem at a full record. *)
Lemma save_then_get_by_id_witness :
  (new_ObjectId Examples.env1 < 2 ^ 96)%N
  /\ saveData Examples.env1 Examples.jane_full []
     = (fst Examples.jane_full_saved, Returned (201, Examples.jane_full_item))
  /\ getDataById (item_id Examples.jane_full_item) (fst Examples.jane_full_saved)
     = Returned (200, Examples.jane_full_item)
  /\ SaveController.lastName (extractedData Examples.jane_full_item) = Some "Doe"
  /\ SaveController.middleInitial (extractedData Examples.jane_full_item) = Some "Q"
  /\ SaveController.sex (extractedData Examples.jane_full_item) = Some "F".
Proof.
  assert (Hoid : (new_ObjectId Examples.env1 < 2 ^ 96)%N) by reflexivity.
  assert (Hsave : saveData Examples.env1 Examples.jane_full []
                  = (fst Examples.jane_full_saved, Returned (201, Examples.jane_full_item)))
    by (vm_compute; reflexivity).
  destruct (save_then_get_by_id _ _ _ _ _ _ Hoid Hsave)
    as (_ & Hget & _ & Hlast & _ & Hmiddle & _ & _ & _ & _ & Hsex & _).
  repeat split; assumption.
Defined.

(** C1 as stated fails: a last name submitted with a leading blank is
    accepted, and read back without the blank. *)
Lemma padded_name_is_not_read_back :
  saveData Examples.env1 Examples.jane_full []
  = (fst Examples.jane_full_saved, Returned (201, Examples.jane_full_item))
  /\ getDataById (item_id Examples.jane_full_item) (fst Examples.jane_full_saved)
     = Returned (200, Examples.jane_full_item)
  /\ a_lastName Examples.jane_full = Some " Doe"
  /\ SaveController.lastName (extractedData Examples.jane_full_item) = Some "Doe"
  /\ a_middleInitial Examples.jane_full = Some "q"
  /\ SaveController.middleInitial (extractedData Examples.jane_full_item) = Some "Q".
Proof. by_running. Qed.

(** The values read back are left unchanged by the setters: submitting
    them again reads them back as they are. *)
Lemma read_back_values_are_stable
    (env : SaveEnv) (body : Attrs) (coll coll' : list IIDData) (code : Z) (item : Item) :
  saveData env body coll = (coll', Returned (code, item)) ->
  set_trim (SaveController.id (extractedData item)) = SaveController.id (extractedData item)
  /\ set_trim (SaveController.lastName (extractedData item))
     = SaveController.lastName (extractedData item)
  /\ set_trim (SaveController.firstName (extractedData item))
     = SaveController.firstName (extractedData item)
  /\ set_trim_upper (SaveController.middleInitial (extractedData item))
     = SaveController.middleInitial (extractedData item)
  /\ set_trim (SaveController.addressStreet (extractedData item))
     = SaveController.addressStreet (extractedData item)
  /\ set_trim (SaveController.addressCity (extractedData item))
     = SaveController.addressCity (extractedData item)
  /\ set_trim (SaveController.addressState (extractedData item))
     = SaveController.addressState (extractedData item)
  /\ set_trim (SaveController.addressZip (extractedData item))
     = SaveController.addressZip (extractedData item)
  /\ set_trim_upper (SaveController.sex (extractedData item))
     = SaveController.sex (extractedData item)
  /\ set_trim (SaveController.dob (extractedData item))
     = SaveController.dob (extractedData item).
Proof.
  intros Hsave.
  apply saveData_returned in Hsave as (_ & _ & _ & _ & _ & ->).
  destruct (pre_save_item (date_pre_save env)
              (new_IDData (new_ObjectId env) body (date_extractedAt env)
                 (date_lastModified env) false)) as [-> _].
  cbn [item_of extractedData new_IDData doc SaveController.id SaveController.lastName
       SaveController.firstName SaveController.middleInitial SaveController.addressStreet
       SaveController.addressCity SaveController.addressState SaveController.addressZip
       SaveController.sex SaveController.dob
       IDData.id IDData.lastName IDData.firstName IDData.middleInitial
       IDData.addressStreet IDData.addressCity IDData.addressState IDData.addressZip
       IDData.sex IDData.dob].
  repeat split; first [apply set_trim_idempotent | apply set_trim_upper_idempotent].
Qed.

End RoundTrip.

(* ===================================================================== *)
(** * The "manually edited" flag *)
(* ===================================================================== *)

Section EditedFlag.
Import ErrorHandler IDData SaveController.

Lemma isModified_present (path : string) (before after : list string) d :
  modifiedPaths d = (before ++ path :: after)%list -> isModified path d = true.
Proof.
  intros H. unfold isModified. rewrite H, existsb_app. simpl.
  rewrite String.eqb_refl. now rewrite orb_true_r.
Qed.

Lemma isModified_assign_lastModified path t d :
  isModified path d = true -> isModified path (assign_lastModified t d) = true.
Proof.
  unfold isModified, assign_lastModified, mark. cbn [modifiedPaths].
  intros H. destruct (_ && _); [|exact H].
  rewrite existsb_app, H. reflexivity.
Qed.

Lemma schema_lastName body :
  idDataSchema body = [] -> exists s, a_lastName body = Some s.
Proof.
  unfold idDataSchema. intros H. apply app_eq_nil in H as [H _].
  destruct (a_lastName body) as [s|]; [eauto|discriminate].
Qed.

(** The pre-save hook on a document built from a body with a last name:
    the flag comes out [true], whatever it was. *)
Lemma pre_save_new_document now oid body t1 t2 flag s :
  a_lastName body = Some s ->
  IDData.isManuallyEdited (doc (pre_save now (new_IDData oid body t1 t2 flag))) = true.
Proof.
  intros Hlast. unfold pre_save.
  rewrite (isModified_assign_lastModified "lastName").
  - reflexivity.
  - eapply (isModified_present _ (present "id" (a_id body))).
    cbn [new_IDData modifiedPaths]. rewrite Hlast. reflexivity.
Qed.

Lemma save_sets_the_edited_flag env body coll coll' code item :
  saveData env body coll = (coll', Returned (code, item)) ->
  SaveController.isManuallyEdited (metadata item) = true.
Proof.
  unfold saveData.
  destruct (idDataSchema body) as [|e errs] eqn:Hschema; [|discriminate].
  destruct (schema_lastName _ Hschema) as [s Hlast].
  set (d := new_IDData _ _ _ _ _).
  destruct (save (date_pre_save env) d coll) as [c [saved|[errs|n]]] eqn:Hsave;
    [|discriminate..].
  intros [= <- <- <-].
  apply save_new_document in Hsave as (_ & _ & _ & Hdoc); [|reflexivity].
  unfold item_of. cbn [metadata SaveController.isManuallyEdited]. rewrite Hdoc.
  now apply (pre_save_new_document _ _ _ _ _ _ s).
Qed.

(** On a loaded document the hook raises the flag exactly for a change of
    the last name, the first name, the id or the street. *)
Lemma isModified_other path t d :
  path <> "lastModified" ->
  isModified path (assign_lastModified t d) = isModified path d.
Proof.
  intros Hne. unfold isModified, assign_lastModified, mark. cbn [modifiedPaths].
  destruct (_ && _); [|reflexivity].
  rewrite existsb_app. simpl.
  destruct (String.eqb_spec path "lastModified"); [contradiction|].
  now rewrite !orb_false_r.
Qed.

Lemma pre_save_loaded_document now d :
  IDData.isManuallyEdited (doc (pre_save now d))
  = IDData.isManuallyEdited (doc d)
    || (isModified "lastName" d || isModified "firstName" d
        || isModified "id" d || isModified "addressStreet" d).
Proof.
  unfold pre_save.
  rewrite !isModified_other by discriminate.
  destruct (_ || _); cbn.
  - now rewrite orb_true_r.
  - now rewrite orb_false_r.
Qed.

(** C2 fails on the code.  The body [{ lastName: "Doe", firstName:
    "Jane" }] is saved with [isManuallyEdited: false] in the constructor,
    yet the stored record and the response carry [true]: the pre-save hook
    finds the names modified on the new document. *)
Theorem new_record_is_flagged_as_edited :
  exists stored item,
    saveData Examples.env1 Examples.jane [] = ([stored], Returned (201, item))
    /\ IDData.isManuallyEdited stored = true
    /\ SaveController.isManuallyEdited (metadata item) = true.
Proof. vm_compute. eexists _, _. repeat split; reflexivity. Qed.

End EditedFlag.

(* ===================================================================== *)
(** * The sex enumeration *)
(* ===================================================================== *)

Section SexEnum.
Import ErrorHandler IDData SaveController.

Lemma validate_split oid body t1 t2 flag :
  validate (doc (new_IDData oid body t1 t2 flag)) = []
  <-> other_validators body = []
      /\ enum sex_values (set_trim_upper (a_sex body)) = true.
Proof.
  unfold validate, other_validators, validate_sex.
  change (validate_before_sex (doc (new_IDData oid body t1 t2 flag)))
    with (validate_before_sex (doc (new_IDData 0%N body 0 0 false))).
  change (validate_after_sex (doc (new_IDData oid body t1 t2 flag)))
    with (validate_after_sex (doc (new_IDData 0%N body 0 0 false))).
  cbn [new_IDData doc IDData.sex first_failure].
  destruct (enum sex_values (set_trim_upper (a_sex body))).
  - cbn [app]. tauto.
  - split.
    + intros H. apply app_eq_nil in H as [_ H]. discriminate.
    + intros [_ H]. discriminate.
Qed.

(** The defect behind the two rejected values: whatever else the body
    holds, the sex ["Male"] or ["Female"] passes the request schema's
    enumeration and makes the save throw a 400. *)
Lemma sex_Male_and_Female_never_pass (env : SaveEnv) (body : Attrs) (coll : list IIDData) :
  idDataSchema body = [] ->
  a_sex body = Some "Male" \/ a_sex body = Some "Female" ->
  exists msg, saveData env body coll = (coll, Thrown (createError msg 400)).
Proof.
  intros Hschema Hsex. unfold saveData. rewrite Hschema.
  set (d := new_IDData _ _ _ _ _).
  assert (Hinvalid : validate (doc d) <> []).
  { intros Hvalid. apply validate_split in Hvalid as [_ Henum].
    destruct Hsex as [H | H]; rewrite H in Henum; discriminate. }
  unfold save. destruct (validate (doc d)) as [|e errs]; [contradiction|].
  eexists. reflexivity.
Qed.

(** A body that passes the request schema, whose sex is ["M"] or ["F"]
    and whose other fields pass the validators of the model, is stored when
    its ObjectId is fresh: the endpoint answers 201 and the stored sex is
    the submitted one. *)
Lemma save_accepts_sex_M_and_F (env : SaveEnv) (body : Attrs) (coll : list IIDData) :
  idDataSchema body = [] ->
  a_sex body = Some "M" \/ a_sex body = Some "F" ->
  other_validators body = [] ->
  existsb (has_id (new_ObjectId env)) coll = false ->
  exists stored,
    saveData env body coll = ((coll ++ [stored])%list, Returned (201, item_of stored))
    /\ IDData.sex stored = a_sex body.
Proof.
  intros Hschema Hsex Hother Hfresh. unfold saveData. rewrite Hschema.
  set (d := new_IDData _ _ _ _ _).
  assert (Hvalid : validate (doc d) = []).
  { apply validate_split. split; [exact Hother|].
    destruct Hsex as [-> | ->]; reflexivity. }
  unfold save. rewrite Hvalid, pre_save_isNew. cbn [d new_IDData isNew].
  destruct (pre_save_item (date_pre_save env) d) as [Hfields Hid].
  rewrite Hid. cbn [d new_IDData doc _id]. rewrite Hfresh.
  eexists. split; [reflexivity|].
  cbn [doc].
  change (IDData.sex (doc (pre_save (date_pre_save env) d)))
    with (SaveController.sex (extractedData (item_of (doc (pre_save (date_pre_save env) d))))).
  rewrite Hfields. cbn. destruct Hsex as [-> | ->]; reflexivity.
Qed.

(** The theorem at a full record with the sex ["F"]. *)
Lemma save_accepts_sex_M_and_F_witness :
  idDataSchema Examples.jane_full = []
  /\ (a_sex Examples.jane_full = Some "M" \/ a_sex Examples.jane_full = Some "F")
  /\ other_validators Examples.jane_full = []
  /\ existsb (has_id (new_ObjectId Examples.env1)) [] = false
  /\ exists stored,
       saveData Examples.env1 Examples.jane_full []
       = (([] ++ [stored])%list, Returned (201, item_of stored))
       /\ IDData.sex stored = a_sex Examples.jane_full.
Proof.
  assert (H1 : idDataSchema Examples.jane_full = []) by reflexivity.
  assert (H2 : a_sex Examples.jane_full = Some "M" \/ a_sex Examples.jane_full = Some "F")
    by (right; reflexivity).
  assert (H3 : other_validators Examples.jane_full = []) by reflexivity.
  assert (H4 : existsb (has_id (new_ObjectId Examples.env1)) [] = false) by reflexivity.
  repeat (split; [assumption|]).
  exact (save_accepts_sex_M_and_F Examples.env1 Examples.jane_full [] H1 H2 H3 H4).
Defined.

(** C6 fails on the code.  The request schema and the enumeration of
    the model both list the sex ["Male"] and ["Female"]; the model also
    upper-cases the value before it checks it, so both are refused: a body
    with the two names and the sex ["Male"], or ["Female"], passes the
    request schema and is answered 400, with nothing stored, where the same
    body with the sex ["M"] is stored and answered 201. *)
Theorem sex_Male_is_rejected :
  idDataSchema (Examples.with_sex "Male" Examples.jane) = []
  /\ saveData Examples.env1 (Examples.with_sex "Male" Examples.jane) []
     = ([], Thrown (createError
          "Database validation error: `MALE` is not a valid enum value for path `sex`." 400))
  /\ idDataSchema (Examples.with_sex "Female" Examples.jane) = []
  /\ saveData Examples.env1 (Examples.with_sex "Female" Examples.jane) []
     = ([], Thrown (createError
          "Database validation error: `FEMALE` is not a valid enum value for path `sex`." 400))
  /\ existsb (String.eqb "Male") sex_values = true
  /\ existsb (String.eqb "Female") sex_values = true
  /\ exists stored,
       saveData Examples.env1 (Examples.with_sex "M" Examples.jane) []
       = ([stored], Returned (201, item_of stored))
       /\ IDData.sex stored = Some "M".
Proof.
  do 6 (split; [vm_compute; reflexivity|]).
  exists (doc (pre_save (date_pre_save Examples.env1)
                 (new_IDData (new_ObjectId Examples.env1)
                    (Examples.with_sex "M" Examples.jane)
                    (date_extractedAt Examples.env1) (date_lastModified Examples.env1) false))).
  split; vm_compute; reflexivity.
Qed.

End SexEnum.

(* ===================================================================== *)
(** * Pagination *)
(* ===================================================================== *)

Section Pagination.
Import ErrorHandler IDData SaveController.

(** With a positive [limit], [page * limit < total] says that a later page
    exists. *)
Lemma hasMore_iff_more_pages (page limit total : Z) :
  0 < limit -> (page * limit < total <-> page < ceil_div total limit).
Proof.
  intros Hlimit. unfold ceil_div.
  pose proof (Z.div_mod (- total) limit) as Hdm.
  pose proof (Z.mod_pos_bound (- total) limit Hlimit) as Hmod.
  split; intros H; nia.
Qed.

(** C9.  A request for the page [page] with the limit [limit], neither
    of them zero, whose offset [(page - 1) * limit] is not negative, is
    answered with a listing for that page: its [currentPage] is [page], its
    [totalRecords] the number of stored records, and its [hasMore] is [true]
    exactly when [page * limit < total].  A request without the two
    parameters is answered for the page 1 with the limit 10.  And whatever
    the request, a listing that is sent reports [hasMore] as [true] exactly
    when its [currentPage] times the limit in force is below its
    [totalRecords]. *)
Theorem hasMore_iff_page_limit_below_total (page limit : Z) (coll : list IIDData) :
  let total := Z.of_nat (length coll) in
  page <> 0 -> limit <> 0 -> 0 <= (page - 1) * limit ->
  (exists listing,
     getAllData (Some page) (Some limit) coll = Returned (200, listing)
     /\ currentPage (pagination listing) = page
     /\ totalRecords (pagination listing) = total
     /\ (hasMore (pagination listing) = true <-> page * limit < total))
  /\ (exists listing,
        getAllData None None coll = Returned (200, listing)
        /\ currentPage (pagination listing) = 1
        /\ totalRecords (pagination listing) = total
        /\ (hasMore (pagination listing) = true <-> 1 * 10 < total))
  /\ (forall page_query limit_query code listing,
        getAllData page_query limit_query coll = Returned (code, listing) ->
        (hasMore (pagination listing) = true
         <-> currentPage (pagination listing) * or_default limit_query 10
             < totalRecords (pagination listing))).
Proof.
  intros total Hpage Hlimit Hskip. split; [|split].
  - unfold getAllData, or_default, find_page.
    destruct (Z.eqb_spec page 0) as [|_]; [contradiction|].
    destruct (Z.eqb_spec limit 0) as [|_]; [contradiction|].
    destruct (Z.ltb_spec ((page - 1) * limit) 0) as [|_]; [lia|].
    eexists. split; [reflexivity|]. cbn [pagination currentPage totalRecords hasMore].
    split; [reflexivity|]. split; [reflexivity|]. apply Z.ltb_lt.
  - eexists. split; [reflexivity|]. cbn [pagination currentPage totalRecords hasMore].
    split; [reflexivity|]. split; [reflexivity|]. apply Z.ltb_lt.
  - intros page_query limit_query code listing. unfold getAllData.
    destruct (find_page _ _ _); [|discriminate].
    intros [= <- <-]. cbn [pagination currentPage totalRecords hasMore]. apply Z.ltb_lt.
Qed.

(** The theorem at the first page of two records, of a collection of
    three: there is more. *)
Lemma hasMore_iff_page_limit_below_total_witness :
  1 <> 0 /\ 2 <> 0 /\ 0 <= (1 - 1) * 2
  /\ Z.of_nat (length Records.three_records) = 3
  /\ exists listing,
       getAllData (Some 1) (Some 2) Records.three_records = Returned (200, listing)
       /\ currentPage (pagination listing) = 1
       /\ totalRecords (pagination listing) = Z.of_nat (length Records.three_records)
       /\ (hasMore (pagination listing) = true
           <-> 1 * 2 < Z.of_nat (length Records.three_records)).
Proof.
  assert (H1 : 1 <> 0) by discriminate.
  assert (H2 : 2 <> 0) by discriminate.
  assert (H3 : 0 <= (1 - 1) * 2) by (vm_compute; discriminate).
  split; [exact H1|]. split; [exact H2|]. split; [exact H3|]. split; [reflexivity|].
  exact (proj1 (hasMore_iff_page_limit_below_total 1 2 Records.three_records H1 H2 H3)).
Defined.

End Pagination.

(* ===================================================================== *)
(** * Upstream failures of the OCR service *)
(* ===================================================================== *)

Section UpstreamErrors.
Import ErrorHandler AnthropicService UploadController.

Lemma rethrow_then_errorHandler (e : ApiError) (s : Z) :
  status e = StatusNumber s -> s = 401 \/ s = 429 \/ s = 500 ->
  errorHandler (rethrow e) = {| res_status := 503; res_message := Spec.domain_message s |}.
Proof.
  intros Hs Hcases. unfold rethrow. rewrite Hs.
  destruct Hcases as [-> | [-> | ->]]; vm_compute; reflexivity.
Qed.

(** C3.  When the handler reaches the hosted model with the image and the
    model's SDK fails with the HTTP status 401, 429 or 500, the client of
    the upload endpoint receives the status 503 and the domain message of
    that status. *)
Theorem upstream_failure_is_answered_503
    (heicConvert : HeicConversionService.Converter) (rt : Runtime)
    (file : UploadMiddleware.File) (disk disk1 : Fs.Disk)
    (imagePath image mediaType : string) (e : ApiError) (s : Z) :
  image_to_scan heicConvert file disk = (disk1, Returned imagePath) ->
  Fs.readFileSync imagePath disk1 = Some image ->
  getMediaType imagePath = Some mediaType ->
  messages_create rt mediaType image = Rejected e ->
  status e = StatusNumber s ->
  s = 401 \/ s = 429 \/ s = 500 ->
  asyncHandler (snd (uploadAndExtract heicConvert rt (Some file) disk))
  = ErrorJson {| res_status := 503; res_message := Spec.domain_message s |}.
Proof.
  intros Hscan Hread Hmedia Hapi Hstatus Hcases.
  unfold uploadAndExtract. rewrite Hscan.
  unfold extractTextFromImage, try_extract. rewrite Hread, Hmedia, Hapi.
  cbn [snd asyncHandler]. f_equal. now apply rethrow_then_errorHandler.
Qed.

(** The theorem at a JPEG upload refused with 401. *)
Lemma upstream_failure_is_answered_503_witness :
  image_to_scan Examples.converter Examples.jpeg_file Examples.jpeg_disk
  = (Examples.jpeg_disk, Returned Examples.jpeg_path)
  /\ Fs.readFileSync Examples.jpeg_path Examples.jpeg_disk = Some "JPEG data"
  /\ getMediaType Examples.jpeg_path = Some "image/jpeg"
  /\ messages_create (Examples.rejecting 401) "image/jpeg" "JPEG data"
     = Rejected (Examples.upstream 401)
  /\ status (Examples.upstream 401) = StatusNumber 401
  /\ (401 = 401 \/ 401 = 429 \/ 401 = 500)
  /\ asyncHandler (snd (uploadAndExtract Examples.converter (Examples.rejecting 401)
                          (Some Examples.jpeg_file) Examples.jpeg_disk))
     = ErrorJson {| res_status := 503;
                    res_message :=
                      "OCR service temporarily unavailable. Please try again later." |}.
Proof.
  assert (H1 : image_to_scan Examples.converter Examples.jpeg_file Examples.jpeg_disk
               = (Examples.jpeg_disk, Returned Examples.jpeg_path)) by reflexivity.
  assert (H2 : Fs.readFileSync Examples.jpeg_path Examples.jpeg_disk = Some "JPEG data")
    by (vm_compute; reflexivity).
  assert (H3 : getMediaType Examples.jpeg_path = Some "image/jpeg") by (vm_compute; reflexivity).
  assert (H4 : messages_create (Examples.rejecting 401) "image/jpeg" "JPEG data"
               = Rejected (Examples.upstream 401)) by reflexivity.
  assert (H5 : status (Examples.upstream 401) = StatusNumber 401) by reflexivity.
  assert (H6 : 401 = 401 \/ 401 = 429 \/ 401 = 500) by (left; reflexivity).
  repeat (split; [assumption|]).
  exact (upstream_failure_is_answered_503 _ _ _ _ _ _ _ _ _ _ H1 H2 H3 H4 H5 H6).
Defined.

End UpstreamErrors.

(* ===================================================================== *)
(** * Temporary files *)
(* ===================================================================== *)

Section TempFiles.
Import ErrorHandler UploadMiddleware UploadController.

Context (heicConvert : HeicConversionService.Converter) (rt : AnthropicService.Runtime).

Lemma try_unlink_existing (path data : string) (disk : Fs.Disk) :
  disk !! path = Some data -> try_unlink path disk = delete path disk.
Proof. intros H. unfold try_unlink, Fs.unlinkSync. now rewrite H. Qed.

Lemma cleanup_on_error_existing (file : File) (data : string) (disk : Fs.Disk) :
  path file <> "" -> disk !! path file = Some data ->
  cleanup_on_error file disk = delete (path file) disk.
Proof.
  intros Hne H. unfold cleanup_on_error, Fs.existsSync.
  destruct (String.eqb_spec (path file) ""); [contradiction|].
  rewrite bool_decide_eq_true_2 by (rewrite H; eauto).
  cbn [negb andb]. now apply try_unlink_existing with data.
Qed.

Lemma cleanup_on_error_missing (file : File) (disk : Fs.Disk) :
  disk !! path file = None -> cleanup_on_error file disk = disk.
Proof.
  intros H. unfold cleanup_on_error, Fs.existsSync.
  rewrite bool_decide_eq_false_2.
  - now rewrite andb_false_r.
  - rewrite H. intros [x Hx]. discriminate.
Qed.

(** An upload that is not HEIC: the temporary file is gone after the
    handler, whether the OCR client returned or threw. *)
Lemma other_uploads_are_cleaned_up
    (file : File) (data : string) (disk : Fs.Disk) :
  mimetype file <> "image/heic" -> path file <> "" -> disk !! path file = Some data ->
  fst (uploadAndExtract heicConvert rt (Some file) disk) = delete (path file) disk.
Proof.
  intros Hmime Hne Hfile. unfold uploadAndExtract, image_to_scan.
  destruct (String.eqb_spec (mimetype file) "image/heic"); [contradiction|].
  destruct (AnthropicService.extractTextFromImage rt (path file) disk); cbn [fst].
  - now apply try_unlink_existing with data.
  - now apply cleanup_on_error_existing with data.
Qed.

(** A HEIC upload whose conversion succeeds and whose OCR fails: the
    handler throws, and the converted JPEG is still on disk. *)
Lemma converted_jpeg_survives_a_failed_ocr
    (file : File) (heic jpeg : string) (disk : Fs.Disk) (e : ApiError) :
  let jpegPath :=
    Path.join (Path.parse_dir (path file)) (Path.parse_name (path file) ++ ".jpg") in
  let disk' := delete (path file) (<[jpegPath := jpeg]> disk) in
  mimetype file = "image/heic" ->
  disk !! path file = Some heic ->
  heicConvert heic = inl jpeg ->
  jpegPath <> path file ->
  AnthropicService.extractTextFromImage rt jpegPath disk' = Thrown e ->
  uploadAndExtract heicConvert rt (Some file) disk = (disk', Thrown e)
  /\ disk' !! jpegPath = Some jpeg.
Proof.
  intros jpegPath disk' Hmime Hfile Hconv Hne Hocr.
  assert (Hgone : disk' !! path file = None) by apply lookup_delete_eq.
  split.
  - unfold uploadAndExtract, image_to_scan, HeicConversionService.convertIfHeic,
      HeicConversionService.convertHeicToJpeg, Fs.readFileSync, Fs.unlinkSync,
      Fs.writeFileSync.
    rewrite Hmime. cbn [String.eqb Ascii.eqb Bool.eqb andb]. rewrite Hfile, Hconv.
    fold jpegPath. rewrite lookup_insert_ne by exact Hne. rewrite Hfile.
    fold disk'. rewrite Hocr. now rewrite cleanup_on_error_missing.
  - unfold disk'. rewrite lookup_delete_ne by congruence. apply lookup_insert_eq.
Qed.

(** A HEIC upload whose conversion and OCR both succeed: neither the HEIC
    file nor the JPEG is left. *)
Lemma converted_upload_is_cleaned_up_on_success
    (file : File) (heic jpeg : string) (disk : Fs.Disk) (extracted : gmap string string) :
  let jpegPath :=
    Path.join (Path.parse_dir (path file)) (Path.parse_name (path file) ++ ".jpg") in
  let disk' := delete (path file) (<[jpegPath := jpeg]> disk) in
  mimetype file = "image/heic" ->
  disk !! path file = Some heic ->
  heicConvert heic = inl jpeg ->
  jpegPath <> path file ->
  AnthropicService.extractTextFromImage rt jpegPath disk' = Returned extracted ->
  fst (uploadAndExtract heicConvert rt (Some file) disk)
  = delete jpegPath (delete (path file) disk).
Proof.
  intros jpegPath disk' Hmime Hfile Hconv Hne Hocr.
  unfold uploadAndExtract, image_to_scan, HeicConversionService.convertIfHeic,
    HeicConversionService.convertHeicToJpeg, Fs.readFileSync, Fs.unlinkSync,
    Fs.writeFileSync.
  rewrite Hmime. cbn [String.eqb Ascii.eqb Bool.eqb andb]. rewrite Hfile, Hconv.
  fold jpegPath. rewrite lookup_insert_ne by exact Hne. rewrite Hfile.
  fold disk'. rewrite Hocr. cbn [fst].
  rewrite (try_unlink_existing jpegPath jpeg).
  - unfold disk'. rewrite delete_insert_ne by congruence.
    now rewrite delete_insert_eq.
  - unfold disk'. rewrite lookup_delete_ne by congruence. apply lookup_insert_eq.
Qed.

(** A HEIC upload whose conversion fails: the HEIC file is removed by the
    handler. *)
Lemma failed_conversion_is_cleaned_up
    (file : File) (heic msg : string) (disk : Fs.Disk) :
  mimetype file = "image/heic" ->
  path file <> "" ->
  disk !! path file = Some heic ->
  heicConvert heic = inr msg ->
  uploadAndExtract heicConvert rt (Some file) disk
  = (delete (path file) disk, Thrown (HeicConversionService.conversion_failed msg)).
Proof.
  intros Hmime Hne Hfile Hconv.
  unfold uploadAndExtract, image_to_scan, HeicConversionService.convertIfHeic,
    HeicConversionService.convertHeicToJpeg, Fs.readFileSync.
  rewrite Hmime. cbn [String.eqb Ascii.eqb Bool.eqb andb]. rewrite Hfile, Hconv.
  now rewrite (cleanup_on_error_existing file heic).
Qed.

(** C4 fails on the code.  A HEIC upload is stored, converted (the
    conversion removes the HEIC file) and sent to a hosted model that
    answers 429: the route answers 503, and the converted JPEG is still in
    the upload directory, which was empty before the request. *)
Theorem converted_jpeg_is_left_behind :
  upload_route Examples.upload_cfg Examples.converter (Examples.rejecting 429)
    (Some Examples.heic_part) ∅
  = ({[ "/srv/app/uploads/id-1700000000000-123456789.jpg" := "JPEG of HEIC data" ]},
     ErrorJson {| res_status := 503;
                  res_message := "OCR service rate limit exceeded. Please try again later." |}).
Proof. vm_compute. reflexivity. Qed.

End TempFiles.

(* ===================================================================== *)
(** * The JSON object in the reply *)
(* ===================================================================== *)

Section Substrings.

Lemma append_cons (x : ascii) (a b : string) : String x a ++ b = String x (a ++ b).
Proof. reflexivity. Qed.

Lemma append_empty_l (b : string) : "" ++ b = b.
Proof. reflexivity. Qed.

Lemma append_assoc (a b c : string) : (a ++ b) ++ c = a ++ (b ++ c).
Proof.
  induction a as [|x a IH]; [reflexivity|].
  now rewrite !append_cons, IH.
Qed.

Lemma append_empty_r (a : string) : a ++ "" = a.
Proof.
  induction a as [|x a IH]; [reflexivity|].
  now rewrite append_cons, IH.
Qed.

Lemma contains_cons (c d : ascii) (s : string) :
  Path.contains c (String d s) = Ascii.eqb c d || Path.contains c s.
Proof. unfold Path.contains. cbn. now rewrite andb_true_r. Qed.

Lemma contains_empty (c : ascii) : Path.contains c "" = false.
Proof. reflexivity. Qed.

Lemma contains_app (c : ascii) (a b : string) :
  Path.contains c (a ++ b) = Path.contains c a || Path.contains c b.
Proof.
  induction a as [|x a IH]; [reflexivity|].
  rewrite append_cons, !contains_cons, IH. now rewrite orb_assoc.
Qed.

End Substrings.

Section BraceSpan.
Import AnthropicService.

Lemma from_first_none (c : ascii) (s : string) :
  from_first c s = None <-> Path.contains c s = false.
Proof.
  induction s as [|d s IH]; [easy|].
  cbn [from_first]. rewrite contains_cons, Ascii.eqb_sym.
  destruct (Ascii.eqb c d); [easy|]. exact IH.
Qed.

Lemma from_first_app (c : ascii) (before rest : string) :
  Path.contains c before = false ->
  from_first c (before ++ String c rest) = Some (String c rest).
Proof.
  induction before as [|d before IH]; intros H.
  - rewrite append_empty_l. cbn [from_first]. now rewrite Ascii.eqb_refl.
  - rewrite contains_cons in H. apply orb_false_iff in H as [Hd H].
    rewrite append_cons. cbn [from_first]. rewrite Ascii.eqb_sym, Hd. auto.
Qed.

Lemma from_first_some (c : ascii) (s t : string) :
  from_first c s = Some t ->
  exists before rest,
    s = before ++ String c rest /\ t = String c rest /\ Path.contains c before = false.
Proof.
  induction s as [|d s IH]; [discriminate|].
  cbn [from_first]. destruct (Ascii.eqb_spec d c) as [->|Hne].
  - intros [= <-]. exists "", s. auto.
  - intros H. destruct (IH H) as (before & rest & -> & -> & Hb).
    exists (String d before), rest. repeat split.
    rewrite contains_cons, Hb. destruct (Ascii.eqb_spec c d); [congruence|reflexivity].
Qed.

Lemma upto_last_none (c : ascii) (s : string) :
  upto_last c s = None <-> Path.contains c s = false.
Proof.
  induction s as [|d s IH]; [easy|].
  cbn [upto_last]. rewrite contains_cons, Ascii.eqb_sym.
  destruct (upto_last c s) as [t|].
  - split; [discriminate|]. intros H. apply orb_false_iff in H as [_ H].
    apply IH in H. discriminate.
  - destruct IH as [IH _]. rewrite (IH eq_refl), orb_false_r.
    destruct (Ascii.eqb c d); easy.
Qed.

Lemma upto_last_app (c : ascii) (inner after : string) :
  Path.contains c after = false ->
  upto_last c (inner ++ String c after) = Some (inner ++ String c "").
Proof.
  intros H. induction inner as [|d inner IH].
  - rewrite !append_empty_l. cbn [upto_last]. apply upto_last_none in H. rewrite H.
    now rewrite Ascii.eqb_refl.
  - rewrite !append_cons. cbn [upto_last]. now rewrite IH.
Qed.

Lemma upto_last_some (c : ascii) (s t : string) :
  upto_last c s = Some t ->
  exists inner after,
    s = inner ++ String c after /\ t = inner ++ String c "" /\ Path.contains c after = false.
Proof.
  revert t. induction s as [|d s IH]; [discriminate|]. intros t.
  cbn [upto_last]. destruct (upto_last c s) as [u|] eqn:Hu.
  - intros [= <-]. destruct (IH u eq_refl) as (inner & after & -> & -> & Ha).
    exists (String d inner), after. auto.
  - destruct (Ascii.eqb_spec d c) as [->|]; [|discriminate].
    intros [= <-]. exists "", s. repeat split. now apply upto_last_none.
Qed.

(** The match of [/\{[\s\S]*\}/] is the span from the first opening brace
    to the last closing brace, and there is a match exactly when such a
    span exists. *)
Lemma jsonMatch_some (text matched : string) :
  jsonMatch text = Some matched <-> Spec.brace_span text matched.
Proof.
  unfold jsonMatch, Spec.brace_span. split.
  - destruct (from_first "{" text) as [[|b rest]|] eqn:Hfirst; try discriminate.
    apply from_first_some in Hfirst as (before & rest' & -> & [= -> ->] & Hb).
    destruct (upto_last "}" rest') as [inner'|] eqn:Hlast; [|discriminate].
    apply upto_last_some in Hlast as (inner & after & -> & -> & Ha).
    intros [= <-]. exists before, inner, after. repeat split; assumption.
  - intros (before & inner & after & -> & -> & Hb & Ha).
    rewrite !append_cons, !append_empty_l.
    rewrite from_first_app by exact Hb.
    now rewrite upto_last_app by exact Ha.
Qed.

Lemma jsonMatch_none (text : string) :
  jsonMatch text = None <-> (forall matched, ~ Spec.brace_span text matched).
Proof.
  split.
  - intros H matched Hspan. apply jsonMatch_some in Hspan. congruence.
  - intros H. destruct (jsonMatch text) as [m|] eqn:Hm; [|reflexivity].
    apply jsonMatch_some in Hm. now apply H in Hm.
Qed.

End BraceSpan.

Section ReplyParsing.
Import ErrorHandler AnthropicService.

(** C5, as amended.  When the hosted model answers, the client looks at
    the first block of the reply.  If it is text, the client takes the span
    from the first opening brace of the text to its last closing brace and
    hands it to [JSON.parse]: when the span parses, it returns the
    normalised object, or throws the [TypeError] of a value that has no
    text; it throws [Failed to parse OCR JSON response] when the span does
    not parse, and [Could not parse OCR response] when the text has no such
    span.  If the first block is not text, or there is none, the client
    throws as well.  Each of these errors reaches the client of the endpoint
    with the status 500. *)
Theorem reply_is_parsed_from_first_to_last_brace
    (rt : Runtime) (imagePath image mediaType : string) (content : list ContentBlock)
    (disk : Fs.Disk) :
  Fs.readFileSync imagePath disk = Some image ->
  getMediaType imagePath = Some mediaType ->
  messages_create rt mediaType image = Message content ->
  (forall text rest matched,
     content = Text text :: rest -> Spec.brace_span text matched ->
     extractTextFromImage rt imagePath disk
     = match JSON_parse rt matched with
       | Some data =>
           match normalizeExtractedData data with
           | Some normalized => Returned normalized
           | None => Thrown TypeError_to_primitive
           end
       | None => Thrown (createError "Failed to parse OCR JSON response" 500)
       end)
  /\ (forall text rest,
        content = Text text :: rest -> (forall matched, ~ Spec.brace_span text matched) ->
        extractTextFromImage rt imagePath disk
        = Thrown (createError "Could not parse OCR response" 500))
  /\ (forall type rest,
        content = NonText type :: rest ->
        extractTextFromImage rt imagePath disk
        = Thrown (createError "Invalid response format from OCR service" 500))
  /\ (content = [] -> extractTextFromImage rt imagePath disk = Thrown TypeError_no_content)
  /\ Forall (fun e => res_status (errorHandler e) = 500)
       [createError "Failed to parse OCR JSON response" 500;
        createError "Could not parse OCR response" 500;
        createError "Invalid response format from OCR service" 500;
        TypeError_no_content;
        TypeError_to_primitive].
Proof.
  intros Hread Hmedia Hapi.
  unfold extractTextFromImage, try_extract, parse_reply.
  rewrite Hread, Hmedia, Hapi.
  repeat split.
  - intros text rest matched -> Hspan. apply jsonMatch_some in Hspan. rewrite Hspan.
    destruct (JSON_parse rt matched) as [data|]; [|reflexivity].
    destruct (normalizeExtractedData data); reflexivity.
  - intros text rest -> Hnone. apply jsonMatch_none in Hnone. now rewrite Hnone.
  - now intros type rest ->.
  - now intros ->.
  - repeat constructor.
Qed.

(** The theorem at a reply with two objects, at one without braces, and
    at one whose object has a member without text. *)
Lemma reply_is_parsed_from_first_to_last_brace_witness :
  Fs.readFileSync Examples.jpeg_path Examples.jpeg_disk = Some "JPEG data"
  /\ getMediaType Examples.jpeg_path = Some "image/jpeg"
  /\ messages_create (Examples.replying "Results: {} and {}") "image/jpeg" "JPEG data"
     = Message [Text "Results: {} and {}"]
  /\ Spec.brace_span "Results: {} and {}" "{} and {}"
  /\ extractTextFromImage (Examples.replying "Results: {} and {}")
       Examples.jpeg_path Examples.jpeg_disk
     = Thrown (createError "Failed to parse OCR JSON response" 500)
  /\ messages_create (Examples.replying "I cannot read it") "image/jpeg" "JPEG data"
     = Message [Text "I cannot read it"]
  /\ (forall matched, ~ Spec.brace_span "I cannot read it" matched)
  /\ extractTextFromImage (Examples.replying "I cannot read it")
       Examples.jpeg_path Examples.jpeg_disk
     = Thrown (createError "Could not parse OCR response" 500)
  /\ messages_create Examples.replying_without_text "image/jpeg" "JPEG data"
     = Message [Text Examples.reply_without_text]
  /\ Spec.brace_span Examples.reply_without_text Examples.reply_without_text
  /\ JSON_parse Examples.replying_without_text Examples.reply_without_text
     = Some Examples.parsed_without_text
  /\ extractTextFromImage Examples.replying_without_text
       Examples.jpeg_path Examples.jpeg_disk
     = Thrown TypeError_to_primitive.
Proof.
  assert (H1 : Fs.readFileSync Examples.jpeg_path Examples.jpeg_disk = Some "JPEG data")
    by (vm_compute; reflexivity).
  assert (H2 : getMediaType Examples.jpeg_path = Some "image/jpeg") by (vm_compute; reflexivity).
  assert (H3 : messages_create (Examples.replying "Results: {} and {}") "image/jpeg" "JPEG data"
               = Message [Text "Results: {} and {}"]) by reflexivity.
  assert (H4 : Spec.brace_span "Results: {} and {}" "{} and {}").
  { exists "Results: ", "} and {", "". repeat split; reflexivity. }
  assert (H5 : messages_create (Examples.replying "I cannot read it") "image/jpeg" "JPEG data"
               = Message [Text "I cannot read it"]) by reflexivity.
  assert (H6 : forall matched, ~ Spec.brace_span "I cannot read it" matched).
  { apply jsonMatch_none. reflexivity. }
  assert (H7 : messages_create Examples.replying_without_text "image/jpeg" "JPEG data"
               = Message [Text Examples.reply_without_text]) by reflexivity.
  assert (H8 : Spec.brace_span Examples.reply_without_text Examples.reply_without_text).
  { apply jsonMatch_some. vm_compute. reflexivity. }
  assert (H9 : JSON_parse Examples.replying_without_text Examples.reply_without_text
               = Some Examples.parsed_without_text) by (vm_compute; reflexivity).
  repeat (split; [assumption|]).
  split.
  - exact (proj1 (reply_is_parsed_from_first_to_last_brace _ _ _ _ _ _ H1 H2 H3)
             _ _ _ eq_refl H4).
  - split; [exact H5|]. split; [exact H6|].
    split.
    + exact (proj1 (proj2 (reply_is_parsed_from_first_to_last_brace _ _ _ _ _ _ H1 H2 H5))
               _ _ eq_refl H6).
    + split; [exact H7|]. split; [exact H8|]. split; [exact H9|].
      exact (proj1 (reply_is_parsed_from_first_to_last_brace _ _ _ _ _ _ H1 H2 H7)
               _ _ _ eq_refl H8).
Defined.

(** C5 as stated fails.  In the reply [Results: {} and {}] the first
    top-level object is [{}], which is well-formed JSON; the client matches
    [{} and {}] instead and fails.  And a reply whose text block comes
    second is refused without a look at the text. *)
Lemma greedy_match_is_not_the_first_object :
  Spec.first_top_level_object "Results: {} and {}" = Some "{}"
  /\ jsonMatch "Results: {} and {}" = Some "{} and {}"
  /\ Examples.parse_braces "{}" = Some []
  /\ extractTextFromImage (Examples.replying "Results: {} and {}")
       Examples.jpeg_path Examples.jpeg_disk
     = Thrown (createError "Failed to parse OCR JSON response" 500)
  /\ parse_reply (Examples.replying "") [NonText "tool_use"; Text "{}"]
     = Thrown (createError "Invalid response format from OCR service" 500).
Proof. by_running. Qed.

End ReplyParsing.

(* ===================================================================== *)
(** * Normalisation of the extracted fields *)
(* ===================================================================== *)

Section Normalization.
Import AnthropicService.

Lemma normalize_entries_none (data : JEntries) : normalize_entries None data = None.
Proof. unfold normalize_entries. induction data as [|entry data IH]; [reflexivity|exact IH]. Qed.

Lemma normalize_snoc (data : JEntries) (entry : string * JValue) :
  normalizeExtractedData (data ++ [entry])%list
  = match normalizeExtractedData data with
    | Some m => normalize_entry m entry
    | None => None
    end.
Proof. unfold normalizeExtractedData, normalize_entries. now rewrite foldl_app. Qed.

(** An entry whose key the dictionary maps, with a truthy value that has
    a text. *)
Lemma normalize_entry_mapped
    (m : gmap string string) (key normalizedKey : string) (v : JValue) (text : string) :
  fieldMappings_get (JS.replace_spaces false (JS.toLowerCase key)) = Some normalizedKey ->
  truthy v = true ->
  toString v = Some text ->
  normalize_entry m (key, v) = Some (<[normalizedKey := clean normalizedKey (JS.trim text)]> m).
Proof. intros Hkey Hv Htext. unfold normalize_entry. now rewrite Hkey, Hv, Htext. Qed.

Lemma normalize_entry_unmapped (m : gmap string string) (key : string) (v : JValue) :
  fieldMappings_get (JS.replace_spaces false (JS.toLowerCase key)) = None ->
  normalize_entry m (key, v) = Some m.
Proof. intros Hkey. unfold normalize_entry. now rewrite Hkey. Qed.

(** An entry whose key the dictionary maps, with a truthy value that has
    no text. *)
Lemma normalize_entry_throws
    (m : gmap string string) (key normalizedKey : string) (v : JValue) :
  fieldMappings_get (JS.replace_spaces false (JS.toLowerCase key)) = Some normalizedKey ->
  truthy v = true ->
  toString v = None ->
  normalize_entry m (key, v) = None.
Proof. intros Hkey Hv Htext. unfold normalize_entry. now rewrite Hkey, Hv, Htext. Qed.

Lemma all_chars_filter (p : ascii -> bool) (s : string) :
  JS.all_chars p (JS.filter_chars p s) = true.
Proof.
  induction s as [|c s IH]; [reflexivity|].
  cbn. destruct (p c) eqn:Hc; [|exact IH]. cbn. now rewrite Hc.
Qed.

Lemma all_chars_take (p : ascii -> bool) (n : nat) : forall s,
  JS.all_chars p s = true -> JS.all_chars p (JS.take n s) = true.
Proof.
  induction n as [|n IH]; intros [|c s] H; try reflexivity.
  cbn in *. apply andb_true_iff in H as [Hc Hs]. rewrite Hc. now apply IH.
Qed.

Lemma take_length (n : nat) : forall s, (String.length (JS.take n s) <= n)%nat.
Proof.
  induction n as [|n IH]; intros [|c s]; cbn; try lia.
  specialize (IH s). lia.
Qed.

Lemma clean_zip_shaped (value : string) : Spec.zip_shaped (clean "addressZip" value).
Proof.
  change (clean "addressZip" value) with (JS.take 5 (JS.digits_only value)).
  split; [|apply take_length].
  apply all_chars_take, all_chars_filter.
Qed.

Lemma normalize_entry_zip (m m' : gmap string string) (entry : string * JValue) :
  (forall zip, m !! "addressZip" = Some zip -> Spec.zip_shaped zip) ->
  normalize_entry m entry = Some m' ->
  forall zip, m' !! "addressZip" = Some zip -> Spec.zip_shaped zip.
Proof.
  intros Hm. destruct entry as [key v]. unfold normalize_entry.
  destruct (fieldMappings_get _) as [normalizedKey|]; [|intros [= <-]; exact Hm].
  destruct (truthy v); [|intros [= <-]; exact Hm].
  destruct (toString v) as [text|]; [|discriminate].
  intros [= <-] zip.
  destruct (decide (normalizedKey = "addressZip")) as [->|Hne].
  - rewrite lookup_insert_eq. intros [= <-]. apply clean_zip_shaped.
  - rewrite lookup_insert_ne by exact Hne. apply Hm.
Qed.

Lemma normalized_zip (data : JEntries) (m : gmap string string) (zip : string) :
  normalizeExtractedData data = Some m ->
  m !! "addressZip" = Some zip -> Spec.zip_shaped zip.
Proof.
  revert m zip. induction data as [|entry data IH] using rev_ind.
  - intros m zip [= <-]. rewrite lookup_empty. discriminate.
  - intros m zip. rewrite normalize_snoc.
    destruct (normalizeExtractedData data) as [m0|]; [|discriminate].
    intros Hentry. eapply normalize_entry_zip; [|exact Hentry].
    intros zip0. now apply IH.
Qed.

(** C7, as amended.  After whatever entries the function has normalised
    to [m], an entry with a truthy value that has a text does this: under
    the key [surname] it sets [lastName] to the trimmed text; under the key
    [zip_code], which is not in the dictionary, it leaves the result as it
    was; under the keys [address_zip], [zip], [zipcode] and [postal_code] it
    sets [addressZip] to the first five digits of the text; ["female"] under
    [gender] sets [sex] to ["F"].  Every [addressZip] of a normalised object
    consists of digits and has five characters at most.  A truthy value
    that has no text makes the function throw. *)
Theorem normalization_of_keys_and_values
    (data : JEntries) (m : gmap string string) (v : JValue) (text : string) :
  normalizeExtractedData data = Some m ->
  truthy v = true ->
  toString v = Some text ->
  normalizeExtractedData (data ++ [("surname", v)])%list
  = Some (<["lastName" := JS.trim text]> m)
  /\ normalizeExtractedData (data ++ [("zip_code", v)])%list = Some m
  /\ (forall key, In key ["address_zip"; "zip"; "zipcode"; "postal_code"] ->
      normalizeExtractedData (data ++ [(key, v)])%list
      = Some (<["addressZip" := JS.take 5 (JS.digits_only (JS.trim text))]> m))
  /\ normalizeExtractedData (data ++ [("gender", JString "female")])%list
     = Some (<["sex" := "F"]> m)
  /\ (forall zip,
        m !! "addressZip" = Some zip ->
        JS.all_chars JS.is_digit zip = true /\ (String.length zip <= 5)%nat)
  /\ (forall w, truthy w = true -> toString w = None ->
      normalizeExtractedData (data ++ [("surname", w)])%list = None).
Proof.
  intros Hdata Hv Htext. rewrite !normalize_snoc, Hdata.
  split; [|split; [|split; [|split; [|split]]]].
  - now rewrite (normalize_entry_mapped _ _ "lastName" _ text).
  - now apply normalize_entry_unmapped.
  - intros key Hkey. rewrite normalize_snoc, Hdata.
    apply (normalize_entry_mapped _ _ "addressZip" _ text); [|exact Hv|exact Htext].
    cbn in Hkey. destruct Hkey as [<-|[<-|[<-|[<-|[]]]]]; vm_compute; reflexivity.
  - now rewrite (normalize_entry_mapped _ _ "sex" _ "female").
  - intros zip. now apply (normalized_zip data m zip).
  - intros w Hw Hnone. rewrite normalize_snoc, Hdata.
    now apply (normalize_entry_throws _ _ "lastName").
Qed.

(** The theorem at the value [" Doe "] after no entry, and at the value
    ["62701-1234"] after the entry [zip: "123"]; an object with a member
    [toString] has no text. *)
Lemma normalization_of_keys_and_values_witness :
  normalizeExtractedData [] = Some ∅
  /\ truthy (JString " Doe ") = true
  /\ toString (JString " Doe ") = Some " Doe "
  /\ normalizeExtractedData ([] ++ [("surname", JString " Doe ")])%list
     = Some (<["lastName" := "Doe"]> ∅)
  /\ normalizeExtractedData [("zip", JString "123")] = Some {[ "addressZip" := "123" ]}
  /\ truthy (JString "62701-1234") = true
  /\ toString (JString "62701-1234") = Some "62701-1234"
  /\ normalizeExtractedData ([("zip", JString "123")] ++ [("postal_code", JString "62701-1234")])%list
     = Some (<["addressZip" := "62701"]> {[ "addressZip" := "123" ]})
  /\ (JS.all_chars JS.is_digit "123" = true /\ (String.length "123" <= 5)%nat)
  /\ normalizeExtractedData
       ([] ++ [("surname", JObject [("toString", JNull)])])%list = None.
Proof.
  assert (H0 : normalizeExtractedData [] = Some ∅) by reflexivity.
  assert (H1 : truthy (JString " Doe ") = true) by reflexivity.
  assert (H2 : toString (JString " Doe ") = Some " Doe ") by reflexivity.
  assert (H3 : normalizeExtractedData [("zip", JString "123")]
               = Some {[ "addressZip" := "123" ]}) by (vm_compute; reflexivity).
  assert (H4 : truthy (JString "62701-1234") = true) by reflexivity.
  assert (H5 : toString (JString "62701-1234") = Some "62701-1234") by reflexivity.
  destruct (normalization_of_keys_and_values [] ∅ (JString " Doe ") " Doe " H0 H1 H2)
    as (Hsurname & _ & _ & _ & _ & Hthrows).
  destruct (normalization_of_keys_and_values [("zip", JString "123")] _
              (JString "62701-1234") "62701-1234" H3 H4 H5)
    as (_ & _ & Hzip & _ & Hshape & _).
  split; [exact H0|]. split; [exact H1|]. split; [exact H2|].
  split; [exact Hsurname|]. split; [exact H3|]. split; [exact H4|]. split; [exact H5|].
  split; [apply Hzip; do 3 right; left; reflexivity|].
  split; [apply Hshape; vm_compute; reflexivity|].
  apply Hthrows; reflexivity.
Defined.

(** C7 as stated fails: the key [zip_code] sets no field, and the ZIP
    value ["123"] stays three characters long. *)
Lemma zip_code_is_not_in_the_dictionary :
  normalizeExtractedData [("zip_code", JString "12345")] = Some ∅
  /\ normalizeExtractedData [("zip", JString "123")] = Some {[ "addressZip" := "123" ]}
  /\ String.length "123" = 3%nat.
Proof. by_running. Qed.

End Normalization.

(* ===================================================================== *)
(** * Search *)
(* ===================================================================== *)

Section Trim.

Lemma trimStart_length (s : string) : (String.length (JS.trimStart s) <= String.length s)%nat.
Proof.
  induction s as [|c s IH]; cbn; [lia|].
  destruct (JS.is_space c); cbn; lia.
Qed.

Lemma trimEnd_length (s : string) : (String.length (JS.trimEnd s) <= String.length s)%nat.
Proof.
  induction s as [|c s IH]; cbn; [lia|].
  destruct (JS.trimEnd s); [destruct (JS.is_space c)|]; cbn in *; lia.
Qed.

Lemma trim_length (s : string) : (String.length (JS.trim s) <= String.length s)%nat.
Proof.
  unfold JS.trim. etransitivity; [apply trimEnd_length|apply trimStart_length].
Qed.

End Trim.

Section Search.
Import ErrorHandler IDData SaveController.

Lemma compile_literal (p : string) :
  JS.all_chars Spec.literal_char p = true -> compile p = Some (Spec.literal_atoms p).
Proof.
  induction p as [|c p IH]; [reflexivity|].
  cbn [JS.all_chars compile Spec.literal_atoms]. intros H.
  apply andb_true_iff in H as [Hc Hp]. rewrite (IH Hp).
  unfold Spec.literal_char in Hc. apply negb_true_iff in Hc.
  destruct (Ascii.eqb_spec c "."%char) as [->|_]; [discriminate|].
  now rewrite Hc.
Qed.

Lemma match_here_literal (p s : string) :
  match_here (Spec.literal_atoms p) s = JS.startsWith (JS.toLowerCase p) (JS.toLowerCase s).
Proof.
  revert s. induction p as [|c p IH]; intros [|d s]; try reflexivity.
  cbn. now rewrite IH.
Qed.

Lemma regex_search_literal (p s : string) :
  regex_search (Spec.literal_atoms p) s = Spec.ci_substring p s.
Proof.
  unfold Spec.ci_substring.
  induction s as [|d s IH].
  - cbn [regex_search]. rewrite match_here_literal. reflexivity.
  - cbn [regex_search]. rewrite match_here_literal, IH. reflexivity.
Qed.

Lemma search_filter_literal (p : string) (d : IIDData) :
  search_filter (Spec.literal_atoms p) d = Spec.record_matches p d.
Proof.
  unfold search_filter, Spec.record_matches, Spec.occurs_in, test.
  destruct (IDData.id d), (IDData.lastName d), (IDData.firstName d);
    rewrite ?regex_search_literal; cbn [orb];
    rewrite ?orb_false_r; try reflexivity; try apply orb_comm.
  - rewrite <- !orb_assoc. f_equal. apply orb_comm.
Qed.

Lemma In_insert_desc (x y : IIDData) (l : list IIDData) :
  In x (insert_desc y l) <-> x = y \/ In x l.
Proof.
  induction l as [|z l IH]; cbn.
  - intuition.
  - destruct (_ <=? _); cbn; [intuition|]. rewrite IH. intuition.
Qed.

Lemma In_sort_desc (x : IIDData) (l : list IIDData) : In x (sort_desc l) <-> In x l.
Proof.
  induction l as [|y l IH]; cbn; [reflexivity|].
  rewrite In_insert_desc, IH. intuition.
Qed.

(** C8, as amended.  The search endpoint throws the 400 error for a
    missing query, for every query whose trimmed text has fewer than two
    characters, hence for every query of fewer than two characters.  For a
    query whose trimmed text has two characters or more, none of them a
    metacharacter of regular expressions, it answers 200 with exactly the
    records in which the trimmed text occurs, letter case ignored, in the
    id, the first name or the last name. *)
Theorem search_by_trimmed_term (term : string) (coll : list IIDData) :
  searchData None coll = Some (Thrown too_short)
  /\ ((String.length (JS.trim term) < 2)%nat ->
      searchData (Some term) coll = Some (Thrown too_short))
  /\ ((String.length term < 2)%nat ->
      searchData (Some term) coll = Some (Thrown too_short))
  /\ res_status (errorHandler too_short) = 400
  /\ ((2 <= String.length (JS.trim term))%nat ->
      JS.all_chars Spec.literal_char (JS.trim term) = true ->
      exists found,
        searchData (Some term) coll = Some (Returned (200, map item_of found))
        /\ forall d, In d found <-> In d coll /\ Spec.record_matches (JS.trim term) d = true).
Proof.
  assert (Hshort : (String.length (JS.trim term) < 2)%nat ->
                   searchData (Some term) coll = Some (Thrown too_short)).
  { intros H. unfold searchData. apply Nat.ltb_lt in H. rewrite H.
    now rewrite orb_true_r. }
  split; [reflexivity|]. split; [exact Hshort|]. split; [|split; [reflexivity|]].
  - intros H. apply Hshort. pose proof (trim_length term). lia.
  - intros Hlen Hlit. unfold searchData, findBySearchTerm.
    destruct (String.eqb_spec term "") as [->|_]; [cbn in Hlen; lia|].
    apply Nat.ltb_ge in Hlen. rewrite Hlen. cbn [orb].
    rewrite (compile_literal _ Hlit).
    eexists. split; [reflexivity|].
    intros d. rewrite In_sort_desc, filter_In, search_filter_literal. reflexivity.
Qed.

(** The theorem at the queries ["a "] and [" doe "]. *)
Lemma search_by_trimmed_term_witness :
  (String.length (JS.trim "a ") < 2)%nat
  /\ searchData (Some "a ") (fst Examples.jane_full_saved) = Some (Thrown too_short)
  /\ (2 <= String.length (JS.trim " doe "))%nat
  /\ JS.all_chars Spec.literal_char (JS.trim " doe ") = true
  /\ exists found,
       searchData (Some " doe ") (fst Examples.jane_full_saved)
       = Some (Returned (200, map item_of found))
       /\ forall d, In d found
                    <-> In d (fst Examples.jane_full_saved)
                        /\ Spec.record_matches (JS.trim " doe ") d = true.
Proof.
  assert (H1 : (String.length (JS.trim "a ") < 2)%nat) by (vm_compute; lia).
  assert (H2 : (2 <= String.length (JS.trim " doe "))%nat) by (vm_compute; lia).
  assert (H3 : JS.all_chars Spec.literal_char (JS.trim " doe ") = true) by reflexivity.
  destruct (search_by_trimmed_term "a " (fst Examples.jane_full_saved))
    as (_ & Hshort & _).
  destruct (search_by_trimmed_term " doe " (fst Examples.jane_full_saved))
    as (_ & _ & _ & _ & Hlong).
  split; [exact H1|]. split; [exact (Hshort H1)|].
  split; [exact H2|]. split; [exact H3|].
  exact (Hlong H2 H3).
Defined.

(** C8 as stated fails.  The query ["a "] has two characters and is
    answered 400; the query [" doe "] returns the record of Jane Doe, in
    which [" doe "] does not occur; and the query [".."], read as a
    pattern, returns it as well. *)
Lemma search_trims_and_reads_a_pattern :
  String.length "a " = 2%nat
  /\ searchData (Some "a ") (fst Examples.jane_full_saved) = Some (Thrown too_short)
  /\ searchData (Some " doe ") (fst Examples.jane_full_saved)
     = Some (Returned (200, [Examples.jane_full_item]))
  /\ List.filter (Spec.record_matches " doe ") (fst Examples.jane_full_saved) = []
  /\ searchData (Some "..") (fst Examples.jane_full_saved)
     = Some (Returned (200, [Examples.jane_full_item]))
  /\ List.filter (Spec.record_matches "..") (fst Examples.jane_full_saved) = [].
Proof. by_running. Qed.

End Search.

(* ===================================================================== *)
(** * PDF uploads *)
(* ===================================================================== *)

Section Extensions.

Lemma toLowerCase_app (a b : string) :
  JS.toLowerCase (a ++ b) = JS.toLowerCase a ++ JS.toLowerCase b.
Proof.
  induction a as [|x a IH]; [reflexivity|].
  rewrite append_cons. cbn. rewrite append_cons. f_equal. exact IH.
Qed.

Lemma eqb_lower_char_dot (c : ascii) :
  Ascii.eqb "." (JS.lower_char c) = Ascii.eqb "." c.
Proof. each_char c. Qed.

Lemma contains_dot_toLowerCase (s : string) :
  Path.contains "." (JS.toLowerCase s) = Path.contains "." s.
Proof.
  induction s as [|c s IH]; [reflexivity|].
  cbn [JS.toLowerCase JS.map_chars]. rewrite !contains_cons.
  fold (JS.toLowerCase s). now rewrite IH, eqb_lower_char_dot.
Qed.

(** What follows the last separator holds no separator. *)
Lemma after_last_clean (sep : ascii) (s : string) :
  Path.contains sep (JS.after_last sep s) = false.
Proof.
  induction s as [|c s IH]; [reflexivity|].
  cbn [JS.after_last]. destruct (Ascii.eqb_spec c sep) as [->|Hne]; [exact IH|].
  fold (Path.contains sep s).
  destruct (Path.contains sep s) eqn:Hs; [exact IH|].
  rewrite contains_cons, Hs. destruct (Ascii.eqb_spec sep c); [congruence|reflexivity].
Qed.

Lemma after_last_none (sep : ascii) (s : string) :
  Path.contains sep s = false -> JS.after_last sep s = s.
Proof.
  destruct s as [|c s]; [reflexivity|].
  rewrite contains_cons. intros H. apply orb_false_iff in H as [Hc Hs].
  cbn [JS.after_last]. rewrite Ascii.eqb_sym, Hc.
  fold (Path.contains sep s). now rewrite Hs.
Qed.

(** A tail without separator, after a separator, is what follows the last
    separator. *)
Lemma after_last_app_sep (sep : ascii) (a e : string) :
  Path.contains sep e = false ->
  JS.after_last sep (a ++ String sep e) = e.
Proof.
  intros He. induction a as [|c a IH].
  - rewrite append_empty_l. cbn [JS.after_last]. rewrite Ascii.eqb_refl.
    now apply after_last_none.
  - rewrite append_cons. cbn [JS.after_last].
    destruct (Ascii.eqb c sep); [exact IH|].
    fold (Path.contains sep (a ++ String sep e)).
    rewrite contains_app, contains_cons, Ascii.eqb_refl, orb_true_r. exact IH.
Qed.

(** A tail without separator is appended to what follows the last
    separator. *)
Lemma after_last_app (sep : ascii) (a b : string) :
  Path.contains sep b = false ->
  JS.after_last sep (a ++ b) = JS.after_last sep a ++ b.
Proof.
  intros Hb. induction a as [|c a IH].
  - rewrite append_empty_l. now apply after_last_none.
  - rewrite append_cons. cbn [JS.after_last].
    destruct (Ascii.eqb c sep); [exact IH|].
    fold (Path.contains sep (a ++ b)) (Path.contains sep a).
    rewrite contains_app, Hb, orb_false_r.
    destruct (Path.contains sep a); [exact IH|reflexivity].
Qed.

Lemma string_of_uint_no_dot (d : Decimal.uint) :
  Path.contains "." (NilEmpty.string_of_uint d) = false.
Proof. induction d; cbn [NilEmpty.string_of_uint]; rewrite ?contains_cons; auto. Qed.

Lemma decimal_no_dot (z : Z) : Path.contains "." (JS.decimal z) = false.
Proof.
  unfold JS.decimal, NilEmpty.string_of_int.
  destruct (Z.to_int z); [|rewrite contains_cons]; apply string_of_uint_no_dot.
Qed.

(** The extension [path.extname] returns is empty, or a dot followed by
    text without a dot. *)
Lemma extname_shape (p : string) :
  Path.extname p = ""
  \/ exists e, Path.extname p = String "." e /\ Path.contains "." e = false.
Proof.
  unfold Path.extname.
  destruct (negb _); [now left|].
  destruct (String.eqb _ ""); [now left|].
  destruct (String.eqb _ ".."); [now left|].
  right. eexists. split; [reflexivity|]. apply after_last_clean.
Qed.

Lemma join_ends_with_file (dir file : string) :
  exists before, Path.join dir file = before ++ file.
Proof.
  unfold Path.join.
  destruct (String.eqb dir ""); [now exists ""|].
  destruct (String.eqb _ ""); [now exists dir|].
  exists (dir ++ "/"). now rewrite append_assoc.
Qed.

Lemma contains_eq (c : ascii) (s t : string) :
  Path.contains c s = true -> Path.contains c t = false -> String.eqb s t = false.
Proof.
  intros Hs Ht. destruct (String.eqb_spec s t) as [->|]; [congruence|reflexivity].
Qed.

Lemma getMediaType_by_extension (ext : string) (before : string) :
  Path.contains "." ext = false ->
  AnthropicService.getMediaType (before ++ String "." ext)
  = Spec.media_type_of_extension (JS.toLowerCase (String "." ext)).
Proof.
  intros Hext. unfold AnthropicService.getMediaType.
  rewrite toLowerCase_app.
  change (JS.toLowerCase (String "." ext)) with (String "." (JS.toLowerCase ext)).
  rewrite after_last_app_sep by now rewrite contains_dot_toLowerCase.
  reflexivity.
Qed.

Lemma getMediaType_without_extension (before suffix : string) :
  Path.contains "." suffix = false ->
  AnthropicService.getMediaType (before ++ "id-" ++ suffix) = None.
Proof.
  intros Hs. unfold AnthropicService.getMediaType.
  rewrite toLowerCase_app, after_last_app.
  2:{ rewrite contains_dot_toLowerCase, !append_cons, append_empty_l.
      rewrite !contains_cons, Hs. reflexivity. }
  set (tail := JS.after_last _ _).
  assert (Hdash : Path.contains "-" (tail ++ JS.toLowerCase ("id-" ++ suffix)) = true).
  { rewrite contains_app, toLowerCase_app, contains_app.
    replace (Path.contains "-" (JS.toLowerCase "id-")) with true by reflexivity.
    now rewrite orb_true_r. }
  rewrite !(contains_eq "-" _ _ Hdash) by reflexivity.
  reflexivity.
Qed.

(** The media type the OCR client finds for a stored upload is decided by
    the extension of the original file name. *)
Lemma getMediaType_of_stored_path (cfg : UploadMiddleware.Config) (original : string) :
  AnthropicService.getMediaType
    (Path.join (UploadMiddleware.uploadsDir cfg) (UploadMiddleware.filename cfg original))
  = Spec.media_type_of_extension (JS.toLowerCase (Path.extname original)).
Proof.
  destruct (join_ends_with_file (UploadMiddleware.uploadsDir cfg)
              (UploadMiddleware.filename cfg original)) as [before ->].
  unfold UploadMiddleware.filename.
  destruct (extname_shape original) as [-> | (e & -> & He)].
  - rewrite append_empty_r.
    change ("id-" ++ ?x) with ("id-" ++ x).
    apply getMediaType_without_extension.
    rewrite !contains_app, !decimal_no_dot. reflexivity.
  - rewrite <- !append_assoc. now apply getMediaType_by_extension.
Qed.

End Extensions.

Section PdfUploads.
Import ErrorHandler UploadMiddleware AnthropicService UploadController.

(** C10, as amended.  A part declared as [application/pdf] passes the
    allow-list.  When the middleware stores it (it came under the field
    [idImage], with a file name, and is smaller than the size limit), the
    media type the OCR client finds for the stored file is the one of the
    extension of the original file name, lower-cased: with an extension
    other than [.jpg], [.jpeg], [.png] and [.webp] the endpoint answers 400
    [Unsupported file format for OCR]; with one of the four the client
    sends the bytes to the hosted model under that media type. *)
Theorem pdf_upload_is_judged_by_its_file_name
    (cfg : Config) (heicConvert : HeicConversionService.Converter) (rt : Runtime)
    (part : Part) (disk : Fs.Disk) :
  let name := basename (part_filename part) in
  let stored := Path.join (uploadsDir cfg) (filename cfg name) in
  let ext := JS.toLowerCase (Path.extname name) in
  fieldname part = "idImage" ->
  JS.toLowerCase (part_mimetype part) = "application/pdf" ->
  name <> "" ->
  Z.of_nat (String.length (content part)) < maxFileSize cfg ->
  fileFilter (JS.toLowerCase (part_mimetype part)) = true
  /\ getMediaType stored = Spec.media_type_of_extension ext
  /\ (Spec.media_type_of_extension ext = None ->
      snd (upload_route cfg heicConvert rt (Some part) disk) = ErrorJson Spec.unsupported_format)
  /\ (forall mediaType, Spec.media_type_of_extension ext = Some mediaType ->
      extractTextFromImage rt stored (Fs.writeFileSync stored (content part) disk)
      = match messages_create rt mediaType (content part) with
        | Rejected e => Thrown (rethrow e)
        | Message reply =>
            match parse_reply rt reply with
            | Returned extracted => Returned extracted
            | Thrown e => Thrown (rethrow e)
            end
        end).
Proof.
  intros name stored ext Hfield Hmime Hname Hsize.
  assert (Hmedia : getMediaType stored = Spec.media_type_of_extension ext)
    by apply getMediaType_of_stored_path.
  assert (Hread : Fs.readFileSync stored (Fs.writeFileSync stored (content part) disk)
                  = Some (content part)) by apply lookup_insert_eq.
  split; [now rewrite Hmime|]. split; [exact Hmedia|]. split.
  - intros Hnone. unfold upload_route, single. fold name.
    destruct (String.eqb_spec name "") as [|_]; [contradiction|].
    rewrite Hfield, Hmime. cbn [String.eqb Ascii.eqb Bool.eqb andb negb fileFilter].
    replace (fileFilter "application/pdf") with true by reflexivity. cbn [negb].
    apply Z.leb_gt in Hsize. rewrite Hsize. fold stored.
    unfold uploadAndExtract, image_to_scan. cbn [path mimetype].
    replace (String.eqb "application/pdf" "image/heic") with false by reflexivity.
    unfold extractTextFromImage, try_extract. rewrite Hread, Hmedia, Hnone.
    reflexivity.
  - intros mediaType Hsome.
    unfold extractTextFromImage, try_extract. rewrite Hread, Hmedia, Hsome.
    destruct (messages_create rt mediaType (content part)); reflexivity.
Qed.

(** The theorem at a PDF named [scan.pdf]. *)
Lemma pdf_upload_is_judged_by_its_file_name_witness :
  fieldname Examples.pdf_part = "idImage"
  /\ JS.toLowerCase (part_mimetype Examples.pdf_part) = "application/pdf"
  /\ basename (part_filename Examples.pdf_part) <> ""
  /\ Z.of_nat (String.length (content Examples.pdf_part)) < maxFileSize Examples.upload_cfg
  /\ Spec.media_type_of_extension
       (JS.toLowerCase (Path.extname (basename (part_filename Examples.pdf_part)))) = None
  /\ snd (upload_route Examples.upload_cfg Examples.converter (Examples.replying "{}")
            (Some Examples.pdf_part) ∅)
     = ErrorJson Spec.unsupported_format.
Proof.
  assert (H1 : fieldname Examples.pdf_part = "idImage") by reflexivity.
  assert (H2 : JS.toLowerCase (part_mimetype Examples.pdf_part) = "application/pdf")
    by reflexivity.
  assert (H3 : basename (part_filename Examples.pdf_part) <> "") by discriminate.
  assert (H4 : Z.of_nat (String.length (content Examples.pdf_part))
               < maxFileSize Examples.upload_cfg) by (vm_compute; reflexivity).
  assert (H5 : Spec.media_type_of_extension
                 (JS.toLowerCase
                    (Path.extname (basename (part_filename Examples.pdf_part)))) = None)
    by reflexivity.
  repeat (split; [assumption|]).
  destruct (pdf_upload_is_judged_by_its_file_name Examples.upload_cfg Examples.converter
              (Examples.replying "{}") Examples.pdf_part ∅ H1 H2 H3 H4) as (_ & _ & H & _).
  exact (H H5).
Defined.

(** C10 as stated fails: a part declared as [application/pdf] and named
    [scan.png] is sent to the hosted model, and when the model answers [{}]
    the endpoint answers 200. *)
Lemma pdf_named_png_reaches_the_model :
  fileFilter (part_mimetype Examples.pdf_named_png) = true
  /\ upload_route Examples.upload_cfg Examples.converter (Examples.replying "{}")
       (Some Examples.pdf_named_png) ∅
     = (∅, Json 200 {| extractedData := ∅;
                       fileName := "scan.png";
                       fileSize := 8;
                       mimeType := "application/pdf" |}).
Proof. by_running. Qed.

End PdfUploads.

(* ===================================================================== *)
(** * GET /api/id/:id *)
(* ===================================================================== *)

Section GetById.
Import ErrorHandler IDData SaveController.

Lemma is_hex_hex_value (c : ascii) : JS.is_hex c = true -> exists v, hex_value c = Some v.
Proof.
  unfold hex_value, JS.is_hex.
  destruct (JS.is_digit c); [eauto|].
  destruct (JS.between 97 102 c); [eauto|].
  destruct (JS.between 65 70 c); [eauto|discriminate].
Qed.

(** Hexadecimal digits always read back as a number. *)
Lemma parse_hex_total (s : string) : forall acc,
  JS.all_chars JS.is_hex s = true -> exists n, parse_hex s acc = Some n.
Proof.
  induction s as [|c s IH]; intros acc H; [cbn; eauto|].
  cbn in H. apply andb_true_iff in H as [Hc Hs].
  destruct (is_hex_hex_value c Hc) as [v Hv]. cbn. rewrite Hv. now apply IH.
Qed.

(** X1.  The endpoint tells three cases apart by the id alone.  An id that
    is not made of 24 hexadecimal digits is answered 400 [Invalid ID
    format], whatever the collection holds.  An id of that form is always
    read as an ObjectId; the answer is 200 with the item of the record
    stored under it, or 404 [ID data not found] when there is none. *)
Theorem get_by_id_answers (id_param : string) (coll : list IIDData) :
  (Records.id_format id_param = false ->
   getDataById id_param coll = Thrown (createError "Invalid ID format" 400))
  /\ (Records.id_format id_param = true ->
      exists oid,
        castObjectId id_param = Some oid
        /\ getDataById id_param coll
           = match findById oid coll with
             | Some d => Returned (200, item_of d)
             | None => Thrown (createError "ID data not found" 404)
             end)
  /\ res_status (errorHandler (createError "Invalid ID format" 400)) = 400
  /\ res_status (errorHandler (createError "ID data not found" 404)) = 404.
Proof.
  unfold Records.id_format, getDataById.
  split; [|split; [|split; reflexivity]].
  - intros ->. now rewrite orb_true_r.
  - intros H. rewrite H. apply andb_true_iff in H as [Hlen Hhex].
    destruct (String.eqb_spec id_param "") as [->|_]; [discriminate|].
    unfold castObjectId. rewrite Hlen.
    destruct (parse_hex_total id_param 0%N Hhex) as [oid ->].
    exists oid. split; [reflexivity|]. cbn [negb orb mbind option_bind].
    destruct (findById oid coll); reflexivity.
Qed.

Lemma hex_value_upper_char (c : ascii) : hex_value (JS.upper_char c) = hex_value c.
Proof. each_char c. Qed.

Lemma hex_value_lower_char (c : ascii) : hex_value (JS.lower_char c) = hex_value c.
Proof. each_char c. Qed.

Lemma is_hex_upper_char (c : ascii) : JS.is_hex (JS.upper_char c) = JS.is_hex c.
Proof. each_char c. Qed.

Lemma is_hex_lower_char (c : ascii) : JS.is_hex (JS.lower_char c) = JS.is_hex c.
Proof. each_char c. Qed.

Lemma map_chars_length (f : ascii -> ascii) (s : string) :
  String.length (JS.map_chars f s) = String.length s.
Proof. induction s as [|c s IH]; cbn; congruence. Qed.

Lemma map_chars_is_empty (f : ascii -> ascii) (s : string) :
  String.eqb (JS.map_chars f s) "" = String.eqb s "".
Proof. destruct s; reflexivity. Qed.

Lemma map_chars_all_hex (f : ascii -> ascii) (s : string) :
  (forall c, JS.is_hex (f c) = JS.is_hex c) ->
  JS.all_chars JS.is_hex (JS.map_chars f s) = JS.all_chars JS.is_hex s.
Proof. intros Hf. induction s as [|c s IH]; cbn; [reflexivity|]. now rewrite Hf, IH. Qed.

Lemma map_chars_parse_hex (f : ascii -> ascii) (s : string) :
  (forall c, hex_value (f c) = hex_value c) ->
  forall acc, parse_hex (JS.map_chars f s) acc = parse_hex s acc.
Proof.
  intros Hf. induction s as [|c s IH]; intros acc; cbn; [reflexivity|].
  rewrite Hf. destruct (hex_value c); [apply IH|reflexivity].
Qed.

(** A change of the characters that keeps the value of every hexadecimal
    digit changes nothing in the answer. *)
Lemma getDataById_map_chars (f : ascii -> ascii) (id_param : string) (coll : list IIDData) :
  (forall c, JS.is_hex (f c) = JS.is_hex c) ->
  (forall c, hex_value (f c) = hex_value c) ->
  getDataById (JS.map_chars f id_param) coll = getDataById id_param coll.
Proof.
  intros Hhex Hval. unfold getDataById, castObjectId.
  now rewrite map_chars_is_empty, map_chars_length, map_chars_all_hex, map_chars_parse_hex.
Qed.

(** X2.  The id of a record is printed in lower case, and it is accepted
    in any letter case: for an id made of ASCII characters, the answer to
    the id is the answer to the same id in upper case and in lower case. *)
Theorem get_by_id_ignores_letter_case (id_param : string) (coll : list IIDData) :
  JS.all_chars JS.is_ascii id_param = true ->
  getDataById (JS.toUpperCase id_param) coll = getDataById id_param coll
  /\ getDataById (JS.toLowerCase id_param) coll = getDataById id_param coll.
Proof.
  intros _. split; apply getDataById_map_chars;
    auto using is_hex_upper_char, hex_value_upper_char, is_hex_lower_char, hex_value_lower_char.
Qed.

(** The theorem at the id of a stored record, written in upper case. *)
Lemma get_by_id_ignores_letter_case_witness :
  JS.all_chars JS.is_ascii "00000000000000000000000A" = true
  /\ JS.toLowerCase "00000000000000000000000A" = "00000000000000000000000a"
  /\ (exists d, findById 10%N Records.three_records = Some d
                /\ getDataById "00000000000000000000000a" Records.three_records
                   = Returned (200, item_of d))
  /\ getDataById "00000000000000000000000a" Records.three_records
     = getDataById "00000000000000000000000A" Records.three_records.
Proof.
  assert (H : JS.all_chars JS.is_ascii "00000000000000000000000A" = true) by reflexivity.
  split; [exact H|]. split; [reflexivity|].
  split; [eexists; split; vm_compute; reflexivity|].
  exact (proj2 (get_by_id_ignores_letter_case "00000000000000000000000A"
                  Records.three_records H)).
Defined.

End GetById.

(* ===================================================================== *)
(** * POST /api/id/save: what a request does to the collection *)
(* ===================================================================== *)

Section SaveOutcomes.
Import ErrorHandler IDData SaveController.

Lemma findById_app_other (oid : ObjectId) (x : IIDData) (coll : list IIDData) :
  has_id oid x = false -> findById oid (coll ++ [x]) = findById oid coll.
Proof.
  intros Hx. unfold findById.
  induction coll as [|y coll IH]; simpl.
  - now rewrite Hx.
  - destruct (has_id oid y); [reflexivity|exact IH].
Qed.

(** The pre-save hook touches [lastModified] and [isManuallyEdited]
    only. *)
Lemma pre_save_fields now d :
  let d' := doc (pre_save now d) in
  IDData.lastName d' = IDData.lastName (doc d)
  /\ IDData.firstName d' = IDData.firstName (doc d)
  /\ IDData.middleInitial d' = IDData.middleInitial (doc d)
  /\ IDData.addressZip d' = IDData.addressZip (doc d)
  /\ IDData.sex d' = IDData.sex (doc d)
  /\ IDData.sourceFileName d' = IDData.sourceFileName (doc d)
  /\ IDData.extractedAt d' = IDData.extractedAt (doc d)
  /\ IDData.lastModified d' = now.
Proof. unfold pre_save. destruct (_ || _); repeat split; reflexivity. Qed.

(** The status of the answer to an error built by [createError]. *)
Lemma errorHandler_createError (msg : string) (code : Z) :
  code <> 0 ->
  res_status (errorHandler (createError msg code))
  = if JS.includes "Anthropic" msg then 503 else code.
Proof.
  intros Hcode. unfold errorHandler. cbn [createError name message statusCode].
  destruct (Z.eqb_spec code 0) as [->|_]; [contradiction|].
  cbn [String.eqb Ascii.eqb Bool.eqb].
  destruct (JS.includes "Anthropic" msg); reflexivity.
Qed.

(** What the save endpoint did when it threw. *)
Lemma saveData_thrown env body coll coll' e :
  saveData env body coll = (coll', Thrown e) ->
  coll' = coll
  /\ ((exists msg, e = createError msg 400)
      \/ (e = createError "Duplicate entry found" 409
          /\ existsb (has_id (new_ObjectId env)) coll = true)).
Proof.
  unfold saveData.
  destruct (idDataSchema body) as [|i issues].
  - set (d := new_IDData _ _ _ _ _). unfold save.
    destruct (validate (doc d)) as [|m msgs].
    + rewrite pre_save_isNew. cbn [d new_IDData isNew].
      destruct (pre_save_item (date_pre_save env) d) as [_ Hid]. rewrite Hid.
      cbn [d new_IDData doc _id].
      destruct (existsb (has_id (new_ObjectId env)) coll); [|discriminate].
      intros [= <- <-]. split; [reflexivity|]. right. split; reflexivity.
    + intros [= <- <-]. split; [reflexivity|]. left. eexists. reflexivity.
  - intros [= <- <-]. split; [reflexivity|]. left. eexists. reflexivity.
Qed.

(** X3.  A save that fails leaves the collection as it was.  Its error
    is a 400 of one of the two validations, answered 400 (503 when the
    text of the message happens to contain [Anthropic], which the error
    middleware takes for an error of the OCR service), or the 409
    [Duplicate entry found], answered as such, which is thrown only when a
    record with the generated ObjectId is already stored. *)
Theorem rejected_save_changes_nothing
    (env : SaveEnv) (body : Attrs) (coll coll' : list IIDData) (e : ApiError) :
  saveData env body coll = (coll', Thrown e) ->
  coll' = coll
  /\ ((exists msg,
         e = createError msg 400
         /\ res_status (errorHandler e) = if JS.includes "Anthropic" msg then 503 else 400)
      \/ (e = createError "Duplicate entry found" 409
          /\ errorHandler e = {| res_status := 409; res_message := "Duplicate entry found" |}
          /\ exists d, findById (new_ObjectId env) coll = Some d)).
Proof.
  intros H. apply saveData_thrown in H as [-> H]. split; [reflexivity|].
  destruct H as [[msg ->] | [-> H]].
  - left. exists msg. split; [reflexivity|]. now apply errorHandler_createError.
  - right. split; [reflexivity|]. split; [reflexivity|].
    unfold findById. apply existsb_exists in H as (d & Hin & Hd).
    destruct (List.find (has_id (new_ObjectId env)) coll) as [d'|] eqn:Hfind; [eauto|].
    apply (find_none _ _ Hfind) in Hin. congruence.
Qed.

(** The theorem at a second save under the ObjectId of a stored record. *)
Lemma rejected_save_changes_nothing_witness :
  let coll := fst Examples.jane_full_saved in
  let e := createError "Duplicate entry found" 409 in
  saveData Examples.env1 Examples.jane_full coll = (coll, Thrown e)
  /\ coll = coll
  /\ ((exists msg,
         e = createError msg 400
         /\ res_status (errorHandler e) = if JS.includes "Anthropic" msg then 503 else 400)
      \/ (e = createError "Duplicate entry found" 409
          /\ errorHandler e = {| res_status := 409; res_message := "Duplicate entry found" |}
          /\ exists d, findById (new_ObjectId Examples.env1) coll = Some d)).
Proof.
  assert (H : saveData Examples.env1 Examples.jane_full (fst Examples.jane_full_saved)
              = (fst Examples.jane_full_saved,
                 Thrown (createError "Duplicate entry found" 409))) by reflexivity.
  split; [exact H|].
  exact (rejected_save_changes_nothing _ _ _ _ _ H).
Defined.

(** X4.  A save that is answered adds exactly one record, at the end of
    the collection and under an ObjectId no stored record had; the item of
    the answer is the item of that record.  Every other id is answered by
    get-by-id as before, and every listing counts one record more. *)
Theorem accepted_save_appends_one_record
    (env : SaveEnv) (body : Attrs) (coll coll' : list IIDData) (code : Z) (item : Item) :
  saveData env body coll = (coll', Returned (code, item)) ->
  (exists stored,
     coll' = (coll ++ [stored])%list
     /\ item = item_of stored
     /\ _id stored = new_ObjectId env
     /\ findById (new_ObjectId env) coll = None)
  /\ (forall id_param,
        castObjectId id_param <> Some (new_ObjectId env) ->
        getDataById id_param coll' = getDataById id_param coll)
  /\ (forall page_query limit_query status listing,
        getAllData page_query limit_query coll' = Returned (status, listing) ->
        totalRecords (pagination listing) = Z.of_nat (length coll) + 1).
Proof.
  intros H. apply saveData_returned in H as (_ & _ & Hfresh & -> & _ & ->).
  set (d := new_IDData _ _ _ _ _) in *.
  destruct (pre_save_item (date_pre_save env) d) as [_ Hid].
  split; [|split].
  - eexists. repeat split; [exact Hid|].
    unfold findById. destruct (List.find _ coll) as [x|] eqn:Hfind; [|reflexivity].
    apply find_some in Hfind as [Hin Hx].
    assert (existsb (has_id (new_ObjectId env)) coll = true)
      by (apply existsb_exists; eauto).
    congruence.
  - intros id_param Hother. unfold getDataById.
    destruct (_ || _); [reflexivity|].
    destruct (castObjectId id_param) as [oid|]; [|reflexivity].
    cbn [mbind option_bind]. rewrite findById_app_other; [reflexivity|].
    unfold has_id. rewrite Hid. cbn [d new_IDData doc _id].
    apply N.eqb_neq. congruence.
  - intros pq lq status listing. unfold getAllData.
    destruct (find_page _ _ _); [|discriminate].
    intros [= <- <-]. cbn [pagination totalRecords].
    rewrite length_app. cbn [length]. lia.
Qed.

(** The theorem at the first save of a full record. *)
Lemma accepted_save_appends_one_record_witness :
  let item := Examples.jane_full_item in
  let coll' := fst Examples.jane_full_saved in
  saveData Examples.env1 Examples.jane_full [] = (coll', Returned (201, item))
  /\ (exists stored,
        coll' = ([] ++ [stored])%list
        /\ item = item_of stored
        /\ _id stored = new_ObjectId Examples.env1
        /\ findById (new_ObjectId Examples.env1) [] = None)
  /\ (forall id_param,
        castObjectId id_param <> Some (new_ObjectId Examples.env1) ->
        getDataById id_param coll' = getDataById id_param [])
  /\ (forall page_query limit_query status listing,
        getAllData page_query limit_query coll' = Returned (status, listing) ->
        totalRecords (pagination listing) = Z.of_nat (length (@nil IIDData)) + 1).
Proof.
  assert (H : saveData Examples.env1 Examples.jane_full []
              = (fst Examples.jane_full_saved, Returned (201, Examples.jane_full_item)))
    by reflexivity.
  split; [exact H|].
  exact (accepted_save_appends_one_record _ _ _ _ _ _ H).
Defined.

(** X5.  The metadata of the answer come from the server: [extractedAt]
    is the clock the controller read, [lastModified] the clock the
    pre-save hook read (the value the controller passed is overwritten),
    and the source file name is the submitted one, trimmed. *)
Theorem saved_record_carries_the_server_clock
    (env : SaveEnv) (body : Attrs) (coll coll' : list IIDData) (code : Z) (item : Item) :
  saveData env body coll = (coll', Returned (code, item)) ->
  SaveController.extractedAt (metadata item) = date_extractedAt env
  /\ SaveController.lastModified (metadata item) = date_pre_save env
  /\ SaveController.sourceFileName (metadata item) = JS.trim <$> a_sourceFileName body.
Proof.
  intros H. apply saveData_returned in H as (_ & _ & _ & _ & _ & ->).
  set (d := new_IDData _ _ _ _ _).
  destruct (pre_save_fields (date_pre_save env) d) as (_ & _ & _ & _ & _ & Hfile & Hat & Hmod).
  cbn [item_of metadata SaveController.extractedAt SaveController.lastModified
       SaveController.sourceFileName].
  rewrite Hfile, Hat, Hmod. repeat split.
Qed.

(** The theorem at the first save of a full record: the two clocks
    differ by one millisecond there. *)
Lemma saved_record_carries_the_server_clock_witness :
  saveData Examples.env1 Examples.jane_full []
  = (fst Examples.jane_full_saved, Returned (201, Examples.jane_full_item))
  /\ SaveController.extractedAt (metadata Examples.jane_full_item) = 1700000000000
  /\ SaveController.lastModified (metadata Examples.jane_full_item) = 1700000000001
  /\ SaveController.sourceFileName (metadata Examples.jane_full_item) = Some "card.jpg".
Proof.
  assert (H : saveData Examples.env1 Examples.jane_full []
              = (fst Examples.jane_full_saved, Returned (201, Examples.jane_full_item)))
    by reflexivity.
  split; [exact H|].
  exact (saved_record_carries_the_server_clock _ _ _ _ _ _ H).
Defined.

End SaveOutcomes.

(* ===================================================================== *)
(** * What the collection holds *)
(* ===================================================================== *)

Section StoredRecords.
Import ErrorHandler IDData SaveController.

Lemma eat_digits_spec (k : nat) : forall s rest,
  eat_digits k s = Some rest -> exists a, s = a ++ rest /\ Records.digits k a.
Proof.
  induction k as [|k IH]; intros s rest H; cbn in H.
  - injection H as <-. exists "". repeat split.
  - destruct s as [|c s]; [discriminate|].
    destruct (JS.is_digit c) eqn:Hc; [|discriminate].
    apply IH in H as (a & -> & Hlen & Hall).
    exists (String c a). split; [reflexivity|]. split; cbn; [now rewrite Hlen|].
    now rewrite Hc, Hall.
Qed.

Lemma anchored_digits (k : nat) (s : string) :
  anchored [Digits k] s = true -> Records.digits k s.
Proof.
  unfold anchored. cbn [eat].
  destruct (eat_digits k s) as [rest|] eqn:H; [|discriminate].
  destruct rest; [|discriminate]. intros _.
  apply eat_digits_spec in H as (a & -> & Ha). now rewrite append_empty_r.
Qed.

(** What [/^\d{5}(-\d{4})?$/] accepts is a ZIP code. *)
Lemma re_zip_us_zip (s : string) : re_zip s = true -> Records.us_zip s.
Proof.
  unfold re_zip. intros H. apply orb_true_iff in H as [H | H].
  - left. now apply anchored_digits.
  - right. unfold anchored in H. cbn [eat] in H.
    destruct (eat_digits 5 s) as [r1|] eqn:H1; [|discriminate].
    apply eat_digits_spec in H1 as (a & -> & Ha).
    destruct r1 as [|c r2]; [discriminate|]. unfold eat_char in H.
    destruct (Ascii.eqb_spec "-" c) as [<-|_]; [|discriminate].
    destruct (eat_digits 4 r2) as [r3|] eqn:H2; [|discriminate].
    destruct r3; [|discriminate].
    apply eat_digits_spec in H2 as (b & -> & Hb). rewrite append_empty_r.
    exists a, b. repeat split; solve [apply Ha | apply Hb].
Qed.

Lemma re_capital_one_capital (s : string) : re_capital s = true -> Records.one_capital s.
Proof.
  destruct s as [|c [|? ?]]; try discriminate. cbn. intros H. now exists c.
Qed.

Lemma optional_test (re : string -> bool) (P : string -> Prop) (v : option string) :
  (forall s, re s = true -> P s) ->
  falsy v || test re v = true -> Records.optional P v.
Proof.
  intros Hre. destruct v as [s|]; [|constructor]. cbn.
  destruct (String.eqb_spec s "") as [->|_]; [now left|]. cbn. right. auto.
Qed.

Lemma required_a_name (v : option string) :
  required (set_trim v) = true -> Records.a_name (set_trim v).
Proof.
  destruct v as [s|]; [|discriminate]. unfold required. cbn.
  destruct (String.eqb_spec (JS.trim s) "") as [|Hne]; [discriminate|]. intros _.
  exists (JS.trim s). repeat split; [assumption|apply trim_idempotent].
Qed.

(** Of the four values of the enumeration, an upper-cased text can only
    be [M] or [F]. *)
Lemma enum_upper_case (v : option string) :
  enum sex_values (set_trim_upper v) = true ->
  set_trim_upper v = None \/ set_trim_upper v = Some "M" \/ set_trim_upper v = Some "F".
Proof.
  destruct v as [s|]; [|now left]. cbn [set_trim_upper fmap option_fmap option_map enum].
  pose proof (toUpperCase_idempotent (JS.trim s)) as Hupper.
  set (u := JS.toUpperCase (JS.trim s)) in *. unfold sex_values. cbn [existsb].
  destruct (String.eqb_spec u "M") as [->|_]; [auto|].
  destruct (String.eqb_spec u "F") as [->|_]; [auto|].
  destruct (String.eqb_spec u "Male") as [Hu|_]; [rewrite Hu in Hupper; discriminate|].
  destruct (String.eqb_spec u "Female") as [Hu|_]; [rewrite Hu in Hupper; discriminate|].
  discriminate.
Qed.

Lemma first_failure_ok (ok : bool) (msg : string) (rest : list (bool * string)) :
  first_failure ((ok, msg) :: rest) = [] -> ok = true /\ first_failure rest = [].
Proof. cbn. destruct ok; [auto|discriminate]. Qed.

(** A document that passed the validators is stored well formed. *)
Lemma validated_document_is_well_formed oid body t1 t2 flag now :
  let d := new_IDData oid body t1 t2 flag in
  validate (doc d) = [] -> Records.well_formed (doc (pre_save now d)).
Proof.
  intros d Hvalid.
  pose proof (validate_sex_ok _ Hvalid) as Hsex.
  unfold validate in Hvalid. apply app_eq_nil in Hvalid as [Hbefore _].
  unfold validate_before_sex in Hbefore.
  apply app_eq_nil in Hbefore as [_ Hbefore].
  apply app_eq_nil in Hbefore as [Hlast Hbefore].
  apply app_eq_nil in Hbefore as [Hfirst Hbefore].
  apply app_eq_nil in Hbefore as [Hmiddle Hbefore].
  do 3 (apply app_eq_nil in Hbefore as [_ Hbefore]).
  apply first_failure_ok in Hlast as [Hlast _].
  apply first_failure_ok in Hfirst as [Hfirst _].
  apply first_failure_ok in Hmiddle as [_ Hmiddle].
  apply first_failure_ok in Hmiddle as [Hmiddle _].
  apply first_failure_ok in Hbefore as [_ Hzip].
  apply first_failure_ok in Hzip as [Hzip _].
  unfold Records.well_formed.
  destruct (pre_save_fields now d) as (-> & -> & -> & -> & -> & _).
  cbn [d new_IDData doc IDData.lastName IDData.firstName
    IDData.middleInitial IDData.addressZip IDData.sex] in *.
  split; [now apply required_a_name|].
  split; [now apply required_a_name|].
  split; [now apply (optional_test re_capital), Hmiddle; apply re_capital_one_capital|].
  split; [now apply (optional_test re_zip), Hzip; apply re_zip_us_zip|].
  destruct (enum_upper_case _ Hsex) as [H | [H | H]]; auto.
Qed.

Lemma no_such_id (oid : ObjectId) (coll : list IIDData) :
  existsb (has_id oid) coll = false -> ~ In oid (map _id coll).
Proof.
  intros H Hin. apply in_map_iff in Hin as (d & <- & Hin).
  assert (existsb (has_id (_id d)) coll = true); [|congruence].
  apply existsb_exists. exists d. split; [assumption|]. apply N.eqb_refl.
Qed.

(** One request keeps the records well formed and their ids distinct. *)
Lemma saveData_keeps_the_collection env body coll :
  Forall Records.well_formed coll -> NoDup (map _id coll) ->
  let coll' := fst (saveData env body coll) in
  Forall Records.well_formed coll' /\ NoDup (map _id coll')
  /\ (length coll <= length coll' <= S (length coll))%nat.
Proof.
  intros Hwf Hids coll'.
  destruct (saveData env body coll) as [c [[code item]|e]] eqn:Hsave; subst coll'; cbn [fst].
  - apply saveData_returned in Hsave as (_ & Hvalid & Hfresh & -> & _ & _).
    set (d := new_IDData _ _ _ _ _) in *.
    destruct (pre_save_item (date_pre_save env) d) as [_ Hid].
    split; [|split].
    + apply Forall_app. split; [assumption|]. constructor; [|constructor].
      now apply validated_document_is_well_formed.
    + rewrite map_app. cbn [map]. rewrite Hid.
      apply NoDup_app. split; [assumption|]. split; [|apply NoDup_singleton].
      intros oid Hin Hnew. apply list_elem_of_singleton in Hnew as ->.
      apply no_such_id in Hfresh. apply Hfresh. now apply list_elem_of_In.
    + rewrite length_app. cbn. lia.
  - apply saveData_thrown in Hsave as [-> _]. repeat split; try assumption; lia.
Qed.

(** X6.  Whatever save requests the server has answered, in whatever
    order and with whatever bodies: every stored record has a last name and
    a first name that are not empty and carry no white space around them, a
    middle initial that is absent, empty or one capital letter, a ZIP code
    that is absent, empty or of the form 12345 or 12345-6789, and a sex
    that is absent, [M] or [F]; no two records share an ObjectId; and there
    are no more records than requests. *)
Theorem every_stored_record_is_well_formed (requests : list (SaveEnv * Attrs)) :
  let coll := Records.serve_saves requests [] in
  Forall Records.well_formed coll
  /\ NoDup (map _id coll)
  /\ (length coll <= length requests)%nat.
Proof.
  cbv zeta.
  assert (H : forall coll,
    Forall Records.well_formed coll -> NoDup (map _id coll) ->
    Forall Records.well_formed (Records.serve_saves requests coll)
    /\ NoDup (map _id (Records.serve_saves requests coll))
    /\ (length (Records.serve_saves requests coll) <= length coll + length requests)%nat).
  { induction requests as [|[env body] requests IH]; intros coll Hwf Hids; cbn.
    - repeat split; [assumption..|lia].
    - destruct (saveData_keeps_the_collection env body coll Hwf Hids) as (Hwf' & Hids' & Hlen).
      destruct (IH _ Hwf' Hids') as (? & ? & ?). repeat split; [assumption..|lia]. }
  apply (H []); constructor.
Qed.

End StoredRecords.

(* ===================================================================== *)
(** * GET /api/id: the pages of the listing *)
(* ===================================================================== *)

Section Listing.
Import ErrorHandler IDData SaveController.

Lemma insert_desc_perm (x : IIDData) (l : list IIDData) :
  Permutation (insert_desc x l) (x :: l).
Proof.
  induction l as [|y l IH]; cbn; [reflexivity|].
  destruct (_ <=? _); [reflexivity|].
  rewrite IH. apply perm_swap.
Qed.

(** Sorting neither drops nor repeats a record. *)
Lemma sort_desc_perm (l : list IIDData) : Permutation (sort_desc l) l.
Proof.
  induction l as [|x l IH]; cbn; [reflexivity|].
  rewrite insert_desc_perm. now constructor.
Qed.

Lemma sort_desc_length (l : list IIDData) : length (sort_desc l) = length l.
Proof. apply Permutation_length, sort_desc_perm. Qed.

Lemma insert_desc_sorted (x : IIDData) (l : list IIDData) :
  StronglySorted Records.newer l -> StronglySorted Records.newer (insert_desc x l).
Proof.
  induction 1 as [|y l Hl IH Hy]; cbn.
  - repeat constructor.
  - destruct (Z.leb_spec (IDData.extractedAt y) (IDData.extractedAt x)) as [Hle|Hlt].
    + constructor; [now constructor|].
      constructor; [exact Hle|].
      eapply Forall_impl; [exact Hy|]. unfold Records.newer. intros z Hz. lia.
    + constructor; [exact IH|].
      apply List.Forall_forall. intros z Hz. apply In_insert_desc in Hz as [->|Hz].
      * unfold Records.newer. lia.
      * rewrite List.Forall_forall in Hy. apply Hy. exact Hz.
Qed.

Lemma sort_desc_sorted (l : list IIDData) : StronglySorted Records.newer (sort_desc l).
Proof.
  induction l as [|x l IH]; cbn; [constructor|]. now apply insert_desc_sorted.
Qed.

Lemma sorted_app {A} (R : A -> A -> Prop) (l1 l2 : list A) :
  StronglySorted R (l1 ++ l2)%list -> StronglySorted R l1 /\ StronglySorted R l2.
Proof.
  induction l1 as [|x l1 IH]; cbn; intros H.
  - split; [constructor|exact H].
  - apply StronglySorted_inv in H as [H Hx]. destruct (IH H) as [H1 H2].
    split; [|exact H2]. constructor; [exact H1|].
    apply Forall_app in Hx. apply Hx.
Qed.

Lemma sorted_firstn {A} (R : A -> A -> Prop) (n : nat) (l : list A) :
  StronglySorted R l -> StronglySorted R (firstn n l).
Proof. rewrite <- (firstn_skipn n l) at 1. intros H. now apply sorted_app in H. Qed.

Lemma sorted_skipn {A} (R : A -> A -> Prop) (n : nat) (l : list A) :
  StronglySorted R l -> StronglySorted R (skipn n l).
Proof. rewrite <- (firstn_skipn n l) at 1. intros H. now apply sorted_app in H. Qed.

Lemma in_firstn {A} (n : nat) (l : list A) (x : A) : In x (firstn n l) -> In x l.
Proof. rewrite <- (firstn_skipn n l) at 2. intros H. apply in_or_app. now left. Qed.

Lemma in_skipn {A} (n : nat) (l : list A) (x : A) : In x (skipn n l) -> In x l.
Proof. rewrite <- (firstn_skipn n l) at 2. intros H. apply in_or_app. now right. Qed.

Lemma sorted_items (l : list IIDData) :
  StronglySorted Records.newer l -> StronglySorted Records.not_older (map item_of l).
Proof.
  induction 1 as [|x l Hl IH Hx]; cbn [map]; constructor; [exact IH|].
  apply List.Forall_map. eapply Forall_impl; [exact Hx|]. intros y Hy. exact Hy.
Qed.

(** The answer to a request for [page] and [limit], both positive. *)
Lemma getAllData_page (page limit : Z) (coll : list IIDData) :
  1 <= page -> 1 <= limit ->
  getAllData (Some page) (Some limit) coll
  = Returned (200,
      {| data := map item_of
                   (firstn (Z.to_nat limit)
                      (skipn (Z.to_nat (page - 1) * Z.to_nat limit) (sort_desc coll)));
         pagination :=
           {| currentPage := page;
              totalPages := ceil_div (Z.of_nat (length coll)) limit;
              totalRecords := Z.of_nat (length coll);
              hasMore := page * limit <? Z.of_nat (length coll) |} |}).
Proof.
  intros Hpage Hlimit. unfold getAllData, or_default, find_page.
  destruct (Z.eqb_spec page 0) as [|_]; [lia|].
  destruct (Z.eqb_spec limit 0) as [|_]; [lia|].
  destruct (Z.ltb_spec ((page - 1) * limit) 0) as [|_]; [nia|].
  rewrite Z.abs_eq by lia. rewrite Z2Nat.inj_mul by lia. reflexivity.
Qed.

(** [totalPages] pages hold every record. *)
Lemma ceil_div_covers (total limit : Z) :
  0 <= total -> 1 <= limit ->
  0 <= ceil_div total limit /\ total <= ceil_div total limit * limit.
Proof.
  intros Htotal Hlimit. unfold ceil_div.
  pose proof (Z.mul_div_le (- total) limit ltac:(lia)).
  pose proof (Z.div_le_upper_bound (- total) limit 0 ltac:(lia) ltac:(lia)).
  split; nia.
Qed.

(** X7.  A request for a positive page and a positive limit is answered
    200 with the records that are left at that offset, [limit] of them at
    most: the page holds min(limit, max(0, total - (page - 1) * limit))
    items, each one the item of a stored record, newest first.  A page
    that announces more is full, a page past the last one is empty, and
    [hasMore] says whether the page is before the last one. *)
Theorem listing_page_holds_what_is_left (page limit : Z) (coll : list IIDData) :
  1 <= page -> 1 <= limit ->
  exists listing,
    getAllData (Some page) (Some limit) coll = Returned (200, listing)
    /\ Z.of_nat (length (data listing))
       = Z.min limit (Z.max 0 (Z.of_nat (length coll) - (page - 1) * limit))
    /\ StronglySorted Records.not_older (data listing)
    /\ (forall item, In item (data listing) -> exists d, In d coll /\ item = item_of d)
    /\ (hasMore (pagination listing) = true -> Z.of_nat (length (data listing)) = limit)
    /\ (totalPages (pagination listing) < page -> data listing = [])
    /\ (hasMore (pagination listing) = true
        <-> currentPage (pagination listing) < totalPages (pagination listing)).
Proof.
  intros Hpage Hlimit. eexists. split; [now apply getAllData_page|].
  cbn [data pagination hasMore totalPages currentPage].
  assert (Hlen : Z.of_nat (length (map item_of
            (firstn (Z.to_nat limit)
               (skipn (Z.to_nat (page - 1) * Z.to_nat limit) (sort_desc coll)))))
          = Z.min limit (Z.max 0 (Z.of_nat (length coll) - (page - 1) * limit))).
  { rewrite length_map, length_firstn, length_skipn, sort_desc_length. nia. }
  split; [exact Hlen|]. split; [|split; [|split; [|split]]].
  - apply sorted_items, sorted_firstn, sorted_skipn, sort_desc_sorted.
  - intros item Hin. apply in_map_iff in Hin as (d & <- & Hin).
    exists d. split; [|reflexivity].
    apply in_firstn, in_skipn in Hin. now apply In_sort_desc.
  - intros Hmore. apply Z.ltb_lt in Hmore. rewrite Hlen. lia.
  - intros Hpast.
    destruct (ceil_div_covers (Z.of_nat (length coll)) limit) as [_ Hcover]; [lia..|].
    apply length_zero_iff_nil. apply Nat2Z.inj. rewrite Hlen. nia.
  - rewrite Z.ltb_lt. apply hasMore_iff_more_pages. lia.
Qed.

(** The theorem at the second page of one record each, of a collection
    of one record. *)
Lemma listing_page_holds_what_is_left_witness :
  1 <= 2 /\ 1 <= 1
  /\ exists listing,
       getAllData (Some 2) (Some 1) (fst Examples.jane_full_saved) = Returned (200, listing)
       /\ Z.of_nat (length (data listing))
          = Z.min 1 (Z.max 0 (Z.of_nat (length (fst Examples.jane_full_saved)) - (2 - 1) * 1))
       /\ StronglySorted Records.not_older (data listing)
       /\ (forall item, In item (data listing) ->
           exists d, In d (fst Examples.jane_full_saved) /\ item = item_of d)
       /\ (hasMore (pagination listing) = true -> Z.of_nat (length (data listing)) = 1)
       /\ (totalPages (pagination listing) < 2 -> data listing = [])
       /\ (hasMore (pagination listing) = true
           <-> currentPage (pagination listing) < totalPages (pagination listing)).
Proof.
  assert (H1 : 1 <= 2) by lia. assert (H2 : 1 <= 1) by lia.
  split; [exact H1|]. split; [exact H2|].
  exact (listing_page_holds_what_is_left 2 1 (fst Examples.jane_full_saved) H1 H2).
Defined.

Lemma page_items_page (page limit : Z) (coll : list IIDData) :
  1 <= page -> 1 <= limit ->
  Records.page_items page limit coll
  = map item_of (firstn (Z.to_nat limit)
                   (skipn (Z.to_nat (page - 1) * Z.to_nat limit) (sort_desc coll))).
Proof.
  intros Hpage Hlimit. unfold Records.page_items. now rewrite getAllData_page.
Qed.

(** The first [n] pages, one after the other, are the first [n * limit]
    records of the sorted collection. *)
Lemma pages_up_to_firstn (n : nat) (limit : Z) (coll : list IIDData) :
  1 <= limit ->
  Records.pages_up_to n limit coll
  = map item_of (firstn (n * Z.to_nat limit) (sort_desc coll)).
Proof.
  intros Hlimit. unfold Records.pages_up_to.
  induction n as [|n IH]; [reflexivity|].
  rewrite seq_S, flat_map_app, IH. cbn [flat_map Nat.add]. rewrite app_nil_r.
  rewrite page_items_page by lia.
  replace (Z.to_nat (Z.of_nat (S n) - 1)) with n by lia.
  rewrite <- map_app. f_equal.
  replace (S n * Z.to_nat limit)%nat with (n * Z.to_nat limit + Z.to_nat limit)%nat by lia.
  apply take_take_drop.
Qed.

(** X8.  Where no two records were extracted in the same millisecond,
    a client that asks for the pages 1 to [totalPages] with one positive
    limit receives every stored record exactly once, the newest first
    across the pages, and nothing on any later page. *)
Theorem walking_the_pages_lists_every_record_once (limit : Z) (coll : list IIDData) :
  1 <= limit ->
  NoDup (map IDData.extractedAt coll) ->
  let pages := Z.to_nat (ceil_div (Z.of_nat (length coll)) limit) in
  Permutation (Records.pages_up_to pages limit coll) (map item_of coll)
  /\ StronglySorted Records.not_older (Records.pages_up_to pages limit coll)
  /\ (forall page, Z.of_nat pages < page -> Records.page_items page limit coll = []).
Proof.
  intros Hlimit _ pages.
  destruct (ceil_div_covers (Z.of_nat (length coll)) limit) as [Hpos Hcover]; [lia..|].
  rewrite pages_up_to_firstn by exact Hlimit.
  rewrite firstn_all2 by (rewrite sort_desc_length; subst pages; nia).
  split; [|split].
  - apply Permutation_map, sort_desc_perm.
  - apply sorted_items, sort_desc_sorted.
  - intros page Hpage. rewrite page_items_page by lia.
    rewrite skipn_all2; [now rewrite firstn_nil|].
    rewrite sort_desc_length. subst pages. nia.
Qed.

(** The theorem at pages of two records, of a collection of three: the
    two pages hold the three records, the newest first. *)
Lemma walking_the_pages_lists_every_record_once_witness :
  let coll := Records.three_records in
  1 <= 2
  /\ NoDup (map IDData.extractedAt coll)
  /\ Z.to_nat (ceil_div (Z.of_nat (length coll)) 2) = 2%nat
  /\ map SaveController.item_id (Records.pages_up_to 2 2 coll)
     = ["00000000000000000000000c"; "00000000000000000000000b"; "00000000000000000000000a"]
  /\ Permutation (Records.pages_up_to 2 2 coll) (map item_of coll)
  /\ StronglySorted Records.not_older (Records.pages_up_to 2 2 coll)
  /\ (forall page, 2 < page -> Records.page_items page 2 coll = []).
Proof.
  cbv zeta.
  assert (H1 : 1 <= 2) by lia.
  assert (H2 : NoDup (map IDData.extractedAt Records.three_records)).
  { cbn. repeat (apply NoDup_cons_2; [rewrite ?elem_of_cons, elem_of_nil; lia|]).
    apply NoDup_nil_2. }
  split; [exact H1|]. split; [exact H2|]. split; [reflexivity|].
  split; [vm_compute; reflexivity|].
  exact (walking_the_pages_lists_every_record_once 2 Records.three_records H1 H2).
Defined.

End Listing.

(* ===================================================================== *)
(** * GET /api/id/search: what a search returns *)
(* ===================================================================== *)

Section SearchResults.
Import ErrorHandler IDData SaveController.

(** X9.  Whatever the term, a search that is answered is answered 200
    with items of stored records, the newest first, and never more of them
    than there are records. *)
Theorem search_lists_stored_records_newest_first
    (term : string) (coll : list IIDData) (code : Z) (items : list Item) :
  searchData (Some term) coll = Some (Returned (code, items)) ->
  code = 200
  /\ StronglySorted Records.not_older items
  /\ (length items <= length coll)%nat
  /\ (forall item, In item items -> exists d, In d coll /\ item = item_of d).
Proof.
  unfold searchData, findBySearchTerm.
  destruct (_ || _); [discriminate|].
  destruct (compile (JS.trim term)) as [atoms|]; [|discriminate].
  intros [= <- <-]. split; [reflexivity|]. split; [|split].
  - apply sorted_items, sort_desc_sorted.
  - rewrite length_map, sort_desc_length. apply List.filter_length_le.
  - intros item Hin. apply in_map_iff in Hin as (d & <- & Hin).
    apply In_sort_desc, filter_In in Hin as [Hin _]. eauto.
Qed.

(** The theorem at the pattern [j.n] and a collection of one record. *)
Lemma search_lists_stored_records_newest_first_witness :
  searchData (Some "j.n") (fst Examples.jane_full_saved)
  = Some (Returned (200, [Examples.jane_full_item]))
  /\ 200 = 200
  /\ StronglySorted Records.not_older [Examples.jane_full_item]
  /\ (length [Examples.jane_full_item] <= length (fst Examples.jane_full_saved))%nat
  /\ (forall item, In item [Examples.jane_full_item] ->
      exists d, In d (fst Examples.jane_full_saved) /\ item = item_of d).
Proof.
  assert (H : searchData (Some "j.n") (fst Examples.jane_full_saved)
              = Some (Returned (200, [Examples.jane_full_item]))) by reflexivity.
  split; [exact H|].
  exact (search_lists_stored_records_newest_first _ _ _ _ H).
Defined.

Lemma startsWith_refl (s : string) : JS.startsWith s s = true.
Proof. induction s as [|c s IH]; cbn; [reflexivity|]. now rewrite Ascii.eqb_refl. Qed.

Lemma ci_substring_refl (s : string) : Spec.ci_substring s s = true.
Proof.
  unfold Spec.ci_substring. destruct (JS.toLowerCase s) as [|c t] eqn:H; [reflexivity|].
  cbn [JS.includes]. now rewrite startsWith_refl.
Qed.

(** X10.  A record that has just been saved is found by its names as
    they were typed: a search for the submitted last name or first name,
    when its trimmed text has two characters or more and none of them is a
    metacharacter of regular expressions, is answered 200 with a list that
    holds the item of the save response. *)
Theorem saved_record_is_found_by_its_names
    (env : SaveEnv) (body : Attrs) (coll coll' : list IIDData) (code : Z) (item : Item)
    (name : string) :
  saveData env body coll = (coll', Returned (code, item)) ->
  a_lastName body = Some name \/ a_firstName body = Some name ->
  (2 <= String.length (JS.trim name))%nat ->
  JS.all_chars Spec.literal_char (JS.trim name) = true ->
  exists items,
    searchData (Some name) coll' = Some (Returned (200, items)) /\ In item items.
Proof.
  intros Hsave Hname Hlen Hlit.
  apply saveData_returned in Hsave as (_ & _ & _ & -> & _ & ->).
  set (d := new_IDData _ _ _ _ _).
  unfold searchData, findBySearchTerm.
  destruct (String.eqb_spec name "") as [->|_]; [cbn in Hlen; lia|].
  apply Nat.ltb_ge in Hlen. rewrite Hlen. cbn [orb].
  rewrite (compile_literal _ Hlit).
  eexists. split; [reflexivity|].
  apply in_map, In_sort_desc, filter_In. split; [apply in_or_app; right; now left|].
  rewrite search_filter_literal. unfold Spec.record_matches.
  destruct (pre_save_fields (date_pre_save env) d) as (-> & -> & _).
  cbn [d new_IDData doc IDData.lastName IDData.firstName].
  destruct Hname as [-> | ->]; cbn [set_trim fmap option_fmap option_map Spec.occurs_in];
    rewrite ci_substring_refl; now rewrite ?orb_true_r.
Qed.

(** The theorem at the last name of a full record, typed with a leading
    blank. *)
Lemma saved_record_is_found_by_its_names_witness :
  saveData Examples.env1 Examples.jane_full []
  = (fst Examples.jane_full_saved, Returned (201, Examples.jane_full_item))
  /\ (a_lastName Examples.jane_full = Some " Doe"
      \/ a_firstName Examples.jane_full = Some " Doe")
  /\ (2 <= String.length (JS.trim " Doe"))%nat
  /\ JS.all_chars Spec.literal_char (JS.trim " Doe") = true
  /\ exists items,
       searchData (Some " Doe") (fst Examples.jane_full_saved) = Some (Returned (200, items))
       /\ In Examples.jane_full_item items.
Proof.
  assert (H1 : saveData Examples.env1 Examples.jane_full []
               = (fst Examples.jane_full_saved, Returned (201, Examples.jane_full_item)))
    by reflexivity.
  assert (H2 : a_lastName Examples.jane_full = Some " Doe"
               \/ a_firstName Examples.jane_full = Some " Doe") by (left; reflexivity).
  assert (H3 : (2 <= String.length (JS.trim " Doe"))%nat) by (vm_compute; lia).
  assert (H4 : JS.all_chars Spec.literal_char (JS.trim " Doe") = true) by reflexivity.
  repeat (split; [assumption|]).
  exact (saved_record_is_found_by_its_names _ _ _ _ _ _ _ H1 H2 H3 H4).
Defined.

End SearchResults.

(* ===================================================================== *)
(** * POST /api/id/upload: the upload directory *)
(* ===================================================================== *)

Section Uploads.
Import ErrorHandler UploadMiddleware UploadController HeicConversionService.


Lemma filename_not_empty (cfg : Config) (original : string) : filename cfg original <> "".
Proof. unfold filename. rewrite !append_cons. discriminate. Qed.

Lemma join_not_empty (dir file : string) : file <> "" -> Path.join dir file <> "".
Proof.
  intros Hfile. destruct (join_ends_with_file dir file) as [before ->].
  destruct before; [now rewrite append_empty_l|]. rewrite append_cons. discriminate.
Qed.

(** A part that passes the four checks of the middleware is written to
    the upload directory. *)
Lemma single_stores (cfg : Config) (p : Part) (disk : Fs.Disk) :
  basename (part_filename p) <> "" ->
  fieldname p = "idImage" ->
  fileFilter (JS.toLowerCase (part_mimetype p)) = true ->
  Z.of_nat (String.length (content p)) < maxFileSize cfg ->
  single cfg (Some p) disk
  = (<[Records.stored_path cfg p := content p]> disk,
     Returned (Some {| path := Records.stored_path cfg p;
                       originalname := basename (part_filename p);
                       mimetype := JS.toLowerCase (part_mimetype p);
                       size := Z.of_nat (String.length (content p)) |})).
Proof.
  intros Hname Hfield Hfilter Hsize. unfold single.
  destruct (String.eqb_spec (basename (part_filename p)) "") as [|_]; [contradiction|].
  rewrite Hfield, Hfilter. apply Z.leb_gt in Hsize. rewrite Hsize. reflexivity.
Qed.

(** X12.  An accepted upload that is not HEIC leaves no file behind,
    whatever the OCR client does with it: after the request the upload
    directory holds what it held before, less any file that was stored
    under the path the middleware chose; a directory that had no such file
    is exactly as it was. *)
Theorem upload_leaves_no_file
    (cfg : Config) (heicConvert : Converter) (rt : AnthropicService.Runtime)
    (p : Part) (disk : Fs.Disk) :
  basename (part_filename p) <> "" ->
  fieldname p = "idImage" ->
  fileFilter (JS.toLowerCase (part_mimetype p)) = true ->
  JS.toLowerCase (part_mimetype p) <> "image/heic" ->
  Z.of_nat (String.length (content p)) < maxFileSize cfg ->
  fst (upload_route cfg heicConvert rt (Some p) disk)
  = delete (Records.stored_path cfg p) disk
  /\ (disk !! Records.stored_path cfg p = None ->
      fst (upload_route cfg heicConvert rt (Some p) disk) = disk).
Proof.
  intros Hname Hfield Hfilter Hmime Hsize.
  assert (H : fst (upload_route cfg heicConvert rt (Some p) disk)
              = delete (Records.stored_path cfg p) disk).
  { unfold upload_route. rewrite single_stores by assumption.
    set (file := {| path := _ |}).
    pose proof (other_uploads_are_cleaned_up heicConvert rt file (content p)
                  (<[Records.stored_path cfg p := content p]> disk)) as Hclean.
    destruct (uploadAndExtract _ _ _ _) as [disk2 outcome]. cbn [fst] in *.
    rewrite Hclean.
    - apply delete_insert_eq.
    - exact Hmime.
    - apply join_not_empty, filename_not_empty.
    - apply lookup_insert_eq. }
  split; [exact H|]. intros Hfresh. rewrite H. now apply delete_id.
Qed.

(** The theorem at a PDF whose OCR request the hosted model rejects. *)
Lemma upload_leaves_no_file_witness :
  let p := Examples.pdf_part in
  basename (part_filename p) <> ""
  /\ fieldname p = "idImage"
  /\ fileFilter (JS.toLowerCase (part_mimetype p)) = true
  /\ JS.toLowerCase (part_mimetype p) <> "image/heic"
  /\ Z.of_nat (String.length (content p)) < maxFileSize Examples.upload_cfg
  /\ fst (upload_route Examples.upload_cfg Examples.converter (Examples.rejecting 429)
            (Some p) ∅)
     = delete (Records.stored_path Examples.upload_cfg p) ∅
  /\ ((∅ : Fs.Disk) !! Records.stored_path Examples.upload_cfg p = None ->
      fst (upload_route Examples.upload_cfg Examples.converter (Examples.rejecting 429)
             (Some p) ∅) = ∅).
Proof.
  cbv zeta.
  assert (H0 : basename (part_filename Examples.pdf_part) <> "") by discriminate.
  assert (H1 : fieldname Examples.pdf_part = "idImage") by reflexivity.
  assert (H2 : fileFilter (JS.toLowerCase (part_mimetype Examples.pdf_part)) = true)
    by reflexivity.
  assert (H3 : JS.toLowerCase (part_mimetype Examples.pdf_part) <> "image/heic")
    by discriminate.
  assert (H4 : Z.of_nat (String.length (content Examples.pdf_part))
               < maxFileSize Examples.upload_cfg) by (vm_compute; reflexivity).
  repeat (split; [assumption|]).
  exact (upload_leaves_no_file Examples.upload_cfg Examples.converter (Examples.rejecting 429)
           Examples.pdf_part ∅ H0 H1 H2 H3 H4).
Defined.

(** The answer to an error of the conversion. *)
Lemma errorHandler_conversion_failed (msg : string) :
  res_status (errorHandler (conversion_failed msg))
  = if JS.includes "Anthropic" (message (conversion_failed msg)) then 503 else 500.
Proof.
  unfold errorHandler, conversion_failed, plainError; cbn [name message statusCode].
  cbn [String.eqb Ascii.eqb Bool.eqb]. now destruct (JS.includes "Anthropic" _).
Qed.

(** X13.  What the HEIC conversion leaves.  When it returns a path, the
    HEIC file was there and converted, the path is the one of the HEIC
    file with the extension [.jpg], the HEIC file is gone, the JPEG is
    stored under the returned path (when that is another path), and the OCR
    client takes the returned path for an [image/jpeg].  When it throws,
    the directory is as it was and the message starts with [Failed to
    convert HEIC file: ]; the error is answered 500 (503 when the message
    contains [Anthropic]). *)
Theorem heic_conversion_result
    (heicConvert : Converter) (heicPath : string) (disk disk' : Fs.Disk)
    (outcome : Outcome string) :
  convertHeicToJpeg heicConvert heicPath disk = (disk', outcome) ->
  match outcome with
  | Returned jpegPath =>
      exists heic jpeg,
        disk !! heicPath = Some heic
        /\ heicConvert heic = inl jpeg
        /\ jpegPath = Records.converted_path heicPath
        /\ disk' = delete heicPath (<[jpegPath := jpeg]> disk)
        /\ disk' !! heicPath = None
        /\ (jpegPath <> heicPath -> disk' !! jpegPath = Some jpeg)
        /\ AnthropicService.getMediaType jpegPath = Some "image/jpeg"
  | Thrown e =>
      disk' = disk
      /\ JS.startsWith "Failed to convert HEIC file: " (message e) = true
      /\ res_status (errorHandler e) = (if JS.includes "Anthropic" (message e) then 503 else 500)
  end.
Proof.
  unfold convertHeicToJpeg, Fs.readFileSync, Fs.unlinkSync, Fs.writeFileSync.
  fold (Records.converted_path heicPath).
  destruct (disk !! heicPath) as [heic|] eqn:Hfile.
  - destruct (heicConvert heic) as [jpeg|msg] eqn:Hconv.
    + assert (Hstill : is_Some (<[Records.converted_path heicPath := jpeg]> disk !! heicPath)).
      { destruct (decide (Records.converted_path heicPath = heicPath)) as [->|Hne].
        - rewrite lookup_insert_eq. eauto.
        - rewrite lookup_insert_ne by exact Hne. eauto. }
      destruct Hstill as [x ->]. intros [= <- <-].
      exists heic, jpeg. repeat split; try assumption.
      * apply lookup_delete_eq.
      * intros Hne. rewrite lookup_delete_ne by congruence. apply lookup_insert_eq.
      * unfold Records.converted_path.
        destruct (join_ends_with_file (Path.parse_dir heicPath)
                    (Path.parse_name heicPath ++ ".jpg")) as [before ->].
        rewrite <- append_assoc. now rewrite getMediaType_by_extension.
    + intros [= <- <-]. split; [reflexivity|]. split; [reflexivity|].
      apply errorHandler_conversion_failed.
  - intros [= <- <-]. split; [reflexivity|]. split; [reflexivity|].
    apply errorHandler_conversion_failed.
Qed.

(** The theorem at a stored HEIC file and a converter that succeeds. *)
Lemma heic_conversion_result_witness :
  let heicPath := "/srv/app/uploads/id-1700000000000-123456789.heic" in
  let disk : Fs.Disk := {[ heicPath := "HEIC data" ]} in
  let disk' : Fs.Disk := {[ Examples.jpeg_path := "JPEG of HEIC data" ]} in
  convertHeicToJpeg Examples.converter heicPath disk = (disk', Returned Examples.jpeg_path)
  /\ exists heic jpeg,
       disk !! heicPath = Some heic
       /\ Examples.converter heic = inl jpeg
       /\ Examples.jpeg_path = Records.converted_path heicPath
       /\ disk' = delete heicPath (<[Examples.jpeg_path := jpeg]> disk)
       /\ disk' !! heicPath = None
       /\ (Examples.jpeg_path <> heicPath -> disk' !! Examples.jpeg_path = Some jpeg)
       /\ AnthropicService.getMediaType Examples.jpeg_path = Some "image/jpeg".
Proof.
  cbv zeta.
  assert (H : convertHeicToJpeg Examples.converter
                "/srv/app/uploads/id-1700000000000-123456789.heic"
                {[ "/srv/app/uploads/id-1700000000000-123456789.heic" := "HEIC data" ]}
              = ({[ Examples.jpeg_path := "JPEG of HEIC data" ]}, Returned Examples.jpeg_path))
    by (vm_compute; reflexivity).
  split; [exact H|].
  exact (heic_conversion_result _ _ _ _ _ H).
Defined.

(** X14.  A HEIC upload that is stored under a name ending in [.jpg] is
    lost.  The conversion writes the JPEG over the stored file and then
    removes "the HEIC file", which is that same path; the OCR client finds
    nothing to read, and the handler throws the [ENOENT] of the read.  The
    directory is left without the file. *)
Theorem heic_upload_named_jpg_is_lost
    (heicConvert : Converter) (rt : AnthropicService.Runtime)
    (file : File) (heic jpeg : string) (disk : Fs.Disk) :
  mimetype file = "image/heic" ->
  disk !! path file = Some heic ->
  heicConvert heic = inl jpeg ->
  Records.converted_path (path file) = path file ->
  uploadAndExtract heicConvert rt (Some file) disk
  = (delete (path file) disk, Thrown (Fs.ENOENT "open" (path file))).
Proof.
  intros Hmime Hfile Hconv Hsame.
  unfold uploadAndExtract, image_to_scan, convertIfHeic, convertHeicToJpeg,
    Fs.readFileSync, Fs.unlinkSync, Fs.writeFileSync.
  rewrite Hmime. cbn [String.eqb Ascii.eqb Bool.eqb andb]. rewrite Hfile, Hconv.
  fold (Records.converted_path (path file)).
  rewrite Hsame, lookup_insert_eq, delete_insert_eq.
  unfold AnthropicService.extractTextFromImage, AnthropicService.try_extract,
    Fs.readFileSync.
  rewrite lookup_delete_eq. cbn [AnthropicService.rethrow Fs.ENOENT plainError status].
  rewrite cleanup_on_error_missing by apply lookup_delete_eq. reflexivity.
Qed.

(** The theorem at a HEIC image that was sent under the name
    [card.jpg]. *)
Lemma heic_upload_named_jpg_is_lost_witness :
  let file := {| path := Examples.jpeg_path; originalname := "card.jpg";
                 mimetype := "image/heic"; size := 9 |} in
  let disk : Fs.Disk := {[ Examples.jpeg_path := "HEIC data" ]} in
  mimetype file = "image/heic"
  /\ disk !! path file = Some "HEIC data"
  /\ Examples.converter "HEIC data" = inl "JPEG of HEIC data"
  /\ Records.converted_path (path file) = path file
  /\ uploadAndExtract Examples.converter (Examples.replying "{}") (Some file) disk
     = (delete (path file) disk, Thrown (Fs.ENOENT "open" (path file))).
Proof.
  cbv zeta.
  set (file := {| path := Examples.jpeg_path; originalname := "card.jpg";
                  mimetype := "image/heic"; size := 9 |}).
  assert (H1 : mimetype file = "image/heic") by reflexivity.
  assert (H2 : ({[ Examples.jpeg_path := "HEIC data" ]} : Fs.Disk) !! path file
               = Some "HEIC data") by (vm_compute; reflexivity).
  assert (H3 : Examples.converter "HEIC data" = inl "JPEG of HEIC data") by reflexivity.
  assert (H4 : Records.converted_path (path file) = path file) by (vm_compute; reflexivity).
  repeat (split; [assumption|]).
  exact (heic_upload_named_jpg_is_lost Examples.converter (Examples.replying "{}")
           file "HEIC data" "JPEG of HEIC data" _ H1 H2 H3 H4).
Defined.

(** X15.  An accepted HEIC upload whose conversion fails: the stored
    HEIC file is removed, and the answer is the one to the error of the
    conversion, which names the failure. *)
Theorem failed_heic_conversion_removes_the_upload
    (cfg : Config) (heicConvert : Converter) (rt : AnthropicService.Runtime)
    (p : Part) (msg : string) (disk : Fs.Disk) :
  basename (part_filename p) <> "" ->
  fieldname p = "idImage" ->
  JS.toLowerCase (part_mimetype p) = "image/heic" ->
  Z.of_nat (String.length (content p)) < maxFileSize cfg ->
  heicConvert (content p) = inr msg ->
  upload_route cfg heicConvert rt (Some p) disk
  = (delete (Records.stored_path cfg p) disk,
     ErrorJson (errorHandler (conversion_failed msg)))
  /\ res_message (errorHandler (conversion_failed msg))
     = (if JS.includes "Anthropic" msg
        then "OCR service temporarily unavailable. Please try again later."
        else "Failed to convert HEIC file: " ++ msg).
Proof.
  intros Hname Hfield Hmime Hsize Hconv. split.
  - unfold upload_route.
    rewrite single_stores; [|exact Hname|exact Hfield|now rewrite Hmime|exact Hsize].
    set (file := {| path := _ |}).
    rewrite (failed_conversion_is_cleaned_up heicConvert rt file (content p) msg).
    + cbn [asyncHandler path file]. now rewrite delete_insert_eq.
    + exact Hmime.
    + apply join_not_empty, filename_not_empty.
    + apply lookup_insert_eq.
    + exact Hconv.
  - unfold errorHandler, conversion_failed, plainError; cbn [name message statusCode].
    cbn [String.eqb Ascii.eqb Bool.eqb].
    replace (JS.includes "Anthropic" ("Failed to convert HEIC file: " ++ msg))
      with (JS.includes "Anthropic" msg) by reflexivity.
    destruct (JS.includes "Anthropic" msg); reflexivity.
Qed.

(** The theorem at a converter that rejects the file. *)
Lemma failed_heic_conversion_removes_the_upload_witness :
  let heicConvert : Converter := fun _ => inr "not a HEIC image" in
  let p := Examples.heic_part in
  basename (part_filename p) <> ""
  /\ fieldname p = "idImage"
  /\ JS.toLowerCase (part_mimetype p) = "image/heic"
  /\ Z.of_nat (String.length (content p)) < maxFileSize Examples.upload_cfg
  /\ heicConvert (content p) = inr "not a HEIC image"
  /\ upload_route Examples.upload_cfg heicConvert (Examples.replying "{}") (Some p) ∅
     = (delete (Records.stored_path Examples.upload_cfg p) ∅,
        ErrorJson (errorHandler (conversion_failed "not a HEIC image")))
  /\ res_message (errorHandler (conversion_failed "not a HEIC image"))
     = "Failed to convert HEIC file: not a HEIC image".
Proof.
  cbv zeta.
  assert (H0 : basename (part_filename Examples.heic_part) <> "") by discriminate.
  assert (H1 : fieldname Examples.heic_part = "idImage") by reflexivity.
  assert (H2 : JS.toLowerCase (part_mimetype Examples.heic_part) = "image/heic")
    by reflexivity.
  assert (H3 : Z.of_nat (String.length (content Examples.heic_part))
               < maxFileSize Examples.upload_cfg) by (vm_compute; reflexivity).
  assert (H4 : (fun _ : string => @inr string string "not a HEIC image")
                 (content Examples.heic_part) = inr "not a HEIC image") by reflexivity.
  repeat (split; [assumption|]).
  exact (failed_heic_conversion_removes_the_upload Examples.upload_cfg
           (fun _ => inr "not a HEIC image") (Examples.replying "{}")
           Examples.heic_part "not a HEIC image" ∅ H0 H1 H2 H3 H4).
Defined.

(** X16.  An accepted HEIC upload that is converted and read: when the
    JPEG goes to another path than the stored file and the OCR client
    returns, neither file is left; a directory that held no file under
    either path is exactly as it was. *)
Theorem converted_upload_leaves_no_file
    (cfg : Config) (heicConvert : Converter) (rt : AnthropicService.Runtime)
    (p : Part) (jpeg : string) (disk : Fs.Disk) (extracted : gmap string string) :
  let stored := Records.stored_path cfg p in
  let jpegPath := Records.converted_path stored in
  basename (part_filename p) <> "" ->
  fieldname p = "idImage" ->
  JS.toLowerCase (part_mimetype p) = "image/heic" ->
  Z.of_nat (String.length (content p)) < maxFileSize cfg ->
  heicConvert (content p) = inl jpeg ->
  jpegPath <> stored ->
  AnthropicService.extractTextFromImage rt jpegPath
    (delete stored (<[jpegPath := jpeg]> (<[stored := content p]> disk)))
  = Returned extracted ->
  fst (upload_route cfg heicConvert rt (Some p) disk) = delete jpegPath (delete stored disk)
  /\ (disk !! stored = None -> disk !! jpegPath = None ->
      fst (upload_route cfg heicConvert rt (Some p) disk) = disk).
Proof.
  intros stored jpegPath Hname Hfield Hmime Hsize Hconv Hne Hocr.
  assert (H : fst (upload_route cfg heicConvert rt (Some p) disk)
              = delete jpegPath (delete stored disk)).
  { unfold upload_route.
    rewrite single_stores; [|exact Hname|exact Hfield|now rewrite Hmime|exact Hsize].
    fold stored. set (file := {| path := stored |}).
    pose proof (converted_upload_is_cleaned_up_on_success heicConvert rt file (content p) jpeg
                  (<[stored := content p]> disk) extracted) as Hclean.
    cbv zeta in Hclean. cbn [path file mimetype] in Hclean.
    fold (Records.converted_path stored) in Hclean. fold jpegPath in Hclean.
    destruct (uploadAndExtract _ _ _ _) as [disk2 outcome]. cbn [fst] in *.
    rewrite Hclean; [now rewrite delete_insert_eq|exact Hmime| |exact Hconv|exact Hne|exact Hocr].
    apply lookup_insert_eq. }
  split; [exact H|]. intros Hstored Hjpeg. rewrite H.
  rewrite (delete_id disk stored Hstored). now apply delete_id.
Qed.

(** The theorem at a HEIC image whose text the hosted model returns as
    an empty object. *)
Lemma converted_upload_leaves_no_file_witness :
  let p := Examples.heic_part in
  let stored := Records.stored_path Examples.upload_cfg p in
  let jpegPath := Records.converted_path stored in
  basename (part_filename p) <> ""
  /\ fieldname p = "idImage"
  /\ JS.toLowerCase (part_mimetype p) = "image/heic"
  /\ Z.of_nat (String.length (content p)) < maxFileSize Examples.upload_cfg
  /\ Examples.converter (content p) = inl "JPEG of HEIC data"
  /\ jpegPath <> stored
  /\ AnthropicService.extractTextFromImage (Examples.replying "{}") jpegPath
       (delete stored (<[jpegPath := "JPEG of HEIC data"]> (<[stored := content p]> ∅)))
     = Returned ∅
  /\ fst (upload_route Examples.upload_cfg Examples.converter (Examples.replying "{}")
            (Some p) ∅)
     = delete jpegPath (delete stored ∅)
  /\ ((∅ : Fs.Disk) !! stored = None -> (∅ : Fs.Disk) !! jpegPath = None ->
      fst (upload_route Examples.upload_cfg Examples.converter (Examples.replying "{}")
             (Some p) ∅) = ∅).
Proof.
  cbv zeta.
  set (p := Examples.heic_part).
  set (stored := Records.stored_path Examples.upload_cfg p).
  set (jpegPath := Records.converted_path stored).
  assert (H0 : basename (part_filename p) <> "") by discriminate.
  assert (H1 : fieldname p = "idImage") by reflexivity.
  assert (H2 : JS.toLowerCase (part_mimetype p) = "image/heic") by reflexivity.
  assert (H3 : Z.of_nat (String.length (content p)) < maxFileSize Examples.upload_cfg)
    by (vm_compute; reflexivity).
  assert (H4 : Examples.converter (content p) = inl "JPEG of HEIC data") by reflexivity.
  assert (H5 : jpegPath <> stored) by (vm_compute; discriminate).
  assert (H6 : AnthropicService.extractTextFromImage (Examples.replying "{}") jpegPath
                 (delete stored (<[jpegPath := "JPEG of HEIC data"]>
                                   (<[stored := content p]> ∅)))
               = Returned ∅) by (vm_compute; reflexivity).
  repeat (split; [assumption|]).
  exact (converted_upload_leaves_no_file Examples.upload_cfg Examples.converter
           (Examples.replying "{}") p "JPEG of HEIC data" ∅ ∅ H0 H1 H2 H3 H4 H5 H6).
Defined.



End Uploads.

Section StoredNames.
Import UploadMiddleware.

(** What follows the last separator is an end of the text. *)
Lemma after_last_suffix (sep : ascii) (s : string) :
  exists before, s = before ++ JS.after_last sep s.
Proof.
  induction s as [|c s [before IH]]; [now exists ""|].
  cbn [JS.after_last].
  destruct (Ascii.eqb c sep);
    [exists (String c before); rewrite append_cons; now f_equal|].
  destruct (JS.includes _ s);
    [exists (String c before); rewrite append_cons; now f_equal|].
  now exists "".
Qed.

Lemma string_of_uint_no_slash (d : Decimal.uint) :
  Path.contains "/" (NilEmpty.string_of_uint d) = false.
Proof. induction d; cbn [NilEmpty.string_of_uint]; rewrite ?contains_cons; auto. Qed.

Lemma decimal_no_slash (z : Z) : Path.contains "/" (JS.decimal z) = false.
Proof.
  unfold JS.decimal, NilEmpty.string_of_int.
  destruct (Z.to_int z); [|rewrite contains_cons]; apply string_of_uint_no_slash.
Qed.

Lemma extname_no_slash (p : string) : Path.contains "/" (Path.extname p) = false.
Proof.
  unfold Path.extname.
  destruct (negb _); [reflexivity|].
  destruct (String.eqb _ ""); [reflexivity|].
  destruct (String.eqb _ ".."); [reflexivity|].
  rewrite contains_cons. cbn [Ascii.eqb Bool.eqb orb].
  pose proof (after_last_clean "/" (Path.strip_trailing "/" p)) as Hbase.
  fold (Path.basename p) in Hbase.
  destruct (after_last_suffix "." (Path.basename p)) as [before Hsplit].
  rewrite Hsplit, contains_app in Hbase. now apply orb_false_iff in Hbase.
Qed.

(** X18.  Whatever file name the client sends, the name under which the
    file is stored starts with [id-] and holds no [/]: the client cannot
    steer the file out of the upload directory. *)
Theorem stored_name_has_no_separator (cfg : Config) (original : string) :
  Path.contains "/" (filename cfg original) = false
  /\ JS.startsWith "id-" (filename cfg original) = true.
Proof.
  unfold filename. split; [|reflexivity].
  rewrite !contains_app, !decimal_no_slash, extname_no_slash. reflexivity.
Qed.

End StoredNames.

(* ===================================================================== *)
(** * The fields the OCR client returns *)
(* ===================================================================== *)

Section NormalizedFields.
Import AnthropicService.

(** Where an entry of the normalised object comes from. *)
Lemma normalized_provenance (data : JEntries) (m : gmap string string) (k v : string) :
  normalizeExtractedData data = Some m ->
  m !! k = Some v ->
  exists key value text,
    In (key, value) data
    /\ truthy value = true
    /\ fieldMappings_get (JS.replace_spaces false (JS.toLowerCase key)) = Some k
    /\ toString value = Some text
    /\ v = clean k (JS.trim text).
Proof.
  revert m. induction data as [|[key value] data IH] using rev_ind; intros m.
  - intros [= <-]. rewrite lookup_empty. discriminate.
  - rewrite normalize_snoc.
    destruct (normalizeExtractedData data) as [m0|]; [|discriminate].
    assert (Hold : m0 !! k = Some v ->
                   exists key0 value0 text0,
                     In (key0, value0) (data ++ [(key, value)])
                     /\ truthy value0 = true
                     /\ fieldMappings_get (JS.replace_spaces false (JS.toLowerCase key0)) = Some k
                     /\ toString value0 = Some text0
                     /\ v = clean k (JS.trim text0)).
    { intros H. destruct (IH m0 eq_refl H) as (key0 & value0 & text0 & Hin & Hrest).
      exists key0, value0, text0. split; [apply in_or_app; now left|exact Hrest]. }
    unfold normalize_entry.
    destruct (fieldMappings_get _) as [normalizedKey|] eqn:Hkey; [|intros [= <-]; exact Hold].
    destruct (truthy value) eqn:Hvalue; [|intros [= <-]; exact Hold].
    destruct (toString value) as [text|] eqn:Htext; [|discriminate].
    intros [= <-].
    destruct (decide (normalizedKey = k)) as [->|Hne].
    + rewrite lookup_insert_eq. intros [= <-]. exists key, value, text.
      split; [apply in_or_app; right; now left|]. auto.
    + rewrite lookup_insert_ne by exact Hne. exact Hold.
Qed.

Lemma trimEnd_no_space (s : string) :
  JS.all_chars (fun c => negb (JS.is_space c)) s = true -> JS.trimEnd s = s.
Proof.
  induction s as [|c s IH]; [reflexivity|]. cbn. intros H.
  apply andb_true_iff in H as [Hc Hs]. rewrite (IH Hs).
  apply negb_true_iff in Hc. rewrite Hc. now destruct s.
Qed.

(** A text without white space is its own trimmed text. *)
Lemma trim_no_space (s : string) :
  JS.all_chars (fun c => negb (JS.is_space c)) s = true -> JS.trim s = s.
Proof.
  intros H. unfold JS.trim.
  assert (Hstart : JS.trimStart s = s).
  { destruct s as [|c s]; [reflexivity|]. cbn in *.
    apply andb_true_iff in H as [Hc _]. apply negb_true_iff in Hc. now rewrite Hc. }
  rewrite Hstart. now apply trimEnd_no_space.
Qed.

Lemma all_chars_impl (p q : ascii -> bool) (s : string) :
  (forall c, p c = true -> q c = true) ->
  JS.all_chars p s = true -> JS.all_chars q s = true.
Proof.
  intros Hpq. induction s as [|c s IH]; [reflexivity|]. cbn. intros H.
  apply andb_true_iff in H as [Hc Hs]. now rewrite (Hpq c Hc), IH.
Qed.

Lemma digit_is_no_space (c : ascii) : JS.is_digit c = true -> negb (JS.is_space c) = true.
Proof. destruct c as [[] [] [] [] [] [] [] []]; vm_compute; congruence. Qed.

Lemma trim_digits (s : string) : JS.all_chars JS.is_digit s = true -> JS.trim s = s.
Proof. intros H. apply trim_no_space. revert H. apply all_chars_impl, digit_is_no_space. Qed.

(** A trimmed text is empty or starts with a character that is no white
    space. *)
Lemma trim_head (s : string) :
  JS.trim s = "" \/ exists c t, JS.trim s = String c t /\ JS.is_space c = false.
Proof.
  unfold JS.trim. destruct (trimStart_head s) as [-> | (c & t & -> & Hc)]; [now left|].
  destruct (trimEnd_head c t Hc) as [u ->]. right. eauto.
Qed.

Lemma clean_middleInitial (value : string) :
  let v := clean "middleInitial" (JS.trim value) in
  JS.trim v = v /\ (String.length v <= 1)%nat /\ JS.toUpperCase v = v.
Proof.
  change (clean "middleInitial" (JS.trim value))
    with (JS.take 1 (JS.toUpperCase (JS.trim value))).
  cbv zeta. destruct (trim_head value) as [-> | (c & t & -> & Hc)]; [repeat split; cbn; lia|].
  cbn [JS.toUpperCase JS.map_chars JS.take]. split; [|split].
  - apply trim_no_space. cbn. now rewrite is_space_upper_char, Hc.
  - cbn. lia.
  - cbn. now rewrite upper_char_idempotent.
Qed.

Lemma clean_sex (value : string) : clean "sex" value = "M" \/ clean "sex" value = "F".
Proof.
  change (clean "sex" value)
    with (if JS.startsWith "m" (JS.toLowerCase value) then "M" else "F").
  destruct (JS.startsWith _ _); auto.
Qed.

(** What [clean] makes of a trimmed value, field by field. *)
Lemma clean_trimmed (k value : string) :
  let v := clean k (JS.trim value) in
  JS.trim v = v
  /\ (k = "sex" -> v = "M" \/ v = "F")
  /\ (k = "middleInitial" -> (String.length v <= 1)%nat /\ JS.toUpperCase v = v)
  /\ (k = "addressZip" -> Spec.zip_shaped v).
Proof.
  cbv zeta.
  destruct (String.eqb_spec k "middleInitial") as [->|Hmiddle].
  { destruct (clean_middleInitial value) as (H1 & H2 & H3).
    repeat split; intros; try discriminate; assumption. }
  destruct (String.eqb_spec k "sex") as [->|Hsex].
  { split; [destruct (clean_sex (JS.trim value)) as [-> | ->]; reflexivity|].
    repeat split; intros; try discriminate. apply clean_sex. }
  destruct (String.eqb_spec k "addressZip") as [->|Hzip].
  { pose proof (clean_zip_shaped (JS.trim value)) as Hshape.
    split; [apply trim_digits, Hshape|].
    repeat split; intros; try discriminate; apply Hshape. }
  assert (Hclean : clean k (JS.trim value) = JS.trim value).
  { unfold clean.
    destruct (String.eqb_spec k "middleInitial"); [contradiction|].
    destruct (String.eqb_spec k "sex"); [contradiction|].
    destruct (String.eqb_spec k "addressZip"); [contradiction|]. reflexivity. }
  rewrite Hclean. split; [apply trim_idempotent|].
  repeat split; intros; contradiction.
Qed.

Lemma normalized_clean_fields (data : JEntries) (m : gmap string string) :
  normalizeExtractedData data = Some m -> Records.clean_fields m.
Proof.
  intros Hdata k v H.
  destruct (normalized_provenance data m k v Hdata H) as (key & value & text & _ & _ & _ & _ & ->).
  apply clean_trimmed.
Qed.

(** X19.  Whatever object the hosted model returns, the fields the OCR
    client makes of it, when it returns any, are clean: no value has white
    space around it, a [sex] is [M] or [F], a [middleInitial] has one
    character at most and is in upper case, an [addressZip] is made of five
    digits at most.  Every field comes from an entry of the object whose
    value is truthy and has a text; an entry with [null], [false], [0] or
    the empty text sets nothing. *)
Theorem normalized_fields_are_clean (data : JEntries) (m : gmap string string) :
  normalizeExtractedData data = Some m ->
  Records.clean_fields m
  /\ forall k v,
       m !! k = Some v ->
       exists key value text,
         In (key, value) data /\ truthy value = true
         /\ toString value = Some text
         /\ v = clean k (JS.trim text).
Proof.
  intros Hdata. split; [now apply (normalized_clean_fields data)|].
  intros k v H.
  destruct (normalized_provenance data m k v Hdata H)
    as (key & value & text & Hin & Hvalue & _ & Htext & Hv).
  eauto 7.
Qed.

(** The theorem at a reply with a sex, a middle name, a ZIP code with
    its extension, and an empty city. *)
Lemma normalized_fields_are_clean_witness :
  let data := [("Gender", JString " male "); ("Middle Name", JString "quentin");
               ("ZIP", JString "62701-1234"); ("city", JString "")] in
  let m : gmap string string :=
    {[ "sex" := "M"; "middleInitial" := "Q"; "addressZip" := "62701" ]} in
  normalizeExtractedData data = Some m
  /\ Records.clean_fields m
  /\ forall k v,
       m !! k = Some v ->
       exists key value text,
         In (key, value) data /\ truthy value = true
         /\ toString value = Some text
         /\ v = clean k (JS.trim text).
Proof.
  cbv zeta.
  assert (H : normalizeExtractedData
                [("Gender", JString " male "); ("Middle Name", JString "quentin");
                 ("ZIP", JString "62701-1234"); ("city", JString "")]
              = Some {[ "sex" := "M"; "middleInitial" := "Q"; "addressZip" := "62701" ]})
    by (vm_compute; reflexivity).
  split; [exact H|].
  exact (normalized_fields_are_clean _ _ H).
Defined.

Lemma fieldMappings_range (key k : string) :
  fieldMappings !! key = Some k -> In k Records.canonical_fields.
Proof.
  intros H. apply elem_of_list_to_map_2 in H.
  repeat (apply elem_of_cons in H as [H | H]; [injection H as _ ->; cbn; tauto|]).
  now apply elem_of_nil in H.
Qed.

(** X20.  The keys of the object the OCR client returns are among the
    ten fields of [ExtractedIDData], or the text of a member that the
    dictionary inherits from [Object.prototype] (an entry named
    [constructor], say, sets such a key).  No other key of the reply gets
    through. *)
Theorem normalized_keys_are_canonical
    (data : JEntries) (m : gmap string string) (k : string) :
  normalizeExtractedData data = Some m ->
  is_Some (m !! k) ->
  In k Records.canonical_fields \/ exists member, Object_prototype !! member = Some k.
Proof.
  intros Hdata [v H].
  destruct (normalized_provenance data m k v Hdata H)
    as (key & value & text & _ & _ & Hkey & _).
  unfold fieldMappings_get in Hkey.
  destruct (fieldMappings !! _) as [k'|] eqn:Hmapped.
  - injection Hkey as <-. left. eapply fieldMappings_range, Hmapped.
  - right. eauto.
Qed.

(** The theorem at a reply with the keys [Surname] and [constructor]. *)
Lemma normalized_keys_are_canonical_witness :
  let data := [("Surname", JString " Doe "); ("constructor", JString "x")] in
  let m : gmap string string :=
    {[ "lastName" := "Doe"; native "Object" := "x" ]} in
  normalizeExtractedData data = Some m
  /\ is_Some (m !! native "Object")
  /\ (In (native "Object") Records.canonical_fields
      \/ exists member, Object_prototype !! member = Some (native "Object")).
Proof.
  cbv zeta.
  assert (H1 : normalizeExtractedData
                 [("Surname", JString " Doe "); ("constructor", JString "x")]
               = Some {[ "lastName" := "Doe"; native "Object" := "x" ]})
    by (vm_compute; reflexivity).
  assert (H2 : is_Some (({[ "lastName" := "Doe"; native "Object" := "x" ]}
                          : gmap string string) !! native "Object"))
    by (vm_compute; eauto).
  split; [exact H1|]. split; [exact H2|].
  exact (normalized_keys_are_canonical _ _ _ H1 H2).
Defined.

Lemma lower_upper_char (c : ascii) : JS.lower_char (JS.upper_char c) = JS.lower_char c.
Proof. each_char c. Qed.

Lemma toLowerCase_toUpperCase (s : string) :
  JS.toLowerCase (JS.toUpperCase s) = JS.toLowerCase s.
Proof.
  induction s as [|c s IH]; [reflexivity|].
  cbn. rewrite lower_upper_char. f_equal. exact IH.
Qed.

Lemma toLowerCase_idempotent (s : string) :
  JS.toLowerCase (JS.toLowerCase s) = JS.toLowerCase s.
Proof.
  induction s as [|c s IH]; [reflexivity|].
  cbn. f_equal; [each_char c|exact IH].
Qed.

Lemma normalize_entries_map (f : string -> string) (data : JEntries) :
  (forall key, JS.toLowerCase (f key) = JS.toLowerCase key) ->
  forall acc,
    normalize_entries acc (map (fun entry => (f (fst entry), snd entry)) data)
    = normalize_entries acc data.
Proof.
  intros Hf. unfold normalize_entries.
  induction data as [|[key value] data IH]; intros acc; [reflexivity|].
  cbn [map foldl fst snd]. rewrite IH. f_equal.
  destruct acc as [m|]; [|reflexivity].
  unfold normalize_entry. now rewrite Hf.
Qed.

(** X21.  For a reply whose keys are made of ASCII characters, the
    letter case of the keys does not matter: the reply with every key in
    upper case, and the reply with every key in lower case, where those
    keys are still distinct, give what the reply itself gives, the same
    fields or the same error. *)
Theorem normalization_ignores_the_case_of_keys (data : JEntries) :
  Forall (fun entry => JS.all_chars JS.is_ascii (fst entry) = true) data ->
  (NoDup (map (fun entry => JS.toUpperCase (fst entry)) data) ->
   normalizeExtractedData (map (fun entry => (JS.toUpperCase (fst entry), snd entry)) data)
   = normalizeExtractedData data)
  /\ (NoDup (map (fun entry => JS.toLowerCase (fst entry)) data) ->
      normalizeExtractedData (map (fun entry => (JS.toLowerCase (fst entry), snd entry)) data)
      = normalizeExtractedData data).
Proof.
  intros _. split; intros _; apply normalize_entries_map;
    auto using toLowerCase_toUpperCase, toLowerCase_idempotent.
Qed.

(** The theorem at a reply with the keys [Surname] and [zip]. *)
Lemma normalization_ignores_the_case_of_keys_witness :
  let data := [("Surname", JString "Doe"); ("zip", JString "62701")] in
  Forall (fun entry => JS.all_chars JS.is_ascii (fst entry) = true) data
  /\ NoDup (map (fun entry => JS.toUpperCase (fst entry)) data)
  /\ normalizeExtractedData [("SURNAME", JString "Doe"); ("ZIP", JString "62701")]
     = normalizeExtractedData data.
Proof.
  cbv zeta.
  set (data := [("Surname", JString "Doe"); ("zip", JString "62701")]).
  assert (H1 : Forall (fun entry => JS.all_chars JS.is_ascii (fst entry) = true) data)
    by (repeat constructor).
  assert (H2 : NoDup (map (fun entry => JS.toUpperCase (fst entry)) data)).
  { apply NoDup_cons_2; [|apply NoDup_singleton].
    intros H. apply list_elem_of_singleton in H. discriminate. }
  split; [exact H1|]. split; [exact H2|].
  exact (proj1 (normalization_ignores_the_case_of_keys data H1) H2).
Defined.

End NormalizedFields.

(* ===================================================================== *)
(** * POST /api/id/upload: the answer to an upload that succeeds *)
(* ===================================================================== *)

Section Answers.
Import ErrorHandler UploadMiddleware UploadController AnthropicService.

(** The OCR client returns nothing but normalised objects. *)
Lemma extracted_is_normalized rt imagePath disk extracted :
  extractTextFromImage rt imagePath disk = Returned extracted ->
  exists data, normalizeExtractedData data = Some extracted.
Proof.
  unfold extractTextFromImage, try_extract, parse_reply.
  destruct (Fs.readFileSync imagePath disk); [|discriminate].
  destruct (getMediaType imagePath); [|discriminate].
  destruct (messages_create rt _ _) as [[|[text|type] blocks]|e]; try discriminate.
  destruct (jsonMatch text); [|discriminate].
  destruct (JSON_parse rt _) as [data|]; [|discriminate].
  destruct (normalizeExtractedData data) as [m|] eqn:Hdata; [|discriminate].
  intros [= <-]. eauto.
Qed.

(** What the middleware did when it passed the request on. *)
Lemma single_returned cfg part disk disk1 req_file :
  single cfg part disk = (disk1, Returned req_file) ->
  match req_file with
  | None => True
  | Some file =>
      exists p,
        part = Some p
        /\ basename (part_filename p) <> ""
        /\ fieldname p = "idImage"
        /\ fileFilter (JS.toLowerCase (part_mimetype p)) = true
        /\ Z.of_nat (String.length (content p)) < maxFileSize cfg
        /\ file = {| path := Records.stored_path cfg p;
                     originalname := basename (part_filename p);
                     mimetype := JS.toLowerCase (part_mimetype p);
                     size := Z.of_nat (String.length (content p)) |}
  end.
Proof.
  unfold single. destruct part as [p|]; [|now intros [= <- <-]].
  destruct (String.eqb_spec (basename (part_filename p)) "") as [|Hname];
    [now intros [= <- <-]|].
  destruct (String.eqb_spec (fieldname p) "idImage") as [Hfield|]; [|discriminate].
  cbn [negb].
  destruct (fileFilter (JS.toLowerCase (part_mimetype p))) eqn:Hfilter; [|discriminate].
  cbn [negb]. destruct (Z.leb_spec (maxFileSize cfg) (Z.of_nat (String.length (content p))));
    [discriminate|].
  intros [= <- <-]. exists p. auto 7.
Qed.

(** X22.  Every upload that is answered with data is answered 200, for
    a file that came under the field [idImage], with a file name, an
    allowed MIME type and fewer bytes than the size limit.  The answer
    gives the file name without the directories it was sent with, the MIME
    type in lower case (the one of a HEIC file, not the one of its JPEG)
    and the size of the file, and its fields are clean in the sense
    above. *)
Theorem successful_upload_answer
    (cfg : Config) (heicConvert : HeicConversionService.Converter) (rt : Runtime)
    (part : option Part) (disk disk' : Fs.Disk) (code : Z) (body : UploadData) :
  0 < maxFileSize cfg ->
  upload_route cfg heicConvert rt part disk = (disk', Json code body) ->
  code = 200
  /\ exists p,
       part = Some p
       /\ fieldname p = "idImage"
       /\ fileFilter (JS.toLowerCase (part_mimetype p)) = true
       /\ fileName body = basename (part_filename p)
       /\ fileName body <> ""
       /\ mimeType body = JS.toLowerCase (part_mimetype p)
       /\ fileSize body = Z.of_nat (String.length (content p))
       /\ fileSize body < maxFileSize cfg
       /\ Records.clean_fields (extractedData body).
Proof.
  intros _. unfold upload_route.
  destruct (single cfg part disk) as [disk1 [req_file|e]] eqn:Hsingle; [|discriminate].
  apply single_returned in Hsingle.
  unfold uploadAndExtract.
  destruct req_file as [file|]; [|discriminate].
  destruct Hsingle as (p & -> & Hname & Hfield & Hfilter & Hsize & ->).
  destruct (image_to_scan heicConvert _ disk1) as [disk2 [imagePath|e]]; [|discriminate].
  destruct (extractTextFromImage rt imagePath disk2) as [extracted|e] eqn:Hocr;
    [|discriminate].
  apply extracted_is_normalized in Hocr as [data Hdata].
  intros [= <- <- <-]. split; [reflexivity|].
  exists p. cbn [fileName mimeType fileSize extractedData originalname mimetype size].
  do 8 (split; [assumption || reflexivity|]). now apply (normalized_clean_fields data).
Qed.

(** The theorem at a PNG image sent with a directory in its file name and
    its MIME type in upper case, whose text the hosted model returns as an
    empty object. *)
Lemma successful_upload_answer_witness :
  let part := {| fieldname := "idImage"; part_filename := "cards/scan.png";
                 part_mimetype := "IMAGE/PNG"; content := "PNG data" |} in
  let body := {| extractedData := ∅; fileName := "scan.png"; fileSize := 8;
                 mimeType := "image/png" |} in
  0 < maxFileSize Examples.upload_cfg
  /\ upload_route Examples.upload_cfg Examples.converter (Examples.replying "{}") (Some part) ∅
     = (∅, Json 200 body)
  /\ 200 = 200
  /\ exists p,
       Some part = Some p
       /\ fieldname p = "idImage"
       /\ fileFilter (JS.toLowerCase (part_mimetype p)) = true
       /\ fileName body = basename (part_filename p)
       /\ fileName body <> ""
       /\ mimeType body = JS.toLowerCase (part_mimetype p)
       /\ fileSize body = Z.of_nat (String.length (content p))
       /\ fileSize body < maxFileSize Examples.upload_cfg
       /\ Records.clean_fields (extractedData body).
Proof.
  cbv zeta.
  assert (H : upload_route Examples.upload_cfg Examples.converter (Examples.replying "{}")
                (Some {| fieldname := "idImage"; part_filename := "cards/scan.png";
                         part_mimetype := "IMAGE/PNG"; content := "PNG data" |}) ∅
              = (∅, Json 200 {| extractedData := ∅; fileName := "scan.png"; fileSize := 8;
                                mimeType := "image/png" |}))
    by (vm_compute; reflexivity).
  assert (H0 : 0 < maxFileSize Examples.upload_cfg) by reflexivity.
  split; [exact H0|]. split; [exact H|].
  exact (successful_upload_answer _ _ _ _ _ _ _ _ H0 H).
Defined.

End Answers.

(* ===================================================================== *)
(** * From the scan to the save *)
(* ===================================================================== *)

Section ScanThenSave.
Import ErrorHandler IDData SaveController AnthropicService.

Lemma eat_digits_app (a rest : string) :
  JS.all_chars JS.is_digit a = true -> eat_digits (String.length a) (a ++ rest) = Some rest.
Proof.
  induction a as [|c a IH]; [now rewrite append_empty_l|].
  cbn [JS.all_chars String.length]. intros H. apply andb_true_iff in H as [Hc Ha].
  rewrite append_cons. cbn [eat_digits]. rewrite Hc. now apply IH.
Qed.

Lemma append_length (a b : string) :
  String.length (a ++ b) = (String.length a + String.length b)%nat.
Proof.
  induction a as [|c a IH]; [now rewrite append_empty_l|].
  rewrite append_cons. cbn. now rewrite IH.
Qed.

(** X23.  What the save endpoint makes of the fields of a scan, when
    they are sent to it as they are.  The [sex] of a scan passes the
    enumeration of the request schema and the one of the model.  The
    [middleInitial] passes the length checks of both.  The [addressZip]
    passes the ZIP validator of the model exactly when it is empty or has
    five digits: a scan whose ZIP code has one to four digits is a record
    the save endpoint rejects. *)
Theorem scanned_fields_and_the_save_checks
    (data : JEntries) (m : gmap string string) (v : string) :
  normalizeExtractedData data = Some m ->
  (m !! "sex" = Some v ->
   z_sex (Some v) = [] /\ enum sex_values (set_trim_upper (Some v)) = true)
  /\ (m !! "middleInitial" = Some v ->
      z_string_max "middleInitial" 1 "1" (Some v) = []
      /\ maxlength 1 (set_trim_upper (Some v)) = true)
  /\ (m !! "addressZip" = Some v ->
      (falsy (set_trim (Some v)) || test re_zip (set_trim (Some v)) = true
       <-> v = "" \/ String.length v = 5%nat)).
Proof.
  intros Hdata.
  split; [|split]; intros H;
    apply (normalized_clean_fields data m Hdata) in H as (Htrim & Hsex & Hmid & Hzip).
  - destruct (Hsex eq_refl) as [-> | ->]; split; reflexivity.
  - destruct (Hmid eq_refl) as [Hlen Hupper].
    cbn [set_trim_upper fmap option_fmap option_map maxlength z_string_max].
    rewrite Htrim, Hupper. apply Nat.leb_le in Hlen. now rewrite Hlen.
  - destruct (Hzip eq_refl) as [Hdigits Hlen].
    cbn [set_trim fmap option_fmap option_map falsy test]. rewrite Htrim. split.
    + intros Hok. destruct (String.eqb_spec v "") as [->|_]; [now left|]. right.
      cbn [orb] in Hok. apply re_zip_us_zip in Hok as [[H5 _] | (a & b & -> & [Ha _] & [Hb _])];
        [exact H5|].
      rewrite !append_length, Ha, Hb in Hlen. cbn in Hlen. lia.
    + intros [-> | H5]; [reflexivity|]. apply orb_true_iff. right.
      pose proof (eat_digits_app v "" Hdigits) as Heat.
      rewrite append_empty_r, H5 in Heat.
      unfold re_zip, anchored. cbn [eat]. now rewrite Heat.
Qed.

(** The theorem at a scan with the ZIP code [123]: the save endpoint
    would refuse it. *)
Lemma scanned_fields_and_the_save_checks_witness :
  let data := [("gender", JString "Female"); ("zip", JString "123")] in
  let m : gmap string string := {[ "sex" := "F"; "addressZip" := "123" ]} in
  normalizeExtractedData data = Some m
  /\ m !! "addressZip" = Some "123"
  /\ (falsy (set_trim (Some "123")) || test re_zip (set_trim (Some "123")) = true
      <-> "123" = "" \/ String.length "123" = 5%nat)
  /\ falsy (set_trim (Some "123")) || test re_zip (set_trim (Some "123")) = false.
Proof.
  cbv zeta.
  assert (H1 : normalizeExtractedData [("gender", JString "Female"); ("zip", JString "123")]
               = Some {[ "sex" := "F"; "addressZip" := "123" ]}) by (vm_compute; reflexivity).
  assert (H2 : ({[ "sex" := "F"; "addressZip" := "123" ]} : gmap string string)
               !! "addressZip" = Some "123") by (vm_compute; reflexivity).
  split; [exact H1|]. split; [exact H2|].
  split; [|reflexivity].
  exact (proj2 (proj2 (scanned_fields_and_the_save_checks _ _ "123" H1)) H2).
Defined.

End ScanThenSave.
